(** * RETURNN dataset wrappers (returnn/torch/data/returnn_dataset_wrapper.py)

    A shallow embedding of the three adapter classes
    [IterableDatasetWrapper], [MapStyleDatasetPerEpochWrapper] and
    [MapStyleDatasetFullWrapper], of the part of the Python object protocol
    they rely on (attribute lookup on [self], truth values, object
    construction, generators), and of what the torch base class
    [IterDataPipe] does to the [reset] and [__iter__] of the stream
    wrapper.

    The wrapped RETURNN dataset is an opaque collaborator: each of its
    methods is a transformer of the outside world that may raise.  Every
    call a wrapper makes into the dataset or into the reset callback is
    recorded, with its result, in a trace, so that statements such as
    "called exactly once", "not read before loaded" or "the failure
    surfaces unchanged" can be phrased about the code itself. *)

From Stdlib Require Import ZArith.
From stdpp Require Import base strings gmap list.

Local Open Scope string_scope.
Local Open Scope Z_scope.
Local Open Scope list_scope.

(** ** Python exceptions and results *)

(** An exception is identified by its class name and its message. *)
Record exn := PyExc { exc_type : string; exc_msg : string }.

Inductive result (A : Type) :=
| Ok (a : A)
| Raise (e : exn).
Arguments Ok {A} a.
Arguments Raise {A} e.

Definition raised {A} (r : result A) : option exn :=
  match r with Ok _ => None | Raise e => Some e end.

(** [torch.utils.data.datapipes.datapipe._SnapshotState] *)
Inductive snapshot_state := NotStarted | Restored | Iterating.

Section Model.
(** [World] is the state of everything outside the wrappers (the dataset
    and whatever the callback touches); [ndarray] stands for
    [numpy.ndarray]. *)
Context {World ndarray : Type}.

(** [DatasetSeq] belongs to [returnn.datasets.basic]; the wrappers only
    read its [features] attribute, documented by [__getitem__] as a
    [dict[str, numpy.ndarray]]. *)
Record DatasetSeq := { features : gmap string ndarray }.

(** The part of [returnn.datasets.basic.Dataset] that the wrappers call.
    [num_seqs] is a property, the others are methods. *)
Record ReturnnDataset := {
  get_data_keys : World → result (list string) * World;
  is_less_than_num_seqs : Z → World → result bool * World;
  load_seqs : Z → Z → World → result unit * World;
  get_data : Z → string → World → result ndarray * World;
  num_seqs : World → result Z * World;
  get_total_num_seqs : World → result Z * World;
  have_corpus_seq_idx : World → result bool * World;
  have_get_corpus_seq : World → result bool * World;
  get_corpus_seq_idx : Z → World → result Z * World;
  get_corpus_seq : Z → World → result DatasetSeq * World
}.

(** [ResetCallbackT = Callable[[ReturnnDataset], None]]: any callable
    object.  [cb_call] is what calling it does; [cb_truth] is its truth
    value in a condition, which is true for a function and is what
    [__bool__] or [__len__] say for an object that defines one of them. *)
Record ResetCallbackT := {
  cb_call : ReturnnDataset → World → result unit * World;
  cb_truth : bool
}.

(** The values stored in the attributes of a wrapper: the two of its own
    and the integers and snapshot states that [IterDataPipe] keeps. *)
Inductive pyval :=
| VNone
| VDataset (d : ReturnnDataset)
| VCallable (f : ResetCallbackT)
| VInt (n : Z)
| VSnapshotState (s : snapshot_state).

(** The name of the type of a value, as error messages show it. *)
Definition type_name (v : pyval) : string :=
  match v with
  | VNone => "NoneType"
  | VDataset _ => "Dataset"
  | VCallable _ => "function"
  | VInt _ => "int"
  | VSnapshotState _ => "_SnapshotState"
  end.

(** [Optional[ResetCallbackT]] as a Python value. *)
Definition of_optional (cb : option ResetCallbackT) : pyval :=
  match cb with Some f => VCallable f | None => VNone end.

(** Truth value of an object in a condition: [None] and [0] are false, a
    callable has the truth value it declares, an enum member and an object
    without [__bool__] and [__len__] are true. *)
Definition truthy (v : pyval) : bool :=
  match v with
  | VNone => false
  | VDataset _ => true
  | VCallable f => cb_truth f
  | VInt n => negb (n =? 0)
  | VSnapshotState _ => true
  end.

(** An instance: its class name and its [__dict__]. *)
Record pyobject := { ob_type : string; ob_dict : gmap string pyval }.

(** One call from a wrapper into the outside world, with its result. *)
Inductive event :=
| EvGetDataKeys (d : ReturnnDataset) (r : result (list string))
| EvIsLessThanNumSeqs (d : ReturnnDataset) (n : Z) (r : result bool)
| EvLoadSeqs (d : ReturnnDataset) (start end_ : Z) (r : result unit)
| EvGetData (d : ReturnnDataset) (seq_idx : Z) (key : string) (r : result ndarray)
| EvNumSeqs (d : ReturnnDataset) (r : result Z)
| EvGetTotalNumSeqs (d : ReturnnDataset) (r : result Z)
| EvHaveCorpusSeqIdx (d : ReturnnDataset) (r : result bool)
| EvHaveGetCorpusSeq (d : ReturnnDataset) (r : result bool)
| EvGetCorpusSeqIdx (d : ReturnnDataset) (seq_idx : Z) (r : result Z)
| EvGetCorpusSeq (d : ReturnnDataset) (corpus_seq_idx : Z) (r : result DatasetSeq)
| EvResetCallback (f : ResetCallbackT) (d : ReturnnDataset) (r : result unit).

(** The exception an external call ended with, if any. *)
Definition ev_exn (ev : event) : option exn :=
  match ev with
  | EvGetDataKeys _ r => raised r
  | EvIsLessThanNumSeqs _ _ r => raised r
  | EvLoadSeqs _ _ _ r => raised r
  | EvGetData _ _ _ r => raised r
  | EvNumSeqs _ r => raised r
  | EvGetTotalNumSeqs _ r => raised r
  | EvHaveCorpusSeqIdx _ r => raised r
  | EvHaveGetCorpusSeq _ r => raised r
  | EvGetCorpusSeqIdx _ _ r => raised r
  | EvGetCorpusSeq _ _ r => raised r
  | EvResetCallback _ _ r => raised r
  end.

(** ** The monad of a method body

    A method runs on [self] and the world; it ends with a value or an
    exception, the new [self], the new world and the calls it made. *)
Record state := { self_obj : pyobject; world : World }.

Record outcome (A : Type) := {
  res : result A;
  post : state;
  trace : list event
}.
Arguments res {A} o.
Arguments post {A} o.
Arguments trace {A} o.

Definition M (A : Type) : Type := state → outcome A.

Definition M_ret {A} (a : A) : M A :=
  λ st, {| res := Ok a; post := st; trace := [] |}.

Definition M_bind {A B} (f : A → M B) (m : M A) : M B :=
  λ st,
    let o := m st in
    match res o with
    | Ok a =>
        let o' := f a (post o) in
        {| res := res o'; post := post o'; trace := trace o ++ trace o' |}
    | Raise e => {| res := Raise e; post := post o; trace := trace o |}
    end.

Definition M_throw {A} (e : exn) : M A :=
  λ st, {| res := Raise e; post := st; trace := [] |}.

(** [self.name] *)
Definition getattr (name : string) : M pyval :=
  λ st,
    match ob_dict (self_obj st) !! name with
    | Some v => M_ret v st
    | None =>
        M_throw (PyExc "AttributeError"
                   ("'" +:+ ob_type (self_obj st) +:+ "' object has no attribute '"
                    +:+ name +:+ "'")) st
    end.

(** [self.name = v] *)
Definition setattr (name : string) (v : pyval) : M unit :=
  λ st,
    let o := self_obj st in
    {| res := Ok tt;
       post := {| self_obj := {| ob_type := ob_type o; ob_dict := <[name := v]> (ob_dict o) |};
                  world := world st |};
       trace := [] |}.

(** A call that leaves the wrapper: it runs on the world and is logged. *)
Definition extern {A} (ev : result A → event) (f : World → result A * World) : M A :=
  λ st,
    let rw := f (world st) in
    {| res := rw.1;
       post := {| self_obj := self_obj st; world := rw.2 |};
       trace := [ev rw.1] |}.

(** [v.meth(...)] where [v] is expected to be the dataset: on any other
    value the attribute lookup of the method fails. *)
Definition dataset_method {A} (v : pyval) (meth : string)
    (ev : ReturnnDataset → result A → event)
    (f : ReturnnDataset → World → result A * World) : M A :=
  match v with
  | VDataset d => extern (ev d) (f d)
  | _ =>
      M_throw (PyExc "AttributeError"
                 ("'" +:+ type_name v +:+ "' object has no attribute '" +:+ meth +:+ "'"))
  end.

(** [f(arg)] where [f] is expected to be the reset callback. *)
Definition call_callback (f arg : pyval) : M unit :=
  match f with
  | VCallable cb =>
      match arg with
      | VDataset d => extern (EvResetCallback cb d) (cb_call cb d)
      | _ => M_throw (PyExc "TypeError" "reset callback applied to a non-dataset")
      end
  | _ => M_throw (PyExc "TypeError" ("'" +:+ type_name f +:+ "' object is not callable"))
  end.

End Model.

Arguments res {World ndarray A} o.
Arguments post {World ndarray A} o.
Arguments trace {World ndarray A} o.

Global Instance M_MRet {World ndarray} : MRet (@M World ndarray) := @M_ret World ndarray.
Global Instance M_MBind {World ndarray} : MBind (@M World ndarray) := @M_bind World ndarray.
Global Instance M_MThrow {World ndarray} : MThrow exn (@M World ndarray) := @M_throw World ndarray.


(** ** Generators

    A generator object made by the function [__iter__] of the class body is
    either not started, suspended at its [yield] with the values of its
    local variables, or finished. *)
Inductive gen_state :=
| GenCreated
| GenSuspended (data_keys : list string) (seq_index : Z)
| GenClosed.

(** The generator that [iter(wrapper)] returns is made by the hook that
    [IterDataPipe] puts around [__iter__]: it is not started, or suspended
    at the [yield] of the hook with its iterator id and the inner
    generator, or finished. *)
Inductive hooked_gen :=
| HookCreated
| HookRunning (iterator_id : Z) (gen : gen_state)
| HookClosed.

(** ** class IterDataPipe (torch.utils.data)

    The metaclass of [IterDataPipe] replaces the [reset] of a subclass by
    [conditional_reset] around it and its generator function [__iter__] by
    [wrap_generator] around it (torch/utils/data/datapipes/_typing.py and
    _hook_iterator.py).  The class attributes give the bookkeeping
    attributes their values while an instance has none of its own:
    [_valid_iterator_id = None], [_number_of_samples_yielded = 0],
    [_snapshot_state = NotStarted], [_fast_forward_iterator = None].

    The autograd profiler is off.  A fast-forward iterator, which only the
    snapshot restoring of torchdata stores in an instance, is not among the
    values of this model. *)
Module IterDataPipe.
Section Defs.
Context {World ndarray : Type}.
Abbreviation M := (@M World ndarray).
Abbreviation pyval := (@pyval World ndarray).

(** [self.name] for an attribute that the class defines: the value in the
    instance if there is one, the value in the class otherwise. *)
Definition class_attr (name : string) (in_class : pyval) : M pyval :=
  λ st, M_ret (default in_class (ob_dict (self_obj st) !! name)) st.

(** [state in (_SnapshotState.Iterating, _SnapshotState.NotStarted)] *)
Definition resettable (v : pyval) : bool :=
  match v with
  | VSnapshotState Iterating | VSnapshotState NotStarted => true
  | _ => false
  end.

(** [conditional_reset]: what [self.reset()] runs. *)
Definition conditional_reset (reset_func : M unit) : M unit :=
  s ← class_attr "_snapshot_state" (VSnapshotState NotStarted);
  (if resettable s then
     setattr "_number_of_samples_yielded" (VInt 0);;
     setattr "_fast_forward_iterator" VNone;;
     reset_func
   else mret tt);;
  setattr "_snapshot_state" (VSnapshotState Iterating).

(** [_set_datapipe_valid_iterator_id]: a new iterator id is stored, the
    pipe is reset and the id returned. *)
Definition _set_datapipe_valid_iterator_id (reset : M unit) : M Z :=
  v ← class_attr "_valid_iterator_id" VNone;
  iterator_id ← match v with
                | VNone => mret 0
                | VInt n => mret (n + 1)
                | _ =>
                    mthrow (PyExc "TypeError"
                              ("unsupported operand type(s) for +=: '" +:+ type_name v
                               +:+ "' and 'int'"))
                end;
  setattr "_valid_iterator_id" (VInt iterator_id);;
  reset;;
  mret iterator_id.

Definition newline : string := String (Ascii.ascii_of_nat 10) "".

(** [datapipe.__class__.__name__] *)
Definition class_name : M string := λ st, M_ret (ob_type (self_obj st)) st.

Definition feedback_msg : string :=
  newline +:+ "For feedback regarding this single iterator per IterDataPipe constraint, "
  +:+ "feel free to comment on this issue: https://github.com/pytorch/data/issues/45.".

(** The message of an invalidated iterator.  No member of the wrapper has
    the name of a parameter of its constructor, so the pipe is shown
    without arguments. *)
Definition invalidated_msg (cls : string) : string :=
  "This iterator has been invalidated because another iterator has been created "
  +:+ "from the same IterDataPipe: " +:+ cls +:+ "()" +:+ newline
  +:+ "This may be caused multiple references to the same IterDataPipe. We recommend "
  +:+ "using `.fork()` if that is necessary." +:+ feedback_msg.

(** [_check_iterator_valid]: refuses an iterator once a later one has been
    started on the same pipe. *)
Definition _check_iterator_valid (iterator_id : Z) : M unit :=
  v ← class_attr "_valid_iterator_id" VNone;
  cls ← class_name;
  match v with
  | VNone => mret tt
  | VInt n =>
      if n =? iterator_id then mret tt
      else mthrow (PyExc "RuntimeError" (invalidated_msg cls))
  | _ => mthrow (PyExc "RuntimeError" (invalidated_msg cls))
  end.

(** [datapipe._number_of_samples_yielded += 1] *)
Definition count_sample : M unit :=
  v ← class_attr "_number_of_samples_yielded" (VInt 0);
  match v with
  | VInt n => setattr "_number_of_samples_yielded" (VInt (n + 1))
  | _ =>
      mthrow (PyExc "TypeError"
                ("unsupported operand type(s) for +=: '" +:+ type_name v +:+ "' and 'int'"))
  end.

(** [sub in s] *)
Fixpoint contains (sub s : string) : bool :=
  String.prefix sub s
  || match s with
     | EmptyString => false
     | String _ s' => contains sub s'
     end.

(** The classes that [except Exception] does not catch. *)
Definition is_exception (exc : string) : bool :=
  negb (bool_decide (exc ∈ ["BaseException"; "KeyboardInterrupt"; "SystemExit";
                            "GeneratorExit"])).

(** The [except Exception as e] clause of [wrap_generator]: the exception
    is raised again, with one more line in its message unless it has it
    already or tells of an invalidated iterator. *)
Definition thrown_by (cls : string) (e : exn) : exn :=
  if is_exception (exc_type e) then
    if contains "thrown by __iter__ of" (exc_msg e)
       || contains "single iterator per IterDataPipe constraint" (exc_msg e)
    then e
    else PyExc (exc_type e)
           (exc_msg e +:+ newline +:+ "This exception is thrown by __iter__ of "
            +:+ cls +:+ "()")
  else e.

(** [try: ... except Exception as e: ...; raise] *)
Definition try_except {A} (m : M A) : M A :=
  λ st,
    let o := m st in
    match res o with
    | Ok a => o
    | Raise e =>
        {| res := Raise (thrown_by (ob_type (self_obj (post o))) e);
           post := post o; trace := trace o |}
    end.

(** What the hook does with the answer of [gen.send]: [None] is the
    [StopIteration] of the inner generator, on which the hook returns; a
    response is counted and then yielded. *)
Definition after_send {T} (iterator_id : Z) (response : option (T * gen_state))
    : M (option (T * hooked_gen)) :=
  match response with
  | None => mret None
  | Some (data, gen) =>
      count_sample;;
      mret (Some (data, HookRunning iterator_id gen))
  end.

(** The body of [wrap_generator], run from where the hooked generator
    stands to its next [yield] or to its end.  [send] resumes the generator
    of the wrapped [__iter__].  With a true [_fast_forward_iterator] the
    hook takes its items from that object, which here is no iterator. *)
Definition wrap_generator {T} (reset : M unit)
    (send : gen_state → M (option (T * gen_state))) (hg : hooked_gen)
    : M (option (T * hooked_gen)) :=
  match hg with
  | HookCreated =>
      it ← class_attr "_fast_forward_iterator" VNone;
      if truthy it then
        setattr "_fast_forward_iterator" VNone;;
        setattr "_snapshot_state" (VSnapshotState Iterating);;
        mthrow (PyExc "TypeError" ("'" +:+ type_name it +:+ "' object is not an iterator"))
      else
        iterator_id ← _set_datapipe_valid_iterator_id reset;
        try_except (response ← send GenCreated; after_send iterator_id response)
  | HookRunning iterator_id gen =>
      try_except (_check_iterator_valid iterator_id;;
                  response ← send gen;
                  after_send iterator_id response)
  | HookClosed => mret None
  end.

End Defs.
End IterDataPipe.

(** ** class IterableDatasetWrapper(torch.utils.data.IterDataPipe) *)
Module IterableDatasetWrapper.
Section Defs.
Context {World ndarray : Type}.
Abbreviation M := (@M World ndarray).
Abbreviation ReturnnDataset := (@ReturnnDataset World ndarray).
Abbreviation ResetCallbackT := (@ResetCallbackT World ndarray).

Definition __init__ (returnn_dataset : ReturnnDataset)
    (reset_callback : option ResetCallbackT) : M unit :=
  setattr "_dataset" (VDataset returnn_dataset);;
  setattr "_reset_callback" (of_optional reset_callback).

(** The function [reset] of the class body.  The metaclass of the base
    class puts it into the class under [conditional_reset]. *)
Definition reset_func : M unit :=
  c ← getattr "_reset_callback";
  if truthy c then
    f ← getattr "_reset_callback";
    d ← getattr "_dataset";
    call_callback f d
  else mret tt.

(** [wrapper.reset()] *)
Definition reset : M unit := IterDataPipe.conditional_reset reset_func.

(** [{data_key: self._dataset.get_data(seq_index, data_key) for data_key in data_keys}],
    filled key by key in the order of [data_keys]. *)
Fixpoint data_dict (seq_index : Z) (data_keys : list string)
    (data : gmap string ndarray) : M (gmap string ndarray) :=
  match data_keys with
  | [] => mret data
  | data_key :: rest =>
      d ← getattr "_dataset";
      v ← dataset_method d "get_data"
            (λ d, EvGetData d seq_index data_key) (λ d, get_data d seq_index data_key);
      data_dict seq_index rest (<[data_key := v]> data)
  end.

(** The [while] loop from its test up to the [yield]: [Some] holds the
    yielded dict and the suspended generator, [None] is the end of the
    loop. *)
Definition loop_head (data_keys : list string) (seq_index : Z)
    : M (option (gmap string ndarray * gen_state)) :=
  d ← getattr "_dataset";
  more ← dataset_method d "is_less_than_num_seqs"
           (λ d, EvIsLessThanNumSeqs d seq_index) (λ d, is_less_than_num_seqs d seq_index);
  if (more : bool) then
    d ← getattr "_dataset";
    dataset_method d "load_seqs"
      (λ d, EvLoadSeqs d seq_index (seq_index + 1))
      (λ d, load_seqs d seq_index (seq_index + 1));;
    data ← data_dict seq_index data_keys ∅;
    mret (Some (data, GenSuspended data_keys seq_index))
  else mret None.

(** The body of the function [__iter__] of the class body, run from where
    its generator stands to its next [yield] or to its end. *)
Definition resume (g : gen_state) : M (option (gmap string ndarray * gen_state)) :=
  match g with
  | GenCreated =>
      d ← getattr "_dataset";
      data_keys ← dataset_method d "get_data_keys" EvGetDataKeys get_data_keys;
      loop_head data_keys 0
  | GenSuspended data_keys seq_index => loop_head data_keys (seq_index + 1)
  | GenClosed => mret None
  end.

(** [iter(wrapper)]: the class holds the generator function under the hook
    of the base class; calling it only makes the generator object. *)
Definition __iter__ : hooked_gen := HookCreated.

(** [next(it)] for an iterator [it] of the wrapper: [Ok None] stands for
    [StopIteration]; a generator that returned or raised is finished. *)
Definition next (g : hooked_gen) (st : state)
    : outcome (option (gmap string ndarray)) * hooked_gen :=
  let o := IterDataPipe.wrap_generator reset resume g st in
  match res o with
  | Ok (Some (data, g')) => ({| res := Ok (Some data); post := post o; trace := trace o |}, g')
  | Ok None => ({| res := Ok None; post := post o; trace := trace o |}, HookClosed)
  | Raise e => ({| res := Raise e; post := post o; trace := trace o |}, HookClosed)
  end.

Definition __getitem__ (index : Z) : M (gmap string ndarray) :=
  λ st,
    M_throw (PyExc "Exception" (ob_type (self_obj st) +:+ ".__getitem__ not supported")) st.

End Defs.
End IterableDatasetWrapper.

(** ** class MapStyleDatasetPerEpochWrapper(torch.utils.data.MapDataPipe) *)
Module MapStyleDatasetPerEpochWrapper.
Section Defs.
Context {World ndarray : Type}.
Abbreviation M := (@M World ndarray).
Abbreviation ReturnnDataset := (@ReturnnDataset World ndarray).
Abbreviation ResetCallbackT := (@ResetCallbackT World ndarray).

(** [assert a() and b()]: [b] is only called when [a] is true. *)
Definition __int__ (returnn_dataset : ReturnnDataset)
    (reset_callback : option ResetCallbackT) : M unit :=
  a ← extern (EvHaveCorpusSeqIdx returnn_dataset) (have_corpus_seq_idx returnn_dataset);
  c ← (if (a : bool)
       then extern (EvHaveGetCorpusSeq returnn_dataset) (have_get_corpus_seq returnn_dataset)
       else mret false);
  (if (c : bool) then mret tt else mthrow (PyExc "AssertionError" ""));;
  setattr "_dataset" (VDataset returnn_dataset);;
  setattr "_reset_callback" (of_optional reset_callback).

Definition reset : M unit :=
  c ← getattr "_reset_callback";
  if truthy c then
    f ← getattr "_reset_callback";
    d ← getattr "_dataset";
    call_callback f d
  else mret tt.

Definition __len__ : M Z :=
  d ← getattr "_dataset";
  dataset_method d "num_seqs" EvNumSeqs num_seqs.

Definition __getitem__ (index : Z) : M (gmap string ndarray) :=
  d ← getattr "_dataset";
  corpus_seq_idx ← dataset_method d "get_corpus_seq_idx"
                     (λ d, EvGetCorpusSeqIdx d index) (λ d, get_corpus_seq_idx d index);
  d ← getattr "_dataset";
  seq ← dataset_method d "get_corpus_seq"
          (λ d, EvGetCorpusSeq d corpus_seq_idx) (λ d, get_corpus_seq d corpus_seq_idx);
  mret (features seq).

End Defs.
End MapStyleDatasetPerEpochWrapper.

(** ** class MapStyleDatasetFullWrapper(torch.utils.data.MapDataPipe) *)
Module MapStyleDatasetFullWrapper.
Section Defs.
Context {World ndarray : Type}.
Abbreviation M := (@M World ndarray).
Abbreviation ReturnnDataset := (@ReturnnDataset World ndarray).
Abbreviation ResetCallbackT := (@ResetCallbackT World ndarray).

Definition __int__ (returnn_dataset : ReturnnDataset)
    (reset_callback : option ResetCallbackT) : M unit :=
  c ← extern (EvHaveGetCorpusSeq returnn_dataset) (have_get_corpus_seq returnn_dataset);
  (if (c : bool) then mret tt else mthrow (PyExc "AssertionError" ""));;
  setattr "_dataset" (VDataset returnn_dataset);;
  setattr "_reset_callback" (of_optional reset_callback).

Definition reset : M unit :=
  c ← getattr "_reset_callback";
  if truthy c then
    f ← getattr "_reset_callback";
    d ← getattr "_dataset";
    call_callback f d
  else mret tt.

Definition __len__ : M Z :=
  d ← getattr "_dataset";
  dataset_method d "get_total_num_seqs" EvGetTotalNumSeqs get_total_num_seqs.

Definition __getitem__ (index : Z) : M (gmap string ndarray) :=
  d ← getattr "_dataset";
  seq ← dataset_method d "get_corpus_seq"
          (λ d, EvGetCorpusSeq d index) (λ d, get_corpus_seq d index);
  mret (features seq).

End Defs.
End MapStyleDatasetFullWrapper.

(** ** Classes and object construction *)
Section Classes.
Context {World ndarray : Type}.
Abbreviation M' := (@M World ndarray).

(** The functions found in the class bodies, by signature. *)
Inductive pymethod :=
| FnInit (f : @ReturnnDataset World ndarray → option (@ResetCallbackT World ndarray) → M' unit)
| FnReset (f : M' unit)
| FnLen (f : M' Z)
| FnGetItem (f : Z → M' (gmap string ndarray))
| FnIter (f : hooked_gen → M' (option (gmap string ndarray * hooked_gen))).

(** A class: its name and its namespace, which the class body and, for the
    stream wrapper, the metaclass of [IterDataPipe] have filled. *)
Record pyclass := { cls_name : string; cls_dict : gmap string pymethod }.

Definition IterableDatasetWrapper_class : pyclass :=
  {| cls_name := "IterableDatasetWrapper";
     cls_dict := {[ "__init__" := FnInit IterableDatasetWrapper.__init__;
                    "reset" := FnReset IterableDatasetWrapper.reset;
                    "__iter__" := FnIter (IterDataPipe.wrap_generator
                                            IterableDatasetWrapper.reset
                                            IterableDatasetWrapper.resume);
                    "__getitem__" := FnGetItem IterableDatasetWrapper.__getitem__ ]} |}.

Definition MapStyleDatasetPerEpochWrapper_class : pyclass :=
  {| cls_name := "MapStyleDatasetPerEpochWrapper";
     cls_dict := {[ "__int__" := FnInit MapStyleDatasetPerEpochWrapper.__int__;
                    "reset" := FnReset MapStyleDatasetPerEpochWrapper.reset;
                    "__len__" := FnLen MapStyleDatasetPerEpochWrapper.__len__;
                    "__getitem__" := FnGetItem MapStyleDatasetPerEpochWrapper.__getitem__ ]} |}.

Definition MapStyleDatasetFullWrapper_class : pyclass :=
  {| cls_name := "MapStyleDatasetFullWrapper";
     cls_dict := {[ "__int__" := FnInit MapStyleDatasetFullWrapper.__int__;
                    "reset" := FnReset MapStyleDatasetFullWrapper.reset;
                    "__len__" := FnLen MapStyleDatasetFullWrapper.__len__;
                    "__getitem__" := FnGetItem MapStyleDatasetFullWrapper.__getitem__ ]} |}.

(** The arguments of a constructor call: [cls()] or
    [cls(returnn_dataset, reset_callback=...)]. *)
Inductive call_args :=
| NoArgs
| DatasetArgs (returnn_dataset : @ReturnnDataset World ndarray)
              (reset_callback : option (@ResetCallbackT World ndarray)).

Definition new_object (cls : pyclass) : pyobject (World := World) (ndarray := ndarray) :=
  {| ob_type := cls_name cls; ob_dict := ∅ |}.

Definition this : M' pyobject := λ st, M_ret (self_obj st) st.

(** A constructor call [cls(...)]: a fresh instance is made and [__init__]
    is looked up in the class.  The torch base classes [IterDataPipe] and
    [MapDataPipe] define no [__init__] and no [__new__], so a class without
    [__init__] of its own inherits the ones of [object], which accept no
    argument.  Only initializers with the signature of the three classes
    occur. *)
Definition type_call (cls : pyclass) (args : call_args) (w : World) : outcome pyobject :=
  let st := {| self_obj := new_object cls; world := w |} in
  match cls_dict cls !! "__init__" with
  | Some (FnInit init) =>
      match args with
      | DatasetArgs returnn_dataset reset_callback =>
          (init returnn_dataset reset_callback;; this) st
      | NoArgs =>
          M_throw (PyExc "TypeError"
                     ("__init__() missing 1 required positional argument: 'returnn_dataset'")) st
      end
  | Some _ => M_throw (PyExc "TypeError" "__init__() has an unexpected signature") st
  | None =>
      match args with
      | NoArgs => this st
      | DatasetArgs _ _ =>
          M_throw (PyExc "TypeError" (cls_name cls +:+ "() takes no arguments")) st
      end
  end.

(** ** A consumer of the stream

    [for data in wrapper: body(data)], cut after [fuel] items: the
    generator is resumed until it ends, raises, or the consumer stops. *)
Inductive ending :=
| Exhausted
| Failed (e : exn)
| Pending (g : hooked_gen).

Record run := {
  items : list (gmap string ndarray);
  ended : ending;
  final : @state World ndarray;
  calls : list (@event World ndarray)
}.

Fixpoint consume (body : gmap string ndarray → World → World) (fuel : nat)
    (g : hooked_gen) (st : state) : run :=
  match fuel with
  | O => {| items := []; ended := Pending g; final := st; calls := [] |}
  | S fuel' =>
      let og := IterableDatasetWrapper.next g st in
      match res og.1 with
      | Raise e =>
          {| items := []; ended := Failed e; final := post og.1; calls := trace og.1 |}
      | Ok None =>
          {| items := []; ended := Exhausted; final := post og.1; calls := trace og.1 |}
      | Ok (Some data) =>
          let st' := {| self_obj := self_obj (post og.1);
                        world := body data (world (post og.1)) |} in
          let r := consume body fuel' og.2 st' in
          {| items := data :: items r; ended := ended r; final := final r;
             calls := trace og.1 ++ calls r |}
      end
  end.

End Classes.

(** ** A small concrete dataset

    Two sequences with the fields "data" and "classes"; arrays are numbers;
    the world is the list of the ranges loaded so far, latest first.  A
    sequence can only be read once it has been loaded. *)
Module Example.

Definition toy_value (i : Z) (k : string) : Z :=
  10 * i + (if String.eqb k "data" then 1 else 2).

Definition toy_loaded (i : Z) (w : list (Z * Z)) : bool :=
  existsb (λ r, (r.1 <=? i) && (i <? r.2)) w.

Definition toy : @ReturnnDataset (list (Z * Z)) Z := {|
  get_data_keys := λ w, (Ok ["data"; "classes"], w);
  is_less_than_num_seqs := λ n w, (Ok (n <? 2), w);
  load_seqs := λ s e w, (Ok tt, (s, e) :: w);
  get_data := λ i k w,
    (if toy_loaded i w then Ok (toy_value i k) else Raise (PyExc "AssertionError" "not loaded"), w);
  num_seqs := λ w, (Ok 2, w);
  get_total_num_seqs := λ w, (Ok 5, w);
  have_corpus_seq_idx := λ w, (Ok true, w);
  have_get_corpus_seq := λ w, (Ok true, w);
  get_corpus_seq_idx := λ i w, (Ok (4 - i), w);
  get_corpus_seq := λ c w,
    (if (0 <=? c) && (c <? 5) then Ok {| features := {[ "data" := 100 + c ]} |}
     else Raise (PyExc "IndexError" "corpus seq idx out of range"), w)
|}.

(** A dataset that declares neither corpus capability. *)
Definition plain : @ReturnnDataset (list (Z * Z)) Z := {|
  get_data_keys := get_data_keys toy;
  is_less_than_num_seqs := is_less_than_num_seqs toy;
  load_seqs := load_seqs toy;
  get_data := get_data toy;
  num_seqs := num_seqs toy;
  get_total_num_seqs := get_total_num_seqs toy;
  have_corpus_seq_idx := λ w, (Ok false, w);
  have_get_corpus_seq := λ w, (Ok false, w);
  get_corpus_seq_idx := λ i w, (Raise (PyExc "NotImplementedError" ""), w);
  get_corpus_seq := λ c w, (Raise (PyExc "NotImplementedError" ""), w)
|}.

(** A reset callback: a function that forgets what was loaded. *)
Definition init_epoch : @ResetCallbackT (list (Z * Z)) Z :=
  {| cb_call := λ _ _, (Ok tt, []); cb_truth := true |}.

(** A callable object that counts as false in a condition, as one whose
    class defines [__len__] and returns 0. *)
Definition mute : @ResetCallbackT (list (Z * Z)) Z :=
  {| cb_call := λ _ _, (Ok tt, []); cb_truth := false |}.

(** A dataset that cannot read its second sequence. *)
Definition broken : @ReturnnDataset (list (Z * Z)) Z := {|
  get_data_keys := λ w, (Ok ["data"; "classes"], w);
  is_less_than_num_seqs := λ n w, (Ok (n <? 2), w);
  load_seqs := λ s e w, (Ok tt, (s, e) :: w);
  get_data := λ i k w,
    (if i =? 1 then Raise (PyExc "OSError" "cannot read") else Ok (10 * i), w);
  num_seqs := λ w, (Ok 2, w);
  get_total_num_seqs := λ w, (Ok 5, w);
  have_corpus_seq_idx := λ w, (Ok true, w);
  have_get_corpus_seq := λ w, (Ok true, w);
  get_corpus_seq_idx := λ i w, (Ok i, w);
  get_corpus_seq := λ c w, (Raise (PyExc "IndexError" "corpus seq idx out of range"), w)
|}.

(** A wrapper instance whose two attributes are set. *)
Definition wrapper (cls : string) (cb : option (@ResetCallbackT (list (Z * Z)) Z))
    : @pyobject (list (Z * Z)) Z :=
  {| ob_type := cls;
     ob_dict := <["_reset_callback" := of_optional cb]> (<["_dataset" := VDataset toy]> ∅) |}.

Definition start (cls : string) (cb : option (@ResetCallbackT (list (Z * Z)) Z))
    : @state (list (Z * Z)) Z :=
  {| self_obj := wrapper cls cb; world := [] |}.

(** The same instance once the first sequence has been loaded. *)
Definition loaded (cls : string) (cb : option (@ResetCallbackT (list (Z * Z)) Z))
    : @state (list (Z * Z)) Z :=
  {| self_obj := wrapper cls cb; world := [(0, 1)] |}.

(** An instance of a class before any initializer has run. *)
Definition blank (cls : @pyclass (list (Z * Z)) Z) : @state (list (Z * Z)) Z :=
  {| self_obj := new_object cls; world := [] |}.

(** Leave the world alone between two items. *)
Definition idle : gmap string Z → list (Z * Z) → list (Z * Z) := λ _ w, w.

(** A dataset that has the corpus index mapping but not [get_corpus_seq]. *)
Definition half : @ReturnnDataset (list (Z * Z)) Z := {|
  get_data_keys := get_data_keys toy;
  is_less_than_num_seqs := is_less_than_num_seqs toy;
  load_seqs := load_seqs toy;
  get_data := get_data toy;
  num_seqs := num_seqs toy;
  get_total_num_seqs := get_total_num_seqs toy;
  have_corpus_seq_idx := λ w, (Ok true, w);
  have_get_corpus_seq := λ w, (Ok false, w);
  get_corpus_seq_idx := get_corpus_seq_idx toy;
  get_corpus_seq := λ c w, (Raise (PyExc "NotImplementedError" ""), w)
|}.

(** A dataset without any sequence. *)
Definition empty : @ReturnnDataset (list (Z * Z)) Z := {|
  get_data_keys := get_data_keys toy;
  is_less_than_num_seqs := λ n w, (Ok false, w);
  load_seqs := load_seqs toy;
  get_data := get_data toy;
  num_seqs := λ w, (Ok 0, w);
  get_total_num_seqs := λ w, (Ok 0, w);
  have_corpus_seq_idx := have_corpus_seq_idx toy;
  have_get_corpus_seq := have_get_corpus_seq toy;
  get_corpus_seq_idx := get_corpus_seq_idx toy;
  get_corpus_seq := get_corpus_seq toy
|}.

(** An instance holding the dataset [d] and no callback. *)
Definition holding (d : @ReturnnDataset (list (Z * Z)) Z) : @state (list (Z * Z)) Z :=
  {| self_obj := {| ob_type := "IterableDatasetWrapper";
                    ob_dict := <["_reset_callback" := VNone]> (<["_dataset" := VDataset d]> ∅) |};
     world := [] |}.

(** A stream wrapper as its constructor leaves it, in a world where the
    first sequence has been loaded. *)
Definition stream (d : @ReturnnDataset (list (Z * Z)) Z)
    (cb : option (@ResetCallbackT (list (Z * Z)) Z)) : @state (list (Z * Z)) Z :=
  {| self_obj := {| ob_type := "IterableDatasetWrapper";
                    ob_dict := <["_reset_callback" := of_optional cb]>
                                 (<["_dataset" := VDataset d]> ∅) |};
     world := [(0, 1)] |}.

(** What an iteration of [toy] yields, and the calls of its two turns. *)
Definition toy_items : list (gmap string Z) :=
  [ <["classes" := 2]> (<["data" := 1]> ∅); <["classes" := 12]> (<["data" := 11]> ∅) ].

Definition toy_turns : list (@event (list (Z * Z)) Z) :=
  EvIsLessThanNumSeqs toy 0 (Ok true) :: EvLoadSeqs toy 0 1 (Ok tt)
  :: [EvGetData toy 0 "data" (Ok 1); EvGetData toy 0 "classes" (Ok 2)]
  ++ (EvIsLessThanNumSeqs toy 1 (Ok true) :: EvLoadSeqs toy 1 2 (Ok tt)
      :: [EvGetData toy 1 "data" (Ok 11); EvGetData toy 1 "classes" (Ok 12)] ++ []).

(** The read at which [broken] fails. *)
Definition broken_read : @event (list (Z * Z)) Z :=
  EvGetData broken 1 "data" (Raise (PyExc "OSError" "cannot read")).

End Example.


(** ** Observations on instances and traces *)
Section Observations.
Context {World ndarray : Type}.
Implicit Types (self : @pyobject World ndarray) (d : @ReturnnDataset World ndarray).
Implicit Types (tr : list (@event World ndarray)).

(** [self._dataset] is the dataset [d]. *)
Definition holds_dataset self d : Prop :=
  ob_dict self !! "_dataset" = Some (VDataset d).

(** [self._reset_callback] is [cb], a function or [None]. *)
Definition holds_callback self (cb : option (@ResetCallbackT World ndarray)) : Prop :=
  ob_dict self !! "_reset_callback" = Some (of_optional cb).

(** The calls of [is_less_than_num_seqs] in a trace, in order: the index
    asked and the answer. *)
Definition has_more_of (ev : @event World ndarray) : option (Z * result bool) :=
  match ev with EvIsLessThanNumSeqs _ n r => Some (n, r) | _ => None end.
Definition has_more tr : list (Z * result bool) := omap has_more_of tr.

(** The calls of [load_seqs] in a trace, in order. *)
Definition load_of (ev : @event World ndarray) : option (Z * Z * result unit) :=
  match ev with EvLoadSeqs _ s e r => Some (s, e, r) | _ => None end.
Definition last_load tr : option (Z * Z * result unit) := last (omap load_of tr).

(** The result of the latest [get_data(i, k)] in a trace. *)
Definition read_of (i : Z) (k : string) (ev : @event World ndarray) : option (result ndarray) :=
  match ev with
  | EvGetData _ j k' r => if decide (j = i ∧ k' = k) then Some r else None
  | _ => None
  end.
Definition last_read (i : Z) (k : string) tr : option (result ndarray) :=
  last (omap (read_of i k) tr).

(** An outcome lets the failure [e] of the call [ev] through: if [ev] is
    among its calls, it is the last one and the outcome is [e] itself. *)
Definition surfaces {A} (ev : @event World ndarray) (e : exn)
    (o : @outcome World ndarray A) : Prop :=
  ev ∈ trace o → res o = Raise e ∧ last (trace o) = Some ev.

(** An outcome is an exception of the class [exc]. *)
Definition raises {A} (exc : string) (o : @outcome World ndarray A) : Prop :=
  ∃ msg, res o = Raise (PyExc exc msg).

(** On the instance [self], a method body ends in [AttributeError]
    before it makes any call, whatever the world is. *)
Definition fails_on_attribute {A} (m : @M World ndarray A) self : Prop :=
  ∀ w, raises "AttributeError" (m {| self_obj := self; world := w |})
       ∧ trace (m {| self_obj := self; world := w |}) = []
       ∧ post (m {| self_obj := self; world := w |}) = {| self_obj := self; world := w |}.

(** A method body leaves [self] as it found it, however it ends. *)
Definition keeps_self {A} (m : @M World ndarray A) : Prop :=
  ∀ st, self_obj (post (m st)) = self_obj st.

(** A method body lets every failure of its external calls through. *)
Definition propagates {A} (m : @M World ndarray A) : Prop :=
  ∀ st ev e, ev_exn ev = Some e → surfaces ev e (m st).

(** *** The shape of an iteration

    The calls of one dict comprehension at the index [i]: one [get_data]
    per key, in the order of the keys, up to the first that raises. *)
Inductive reads_of d (i : Z) :
    list string → gmap string ndarray → result (gmap string ndarray) →
    list (@event World ndarray) → Prop :=
| reads_done data : reads_of d i [] data (Ok data) []
| reads_fail k ks data e :
    reads_of d i (k :: ks) data (Raise e) [EvGetData d i k (Raise e)]
| reads_next k ks data v r tr :
    reads_of d i ks (<[k := v]> data) r tr →
    reads_of d i (k :: ks) data r (EvGetData d i k (Ok v) :: tr).

(** The calls of one turn of the loop at the index [i], with its result. *)
Inductive step_of d (keys : list string) (i : Z) :
    result (option (gmap string ndarray * gen_state)) →
    list (@event World ndarray) → Prop :=
| step_stop : step_of d keys i (Ok None) [EvIsLessThanNumSeqs d i (Ok false)]
| step_more_fails e : step_of d keys i (Raise e) [EvIsLessThanNumSeqs d i (Raise e)]
| step_load_fails e :
    step_of d keys i (Raise e)
      [EvIsLessThanNumSeqs d i (Ok true); EvLoadSeqs d i (i + 1) (Raise e)]
| step_read_fails e tr :
    reads_of d i keys ∅ (Raise e) tr →
    step_of d keys i (Raise e)
      (EvIsLessThanNumSeqs d i (Ok true) :: EvLoadSeqs d i (i + 1) (Ok tt) :: tr)
| step_yield data tr :
    reads_of d i keys ∅ (Ok data) tr →
    step_of d keys i (Ok (Some (data, GenSuspended keys i)))
      (EvIsLessThanNumSeqs d i (Ok true) :: EvLoadSeqs d i (i + 1) (Ok tt) :: tr).

(** The result and the calls of one turn of the hooked generator
    [iterator_id] at the index [i]: the turn of the loop, unless the hook
    refused the iterator before; a turn of the loop that yields makes the
    hook yield, unless the hook fails to count the sample. *)
Definition turn_of d (keys : list string) (i : Z) (iterator_id : Z)
    (r : result (option (gmap string ndarray * hooked_gen)))
    (tr : list (@event World ndarray)) : Prop :=
  match r with
  | Ok None => step_of d keys i (Ok None) tr
  | Ok (Some (data, hg)) =>
      hg = HookRunning iterator_id (GenSuspended keys i)
      ∧ step_of d keys i (Ok (Some (data, GenSuspended keys i))) tr
  | Raise _ =>
      tr = [] ∨ (∃ e, step_of d keys i (Raise e) tr)
      ∨ (∃ data g, step_of d keys i (Ok (Some (data, g))) tr)
  end.

(** The items, the end and the calls of an iteration of at most [n] turns
    by a generator suspended at the index [p].  A turn fails when the
    generator raises, when the hook of the base class refuses the iterator
    before it resumes the generator, or when the hook fails to count the
    sample the generator gave. *)
Inductive iteration d (keys : list string) :
    Z → nat → list (gmap string ndarray) → ending → list (@event World ndarray) → Prop :=
| iteration_pending p g : iteration d keys p 0 [] (Pending g) []
| iteration_stop p n tr :
    step_of d keys (p + 1) (Ok None) tr → iteration d keys p (S n) [] Exhausted tr
| iteration_fail p n e e' tr :
    step_of d keys (p + 1) (Raise e) tr → iteration d keys p (S n) [] (Failed e') tr
| iteration_refused p n e : iteration d keys p (S n) [] (Failed e) []
| iteration_uncounted p n e data g tr :
    step_of d keys (p + 1) (Ok (Some (data, g))) tr →
    iteration d keys p (S n) [] (Failed e) tr
| iteration_yield p n data tr its en tr' :
    step_of d keys (p + 1) (Ok (Some (data, GenSuspended keys (p + 1)))) tr →
    iteration d keys (p + 1) n its en tr' →
    iteration d keys p (S n) (data :: its) en (tr ++ tr').

End Observations.

(** ** Further observations on the calls of an iteration *)
Section StreamObservations.
Context {World ndarray : Type}.
Implicit Types (d : @ReturnnDataset World ndarray) (tr : list (@event World ndarray)).
Implicit Types (w : World).

(** The keys asked by the calls [get_data(i, _)] of a trace, in order. *)
Definition read_key_of (i : Z) (ev : @event World ndarray) : option string :=
  match ev with
  | EvGetData _ j k _ => if decide (j = i) then Some k else None
  | _ => None
  end.
Definition reads_at (i : Z) tr : list string := omap (read_key_of i) tr.

(** The calls of [load_seqs] in a trace, in order. *)
Definition loads tr : list (Z * Z * result unit) := omap load_of tr.

(** The one call that [reset()] can make: the callback on [d]. *)
Definition reset_calls d tr : Prop :=
  tr = [] ∨ ∃ f x, tr = [EvResetCallback f d x].

(** A call of one of the four dataset methods the stream needs, on [d]. *)
Definition stream_call d (ev : @event World ndarray) : Prop :=
  match ev with
  | EvGetDataKeys d' _ | EvIsLessThanNumSeqs d' _ _
  | EvLoadSeqs d' _ _ _ | EvGetData d' _ _ _ => d' = d
  | _ => False
  end.

(** What [self] is after the two assignments of an initializer. *)
Definition initialized (self : @pyobject World ndarray) d
    (cb : option (@ResetCallbackT World ndarray)) : @pyobject World ndarray :=
  {| ob_type := ob_type self;
     ob_dict := <["_reset_callback" := of_optional cb]>
                  (<["_dataset" := VDataset d]> (ob_dict self)) |}.

(** *** The bookkeeping of [IterDataPipe] in an instance *)

Definition pipe_attrs : list string :=
  ["_valid_iterator_id"; "_number_of_samples_yielded"; "_snapshot_state";
   "_fast_forward_iterator"].

(** [self'] is [self] up to the bookkeeping attributes: same class, same
    value or absence of every other attribute. *)
Definition same_own (self self' : @pyobject World ndarray) : Prop :=
  ob_type self' = ob_type self
  ∧ ∀ name, name ∉ pipe_attrs → ob_dict self' !! name = ob_dict self !! name.

(** A method body leaves everything but the bookkeeping of [self] as it
    found it, however it ends. *)
Definition keeps_own {A} (m : @M World ndarray A) : Prop :=
  ∀ st, same_own (self_obj st) (self_obj (post (m st))).

(** The snapshot state of an instance. *)
Definition snapshot_of (self : @pyobject World ndarray) : @pyval World ndarray :=
  default (VSnapshotState NotStarted) (ob_dict self !! "_snapshot_state").

(** The bookkeeping as the class, the constructor and the operations of
    the wrapper leave it: no fast-forward iterator, a snapshot state in
    which [reset()] resets, and no iterator id or a number. *)
Definition pipe_usable (self : @pyobject World ndarray) : bool :=
  negb (truthy (default VNone (ob_dict self !! "_fast_forward_iterator")))
  && IterDataPipe.resettable (snapshot_of self)
  && match default VNone (ob_dict self !! "_valid_iterator_id") with
     | VNone | VInt _ => true
     | _ => false
     end.

(** A method body leaves a usable pipe usable, however it ends. *)
Definition keeps_usable {A} (m : @M World ndarray A) : Prop :=
  ∀ st, pipe_usable (self_obj st) = true → pipe_usable (self_obj (post (m st))) = true.

(** [self] after a [reset()] that reset: the sample count and the
    fast-forward iterator are cleared before the callback runs, the snapshot
    state is set once it has returned. *)
Definition reset_marks (r : result unit) (self : @pyobject World ndarray)
    : @pyobject World ndarray :=
  let started := <["_fast_forward_iterator" := VNone]>
                   (<["_number_of_samples_yielded" := VInt 0]> (ob_dict self)) in
  {| ob_type := ob_type self;
     ob_dict := match r with
                | Ok _ => <["_snapshot_state" := VSnapshotState Iterating]> started
                | Raise _ => started
                end |}.

(** [self] after a [reset()] in the restored snapshot state. *)
Definition resumed (self : @pyobject World ndarray) : @pyobject World ndarray :=
  {| ob_type := ob_type self;
     ob_dict := <["_snapshot_state" := VSnapshotState Iterating]> (ob_dict self) |}.

(** *** What the dataset and the callback do when asked

    The result, the world and the call of running the callback an instance
    holds: a callable that counts as true is called on the dataset, [None]
    and a callable that counts as false are not. *)
Record effect := {
  eff_res : result unit;
  eff_world : World;
  eff_calls : list (@event World ndarray)
}.

Definition callback_run (cb : option (@ResetCallbackT World ndarray)) d (w : World) : effect :=
  match cb with
  | Some f =>
      if cb_truth f then
        {| eff_res := (cb_call f d w).1; eff_world := (cb_call f d w).2;
           eff_calls := [EvResetCallback f d (cb_call f d w).1] |}
      else {| eff_res := Ok tt; eff_world := w; eff_calls := [] |}
  | None => {| eff_res := Ok tt; eff_world := w; eff_calls := [] |}
  end.

(** From the world [w], [get_data(i, k)] returns a value for each key in
    turn; [data'] is [data] with these values at these keys, a later value
    for a key replacing an earlier one. *)
Inductive fields d (i : Z) :
    list string → gmap string ndarray → World →
    gmap string ndarray → list (@event World ndarray) → World → Prop :=
| fields_nil data w : fields d i [] data w data [] w
| fields_cons k ks data w v w1 data' tr w' :
    get_data d i k w = (Ok v, w1) →
    fields d i ks (<[k := v]> data) w1 data' tr w' →
    fields d i (k :: ks) data w data' (EvGetData d i k (Ok v) :: tr) w'.

(** From the index [i] and the world [w], the dataset serves the sequences
    of these items to a consumer [body]: for each in turn
    [is_less_than_num_seqs] answers true, [load_seqs] of the one-element
    range returns, the fields are read, and the consumer has its turn. *)
Inductive serves d (keys : list string) (body : gmap string ndarray → World → World) :
    Z → World → list (gmap string ndarray) → list (@event World ndarray) → World → Prop :=
| serves_nil i w : serves d keys body i w [] [] w
| serves_cons i w w1 w2 data tr w3 its tr' w' :
    is_less_than_num_seqs d i w = (Ok true, w1) →
    load_seqs d i (i + 1) w1 = (Ok tt, w2) →
    fields d i keys ∅ w2 data tr w3 →
    serves d keys body (i + 1) (body data w3) its tr' w' →
    serves d keys body i w (data :: its)
      (EvIsLessThanNumSeqs d i (Ok true) :: EvLoadSeqs d i (i + 1) (Ok tt) :: tr ++ tr') w'.

(** The iterator [iterator_id] is the valid one of the instance and the
    count of samples is a number, as the hook leaves them. *)
Definition tracking (iterator_id : Z) (self : @pyobject World ndarray) : Prop :=
  ob_dict self !! "_valid_iterator_id" = Some (VInt iterator_id)
  ∧ ∃ n, default (VInt 0) (ob_dict self !! "_number_of_samples_yielded") = VInt n.

(** A logged call is genuine: its result is what the function of the
    dataset, or the callback, returns for the logged arguments in some
    world. *)
Definition genuine (ev : @event World ndarray) : Prop :=
  match ev with
  | EvGetDataKeys d x => ∃ w, x = (get_data_keys d w).1
  | EvIsLessThanNumSeqs d n x => ∃ w, x = (is_less_than_num_seqs d n w).1
  | EvLoadSeqs d s e x => ∃ w, x = (load_seqs d s e w).1
  | EvGetData d i k x => ∃ w, x = (get_data d i k w).1
  | EvNumSeqs d x => ∃ w, x = (num_seqs d w).1
  | EvGetTotalNumSeqs d x => ∃ w, x = (get_total_num_seqs d w).1
  | EvHaveCorpusSeqIdx d x => ∃ w, x = (have_corpus_seq_idx d w).1
  | EvHaveGetCorpusSeq d x => ∃ w, x = (have_get_corpus_seq d w).1
  | EvGetCorpusSeqIdx d i x => ∃ w, x = (get_corpus_seq_idx d i w).1
  | EvGetCorpusSeq d c x => ∃ w, x = (get_corpus_seq d c w).1
  | EvResetCallback f d x => ∃ w, x = (cb_call f d w).1
  end.

(** Every call a method body makes satisfies [P]. *)
Definition emits (P : @event World ndarray → Prop) {A} (m : @M World ndarray A) : Prop :=
  ∀ st, Forall P (trace (m st)).

(** The exception with which an iteration ends when the call [ev] raised
    [e]: the callback runs outside the [try] of the hook, the dataset
    inside. *)
Definition leaves_as (cls : string) (ev : @event World ndarray) (e : exn) : exn :=
  match ev with
  | EvResetCallback _ _ _ => e
  | _ => IterDataPipe.thrown_by cls e
  end.

End StreamObservations.


(** ** Properties *)
Section Properties.
Context {World ndarray : Type}.
Implicit Types (st : @state World ndarray) (d : @ReturnnDataset World ndarray).
Implicit Types (self : @pyobject World ndarray).
Implicit Types (tr pre post : list (@event World ndarray)).
Implicit Types (w : World).
Abbreviation Meth := (@M World ndarray).
Abbreviation keeps := (keeps_self (World := World) (ndarray := ndarray)).
Abbreviation owns := (keeps_own (World := World) (ndarray := ndarray)).
Abbreviation lets_through := (propagates (World := World) (ndarray := ndarray)).
Abbreviation stays_usable := (keeps_usable (World := World) (ndarray := ndarray)).

Lemma bind_run {A B} (m : Meth A) (f : A → Meth B) st :
  (m ≫= f) st =
    match res (m st) with
    | Ok a => {| res := res (f a (post (m st)));
                 post := post (f a (post (m st)));
                 trace := trace (m st) ++ trace (f a (post (m st))) |}
    | Raise e => {| res := Raise e; post := post (m st); trace := trace (m st) |}
    end.
Proof. reflexivity. Qed.

Lemma getattr_found name v st :
  ob_dict (self_obj st) !! name = Some v →
  getattr name st = {| res := Ok v; post := st; trace := [] |}.
Proof. intros H. unfold getattr. rewrite H. reflexivity. Qed.

Lemma getattr_missing name st :
  ob_dict (self_obj st) !! name = None →
  res (getattr name st) =
    Raise (PyExc "AttributeError"
             ("'" +:+ ob_type (self_obj st) +:+ "' object has no attribute '" +:+ name +:+ "'"))
  ∧ post (getattr name st) = st ∧ trace (getattr name st) = [].
Proof. intros H. unfold getattr. rewrite H. done. Qed.

(** Run the next attribute read of a method body, given the fact [H]
    about [self] that decides it. *)
Ltac read_attr H :=
  rewrite bind_run; erewrite getattr_found by exact H; cbn.

(** Run the next external call, given its result [H]. *)
Ltac run_call H := rewrite bind_run; cbn; rewrite H; cbn.

(** *** Length *)

(** C3: [__len__] of the per-epoch wrapper is the dataset's [num_seqs] and
    [__len__] of the full wrapper is the dataset's [get_total_num_seqs()]:
    the result of that single call is returned as it is, whatever it is. *)
Theorem len_is_dataset_count d st (H : holds_dataset (self_obj st) d) :
  MapStyleDatasetPerEpochWrapper.__len__ st =
    {| res := (num_seqs d (world st)).1;
       post := {| self_obj := self_obj st; world := (num_seqs d (world st)).2 |};
       trace := [EvNumSeqs d (num_seqs d (world st)).1] |}
  ∧ MapStyleDatasetFullWrapper.__len__ st =
    {| res := (get_total_num_seqs d (world st)).1;
       post := {| self_obj := self_obj st; world := (get_total_num_seqs d (world st)).2 |};
       trace := [EvGetTotalNumSeqs d (get_total_num_seqs d (world st)).1] |}.
Proof.
  split.
  - unfold MapStyleDatasetPerEpochWrapper.__len__.
    rewrite bind_run, (getattr_found _ _ _ H). reflexivity.
  - unfold MapStyleDatasetFullWrapper.__len__.
    rewrite bind_run, (getattr_found _ _ _ H). reflexivity.
Qed.

(** *** Random access *)

(** C2: the per-epoch wrapper first maps the index through
    [get_corpus_seq_idx] and asks [get_corpus_seq] for the result; the full
    wrapper asks [get_corpus_seq] for the index itself and makes no other
    call.  Both return the [features] of the sequence they got. *)
Theorem getitem_addressing d st (index : Z) (H : holds_dataset (self_obj st) d) :
  (∀ corpus_seq_idx w1 seq w2,
     get_corpus_seq_idx d index (world st) = (Ok corpus_seq_idx, w1) →
     get_corpus_seq d corpus_seq_idx w1 = (Ok seq, w2) →
     MapStyleDatasetPerEpochWrapper.__getitem__ index st =
       {| res := Ok (features seq);
          post := {| self_obj := self_obj st; world := w2 |};
          trace := [EvGetCorpusSeqIdx d index (Ok corpus_seq_idx);
                    EvGetCorpusSeq d corpus_seq_idx (Ok seq)] |})
  ∧ (∀ seq w1,
     get_corpus_seq d index (world st) = (Ok seq, w1) →
     MapStyleDatasetFullWrapper.__getitem__ index st =
       {| res := Ok (features seq);
          post := {| self_obj := self_obj st; world := w1 |};
          trace := [EvGetCorpusSeq d index (Ok seq)] |}).
Proof.
  split.
  - intros c w1 seq w2 Hidx Hseq.
    unfold MapStyleDatasetPerEpochWrapper.__getitem__.
    read_attr H. run_call Hidx. read_attr H. run_call Hseq. reflexivity.
  - intros seq w1 Hseq.
    unfold MapStyleDatasetFullWrapper.__getitem__.
    read_attr H. run_call Hseq. reflexivity.
Qed.

(** C10: [__getitem__] of the stream wrapper raises its [Exception] for
    every index and every instance, without a call to the dataset. *)
Theorem iterable_getitem_unsupported st (index : Z) :
  IterableDatasetWrapper.__getitem__ index st =
    {| res := Raise (PyExc "Exception"
                       (ob_type (self_obj st) +:+ ".__getitem__ not supported"));
       post := st;
       trace := [] |}.
Proof. reflexivity. Qed.

(** *** Reset *)

Lemma reset_bodies_agree :
  @MapStyleDatasetPerEpochWrapper.reset World ndarray = IterableDatasetWrapper.reset_func
  ∧ @MapStyleDatasetFullWrapper.reset World ndarray = IterableDatasetWrapper.reset_func.
Proof. split; reflexivity. Qed.

Lemma state_eta st : {| self_obj := self_obj st; world := world st |} = st.
Proof. by destruct st. Qed.

(** The function [reset] of a class body runs the callback that the
    instance holds. *)
Lemma reset_func_run d st cb (Hd : holds_dataset (self_obj st) d)
    (Hc : holds_callback (self_obj st) cb) :
  IterableDatasetWrapper.reset_func st =
    {| res := eff_res (callback_run cb d (world st));
       post := {| self_obj := self_obj st; world := eff_world (callback_run cb d (world st)) |};
       trace := eff_calls (callback_run cb d (world st)) |}.
Proof.
  unfold IterableDatasetWrapper.reset_func.
  read_attr Hc. destruct cb as [f|]; cbn.
  - destruct (cb_truth f); cbn.
    + read_attr Hc. read_attr Hd. reflexivity.
    + by rewrite state_eta.
  - by rewrite state_eta.
Qed.

(** [reset()] of the stream wrapper: the bookkeeping of the base class
    around the function of the class body. *)
Lemma stream_reset_run d st cb (Hd : holds_dataset (self_obj st) d)
    (Hc : holds_callback (self_obj st) cb) :
  IterableDatasetWrapper.reset st =
    if IterDataPipe.resettable (snapshot_of (self_obj st)) then
      {| res := eff_res (callback_run cb d (world st));
         post := {| self_obj := reset_marks (eff_res (callback_run cb d (world st))) (self_obj st);
                    world := eff_world (callback_run cb d (world st)) |};
         trace := eff_calls (callback_run cb d (world st)) |}
    else
      {| res := Ok tt;
         post := {| self_obj := resumed (self_obj st); world := world st |};
         trace := [] |}.
Proof.
  unfold IterableDatasetWrapper.reset, IterDataPipe.conditional_reset.
  rewrite bind_run. cbn. fold (snapshot_of (self_obj st)).
  destruct (IterDataPipe.resettable (snapshot_of (self_obj st))); [|reflexivity].
  rewrite !bind_run. cbn.
  rewrite (reset_func_run d _ cb)
    by (unfold holds_dataset, holds_callback; cbn; by rewrite !lookup_insert_ne).
  cbn. destruct (eff_res (callback_run cb d (world st))) as [[]|e]; cbn;
    rewrite ?app_nil_r; reflexivity.
Qed.

(** C6 (as amended): [reset()] of each wrapper calls the callback it holds
    exactly once, on the dataset it holds, and ends as that call ends, if
    the callback counts as true in a condition, as every function does;
    with no callback, or one that counts as false, it makes no call and
    leaves the world alone.  The map-style wrappers then leave [self] as it
    was.  The stream wrapper runs this under the [reset] of its base
    class, which writes its bookkeeping into [self], and which in the
    restored snapshot state skips the callback altogether. *)
Theorem reset_invokes_callback_once d st cb
    (Hd : holds_dataset (self_obj st) d) (Hc : holds_callback (self_obj st) cb) :
  let expected (self' : result unit → pyobject) :=
    match cb with
    | Some f =>
        if cb_truth f then
          {| res := (cb_call f d (world st)).1;
             post := {| self_obj := self' (cb_call f d (world st)).1;
                        world := (cb_call f d (world st)).2 |};
             trace := [EvResetCallback f d (cb_call f d (world st)).1] |}
        else
          {| res := Ok tt; post := {| self_obj := self' (Ok tt); world := world st |};
             trace := [] |}
    | None =>
        {| res := Ok tt; post := {| self_obj := self' (Ok tt); world := world st |};
           trace := [] |}
    end in
  MapStyleDatasetPerEpochWrapper.reset st = expected (λ _, self_obj st)
  ∧ MapStyleDatasetFullWrapper.reset st = expected (λ _, self_obj st)
  ∧ (IterDataPipe.resettable (snapshot_of (self_obj st)) = true →
     IterableDatasetWrapper.reset st = expected (λ r, reset_marks r (self_obj st)))
  ∧ (IterDataPipe.resettable (snapshot_of (self_obj st)) = false →
     IterableDatasetWrapper.reset st =
       {| res := Ok tt;
          post := {| self_obj := resumed (self_obj st); world := world st |};
          trace := [] |}).
Proof.
  intros expected. destruct reset_bodies_agree as [-> ->].
  rewrite (reset_func_run d st cb Hd Hc), (stream_reset_run d st cb Hd Hc).
  split_and!.
  - unfold expected, callback_run. destruct cb as [f|]; [destruct (cb_truth f)|]; done.
  - unfold expected, callback_run. destruct cb as [f|]; [destruct (cb_truth f)|]; done.
  - intros ->. unfold expected, callback_run.
    destruct cb as [f|]; [destruct (cb_truth f)|]; done.
  - by intros ->.
Qed.


(** *** What the wrappers write to [self] *)

Lemma keeps_self_ret {A} (a : A) : keeps (mret a : Meth A).
Proof. intros st. reflexivity. Qed.

Lemma keeps_self_throw {A} (e : exn) : keeps (M_throw e : Meth A).
Proof. intros st. reflexivity. Qed.

Lemma keeps_self_bind {A B} (m : Meth A) (f : A → Meth B) :
  keeps m → (∀ a, keeps (f a)) → keeps (m ≫= f).
Proof.
  intros Hm Hf st. rewrite bind_run.
  destruct (res (m st)) as [a|e]; cbn; [rewrite Hf|]; apply Hm.
Qed.

Lemma keeps_self_getattr name : keeps (getattr name).
Proof. intros st. unfold getattr. by destruct (_ !! _). Qed.

Lemma keeps_self_extern {A} (ev : result A → @event World ndarray) f :
  keeps (extern ev f).
Proof. intros st. reflexivity. Qed.

Lemma keeps_self_dataset_method {A} v meth
    (ev : @ReturnnDataset World ndarray → result A → event) f :
  keeps (dataset_method v meth ev f).
Proof. destruct v; intros st; reflexivity. Qed.

Lemma keeps_self_call_callback (f arg : @pyval World ndarray) : keeps (call_callback f arg).
Proof. destruct f as [| |cb| |]; try destruct arg; intros st; reflexivity. Qed.

Lemma keeps_self_if {A} (b : bool) (m1 m2 : Meth A) :
  keeps m1 → keeps m2 → keeps (if b then m1 else m2).
Proof. by destruct b. Qed.

Create HintDb frame.
Hint Resolve keeps_self_ret keeps_self_throw keeps_self_getattr keeps_self_extern
  keeps_self_dataset_method keeps_self_call_callback keeps_self_if : frame.

Ltac frame :=
  lazymatch goal with
  | |- keeps_self (_ ≫= _) => apply keeps_self_bind; [frame | intros ?; frame]
  | |- keeps_self (if _ then _ else _) => apply keeps_self_if; frame
  | _ => eauto with frame
  end.

Lemma keeps_self_reset_func : keeps IterableDatasetWrapper.reset_func.
Proof. unfold IterableDatasetWrapper.reset_func. frame. Qed.

Lemma keeps_self_data_dict (i : Z) keys (acc : gmap string ndarray) :
  keeps (IterableDatasetWrapper.data_dict i keys acc).
Proof.
  revert acc. induction keys as [|k keys IH]; intros acc; cbn; frame.
Qed.

Lemma keeps_self_loop_head keys (i : Z) :
  keeps (IterableDatasetWrapper.loop_head keys i).
Proof.
  pose proof keeps_self_data_dict.
  unfold IterableDatasetWrapper.loop_head. frame.
Qed.

Lemma keeps_self_resume g : keeps (IterableDatasetWrapper.resume g).
Proof.
  pose proof keeps_self_loop_head. destruct g; cbn; frame.
Qed.

(** The hooks of the base class write the bookkeeping attributes only. *)
Lemma own_names : ("_dataset" ∉ pipe_attrs) ∧ ("_reset_callback" ∉ pipe_attrs).
Proof. split; intros H; apply list_elem_of_In in H; cbn in H; intuition discriminate. Qed.

Lemma same_own_refl self : same_own self self.
Proof. by split. Qed.

Lemma same_own_trans self1 self2 self3 :
  same_own self1 self2 → same_own self2 self3 → same_own self1 self3.
Proof.
  intros [Ht1 Hd1] [Ht2 Hd2]. split; [congruence|].
  intros name Hname. by rewrite Hd2, Hd1.
Qed.

Lemma same_own_holds self self' d cb :
  same_own self self' →
  (holds_dataset self d → holds_dataset self' d)
  ∧ (holds_callback self cb → holds_callback self' cb).
Proof.
  intros [_ Hd]. destruct own_names as [H1 H2]. unfold holds_dataset, holds_callback.
  by rewrite (Hd _ H1), (Hd _ H2).
Qed.

Lemma owns_keeps {A} (m : Meth A) : keeps m → owns m.
Proof. intros Hm st. rewrite Hm. apply same_own_refl. Qed.

Lemma owns_bind {A B} (m : Meth A) (f : A → Meth B) :
  owns m → (∀ a, owns (f a)) → owns (m ≫= f).
Proof.
  intros Hm Hf st. rewrite bind_run.
  destruct (res (m st)) as [a|e]; cbn; [|apply Hm].
  eapply same_own_trans; [apply Hm|apply Hf].
Qed.

Lemma owns_setattr name v : name ∈ pipe_attrs → owns (setattr name v).
Proof.
  intros Hin st. split; [done|]. intros name' Hname'. cbn.
  apply lookup_insert_ne. by intros ->.
Qed.

Lemma owns_class_attr name v : owns (IterDataPipe.class_attr name v).
Proof. apply owns_keeps. by intros st. Qed.

Lemma owns_if {A} (b : bool) (m1 m2 : Meth A) :
  owns m1 → owns m2 → owns (if b then m1 else m2).
Proof. by destruct b. Qed.

Lemma owns_try_except {A} (m : Meth A) : owns m → owns (IterDataPipe.try_except m).
Proof.
  intros Hm st. unfold IterDataPipe.try_except.
  specialize (Hm st). by destruct (res (m st)).
Qed.

Lemma pipe_attr_in name : bool_decide (name ∈ pipe_attrs) = true → name ∈ pipe_attrs.
Proof. apply bool_decide_eq_true_1. Qed.

Ltac own :=
  first
    [ assumption
    | lazymatch goal with
      | |- keeps_own (_ ≫= _) => apply owns_bind; [own | intros ?; own]
      | |- keeps_own (if _ then _ else _) => apply owns_if; own
      | |- keeps_own (match ?v with _ => _ end) => destruct v; own
      | |- keeps_own (setattr _ _) => apply owns_setattr, pipe_attr_in; reflexivity
      | |- keeps_own (IterDataPipe.class_attr _ _) => apply owns_class_attr
      | |- keeps_own IterDataPipe.class_name => apply owns_keeps; by intros ?
      | |- keeps_own (IterDataPipe.try_except _) => apply owns_try_except; own
      | _ => first [solve [eauto] | apply owns_keeps; frame]
      end ].

Lemma owns_reset : owns IterableDatasetWrapper.reset.
Proof.
  pose proof (owns_keeps _ keeps_self_reset_func).
  unfold IterableDatasetWrapper.reset, IterDataPipe.conditional_reset. own.
Qed.

Lemma owns_count_sample : owns IterDataPipe.count_sample.
Proof. unfold IterDataPipe.count_sample. own. Qed.

Lemma owns_wrap_generator g :
  owns (IterDataPipe.wrap_generator IterableDatasetWrapper.reset
          IterableDatasetWrapper.resume g).
Proof.
  pose proof owns_reset. pose proof owns_count_sample.
  assert (∀ g', owns (IterableDatasetWrapper.resume g'))
    by (intros g'; apply owns_keeps, keeps_self_resume).
  destruct g as [|iterator_id gen|];
    unfold IterDataPipe.wrap_generator, IterDataPipe._set_datapipe_valid_iterator_id,
      IterDataPipe._check_iterator_valid, IterDataPipe.after_send; own.
Qed.

Lemma next_runs_hook g st :
  post (IterableDatasetWrapper.next g st).1 =
    post (IterDataPipe.wrap_generator IterableDatasetWrapper.reset
            IterableDatasetWrapper.resume g st)
  ∧ trace (IterableDatasetWrapper.next g st).1 =
    trace (IterDataPipe.wrap_generator IterableDatasetWrapper.reset
             IterableDatasetWrapper.resume g st).
Proof.
  unfold IterableDatasetWrapper.next.
  by destruct (res (IterDataPipe.wrap_generator _ _ g st)) as [[[??]|]|].
Qed.

Lemma own_next g st :
  same_own (self_obj st) (self_obj (post (IterableDatasetWrapper.next g st).1)).
Proof. rewrite (proj1 (next_runs_hook g st)). apply owns_wrap_generator. Qed.

Lemma own_consume body fuel g st :
  same_own (self_obj st) (self_obj (final (consume body fuel g st))).
Proof.
  revert g st. induction fuel as [|fuel IH]; intros g st; cbn; [apply same_own_refl|].
  pose proof (own_next g st) as Hn.
  destruct (res (IterableDatasetWrapper.next g st).1) as [[data|]|e]; cbn; [|done..].
  eapply same_own_trans; [exact Hn|].
  match goal with
  | |- same_own _ (self_obj (final (consume _ _ ?g' ?st'))) => exact (IH g' st')
  end.
Qed.

(** Construction of the stream wrapper runs [__init__], which sets the two
    attributes and nothing else. *)
Lemma iterable_construction d cb (w : World) :
  ∃ self,
    type_call IterableDatasetWrapper_class (DatasetArgs d cb) w =
      {| res := Ok self; post := {| self_obj := self; world := w |}; trace := [] |}
    ∧ ob_type self = "IterableDatasetWrapper"
    ∧ holds_dataset self d ∧ holds_callback self cb
    ∧ dom (ob_dict self) = {[ "_dataset"; "_reset_callback" ]}
    ∧ pipe_usable self = true.
Proof.
  eexists. split; [reflexivity|]. split; [reflexivity|]. cbn.
  unfold holds_dataset, holds_callback, pipe_usable, snapshot_of. cbn.
  split; [by rewrite lookup_insert_ne, lookup_insert_eq|].
  split; [by rewrite lookup_insert_eq|].
  split; [rewrite !dom_insert_L, dom_empty_L; set_solver|].
  rewrite !lookup_insert_ne by done. by rewrite lookup_empty.
Qed.

(** C8 (as amended): no operation of a wrapper changes the dataset or the
    reset callback that the wrapper holds, nor any other attribute of its
    own.  The map-style operations and [__getitem__] of the stream wrapper
    leave the whole instance as it was, however they end.  [reset()] and
    the iteration of the stream wrapper run under the hooks of
    [IterDataPipe], which write the four bookkeeping attributes of that
    class into the instance and nothing else.  An instance made by the
    constructor of the stream wrapper holds its dataset and its optional
    callback, nothing else. *)
Theorem operations_keep_self :
  ((∀ index, keeps (IterableDatasetWrapper.__getitem__ index))
   ∧ owns IterableDatasetWrapper.reset
   ∧ (∀ g st, same_own (self_obj st) (self_obj (post (IterableDatasetWrapper.next g st).1)))
   ∧ (∀ body fuel g st, same_own (self_obj st) (self_obj (final (consume body fuel g st)))))
  ∧ (keeps MapStyleDatasetPerEpochWrapper.reset
     ∧ keeps MapStyleDatasetPerEpochWrapper.__len__
     ∧ (∀ index, keeps (MapStyleDatasetPerEpochWrapper.__getitem__ index)))
  ∧ (keeps MapStyleDatasetFullWrapper.reset
     ∧ keeps MapStyleDatasetFullWrapper.__len__
     ∧ (∀ index, keeps (MapStyleDatasetFullWrapper.__getitem__ index)))
  ∧ (∀ d cb (w : World),
       ∃ self, res (type_call IterableDatasetWrapper_class (DatasetArgs d cb) w) = Ok self
         ∧ holds_dataset self d ∧ holds_callback self cb
         ∧ dom (ob_dict self) = {[ "_dataset"; "_reset_callback" ]}).
Proof.
  split_and!.
  - intros index st. reflexivity.
  - apply owns_reset.
  - apply own_next.
  - apply own_consume.
  - apply keeps_self_reset_func.
  - unfold MapStyleDatasetPerEpochWrapper.__len__. frame.
  - intros index. unfold MapStyleDatasetPerEpochWrapper.__getitem__. frame.
  - apply keeps_self_reset_func.
  - unfold MapStyleDatasetFullWrapper.__len__. frame.
  - intros index. unfold MapStyleDatasetFullWrapper.__getitem__. frame.
  - intros d cb w.
    destruct (iterable_construction d cb w) as (self & Hrun & _ & Hd & Hc & Hdom & _).
    exists self. by rewrite Hrun.
Qed.


(** *** Failures of the dataset surface *)

Lemma propagates_silent {A} (m : Meth A) : (∀ st, trace (m st) = []) → lets_through m.
Proof. intros Hm st ev e _ Hin. rewrite Hm in Hin. by apply elem_of_nil in Hin. Qed.

Lemma propagates_ret {A} (a : A) : lets_through (mret a : Meth A).
Proof. by apply propagates_silent. Qed.

Lemma propagates_throw {A} (e : exn) : lets_through (M_throw e : Meth A).
Proof. by apply propagates_silent. Qed.

Lemma propagates_getattr name : lets_through (getattr name).
Proof. apply propagates_silent. intros st. unfold getattr. by destruct (_ !! _). Qed.

Lemma propagates_bind {A B} (m : Meth A) (f : A → Meth B) :
  lets_through m → (∀ a, lets_through (f a)) → lets_through (m ≫= f).
Proof.
  intros Hm Hf st ev e He. unfold surfaces. rewrite bind_run.
  destruct (res (m st)) as [a|e'] eqn:R; cbn; intros Hin.
  - apply elem_of_app in Hin as [Hin|Hin].
    + destruct (Hm st ev e He Hin) as [Hr _]. congruence.
    + destruct (Hf a _ ev e He Hin) as [Hr Hl]. split; [done|].
      by rewrite last_app, Hl.
  - destruct (Hm st ev e He Hin) as [Hr Hl]. split; [congruence|done].
Qed.

Lemma propagates_extern {A} (ev : result A → @event World ndarray) f :
  (∀ r, ev_exn (ev r) = raised r) → lets_through (extern ev f).
Proof.
  intros Hev st ev' e He Hin. cbn in *.
  apply list_elem_of_singleton in Hin as ->. rewrite Hev in He.
  destruct (f (world st)).1; cbn in *; [done|]. by inversion He.
Qed.

Lemma propagates_dataset_method {A} v meth
    (ev : @ReturnnDataset World ndarray → result A → event) f :
  (∀ d r, ev_exn (ev d r) = raised r) → lets_through (dataset_method v meth ev f).
Proof.
  intros Hev. destruct v; cbn; first [apply propagates_throw | by apply propagates_extern].
Qed.

Lemma propagates_call_callback (f arg : @pyval World ndarray) :
  lets_through (call_callback f arg).
Proof.
  destruct f as [| |cb| |]; try destruct arg; cbn;
    first [apply propagates_throw | by apply propagates_extern].
Qed.

Lemma propagates_if {A} (b : bool) (m1 m2 : Meth A) :
  lets_through m1 → lets_through m2 → lets_through (if b then m1 else m2).
Proof. by destruct b. Qed.

Ltac surface :=
  first [assumption|
  lazymatch goal with
  | |- propagates (_ ≫= _) => apply propagates_bind; [surface | intros ?; surface]
  | |- propagates (if _ then _ else _) => apply propagates_if; surface
  | |- propagates (dataset_method _ _ _ _) => by apply propagates_dataset_method
  | |- propagates (extern _ _) => by apply propagates_extern
  | |- propagates (mret _) => apply propagates_ret
  | |- propagates (getattr _) => apply propagates_getattr
  | |- propagates (setattr _ _) => by apply propagates_silent
  | |- propagates (IterDataPipe.class_attr _ _) => by apply propagates_silent
  | |- propagates IterDataPipe.class_name => by apply propagates_silent
  | |- propagates (match ?v with _ => _ end) => destruct v; surface
  | |- propagates (call_callback _ _) => apply propagates_call_callback
  | _ => solve [eauto using propagates_throw]
  end].

Lemma propagates_reset_func : lets_through IterableDatasetWrapper.reset_func.
Proof. unfold IterableDatasetWrapper.reset_func. surface. Qed.

Lemma propagates_reset : lets_through IterableDatasetWrapper.reset.
Proof.
  pose proof propagates_reset_func.
  unfold IterableDatasetWrapper.reset, IterDataPipe.conditional_reset. surface.
Qed.

Lemma propagates_set_id :
  lets_through (IterDataPipe._set_datapipe_valid_iterator_id IterableDatasetWrapper.reset).
Proof.
  pose proof propagates_reset.
  unfold IterDataPipe._set_datapipe_valid_iterator_id. surface.
Qed.

Lemma propagates_data_dict (i : Z) keys (acc : gmap string ndarray) :
  lets_through (IterableDatasetWrapper.data_dict i keys acc).
Proof. revert acc. induction keys as [|k keys IH]; intros acc; cbn; surface. Qed.

Lemma propagates_loop_head keys (i : Z) :
  lets_through (IterableDatasetWrapper.loop_head keys i).
Proof.
  pose proof propagates_data_dict. unfold IterableDatasetWrapper.loop_head. surface.
Qed.

Lemma propagates_resume g : lets_through (IterableDatasetWrapper.resume g).
Proof. pose proof propagates_loop_head. destruct g; cbn; surface. Qed.

Lemma propagates_hook_body iterator_id g :
  lets_through (response ← IterableDatasetWrapper.resume g;
                IterDataPipe.after_send iterator_id response).
Proof.
  pose proof propagates_resume.
  unfold IterDataPipe.after_send, IterDataPipe.count_sample. surface.
Qed.

Lemma propagates_checked_hook_body iterator_id g :
  lets_through (IterDataPipe._check_iterator_valid iterator_id;;
                response ← IterableDatasetWrapper.resume g;
                IterDataPipe.after_send iterator_id response).
Proof.
  pose proof (propagates_hook_body iterator_id g).
  unfold IterDataPipe._check_iterator_valid. surface.
Qed.

(** Which calls which part of the hooked generator makes. *)
Implicit Types (P : @event World ndarray → Prop).

Lemma emits_silent {A} P (m : Meth A) : (∀ st, trace (m st) = []) → emits P m.
Proof. intros Hm st. by rewrite Hm. Qed.

Lemma emits_bind {A B} P (m : Meth A) (f : A → Meth B) :
  emits P m → (∀ a, emits P (f a)) → emits P (m ≫= f).
Proof.
  intros Hm Hf st. rewrite bind_run.
  destruct (res (m st)) as [a|e]; cbn; [|apply Hm].
  apply Forall_app. split; [apply Hm|apply Hf].
Qed.

Lemma emits_if {A} P (b : bool) (m1 m2 : Meth A) :
  emits P m1 → emits P m2 → emits P (if b then m1 else m2).
Proof. by destruct b. Qed.

Lemma emits_extern {A} P (ev : result A → event) f :
  (∀ w, P (ev (f w).1)) → emits P (extern ev f).
Proof. intros Hev st. cbn. by repeat constructor. Qed.

Lemma emits_dataset_method {A} P v meth
    (ev : @ReturnnDataset World ndarray → result A → event) f :
  (∀ d w, P (ev d (f d w).1)) → emits P (dataset_method v meth ev f).
Proof.
  intros Hev. destruct v; cbn; first [by apply emits_silent | by apply emits_extern].
Qed.

Lemma emits_call_callback P (f arg : pyval) :
  (∀ cb d w, P (EvResetCallback cb d (cb_call cb d w).1)) → emits P (call_callback f arg).
Proof.
  intros Hev. destruct f as [| |cb| |]; try destruct arg; cbn;
    first [by apply emits_silent | by apply emits_extern].
Qed.

Lemma emits_try_except {A} P (m : Meth A) : emits P m → emits P (IterDataPipe.try_except m).
Proof.
  intros Hm st. unfold IterDataPipe.try_except.
  specialize (Hm st). by destruct (res (m st)).
Qed.

Lemma emits_getattr P name : emits P (getattr name).
Proof. apply emits_silent. intros st. unfold getattr. by destruct (_ !! _). Qed.

Ltac emit :=
  first [assumption|
  lazymatch goal with
  | |- emits _ (_ ≫= _) => apply emits_bind; [emit | intros ?; emit]
  | |- emits _ (if _ then _ else _) => apply emits_if; emit
  | |- emits _ (dataset_method _ _ _ _) => apply emits_dataset_method; try done
  | |- emits _ (call_callback _ _) => apply emits_call_callback; try done
  | |- emits _ (getattr _) => apply emits_getattr
  | |- emits _ (IterDataPipe.try_except _) => apply emits_try_except; emit
  | |- emits _ (match ?v with _ => _ end) => destruct v; emit
  | _ => first [solve [eauto] | by apply emits_silent]
  end].

(** The prelude of the hook can only call the reset callback, which it
    does outside the [try] of the hook. *)
Lemma set_id_emits :
  emits (λ ev : @event World ndarray, ∀ cls e, leaves_as cls ev e = e)
    (IterDataPipe._set_datapipe_valid_iterator_id IterableDatasetWrapper.reset).
Proof.
  unfold IterDataPipe._set_datapipe_valid_iterator_id, IterableDatasetWrapper.reset,
    IterDataPipe.conditional_reset, IterableDatasetWrapper.reset_func. emit.
Qed.

Lemma data_dict_emits (i : Z) keys (acc : gmap string ndarray) :
  emits (λ ev : @event World ndarray,
           ∀ cls e, leaves_as cls ev e = IterDataPipe.thrown_by cls e)
    (IterableDatasetWrapper.data_dict i keys acc).
Proof. revert acc. induction keys as [|k keys IH]; intros acc; cbn; emit. Qed.

(** The generator calls the dataset only, inside the [try] of the hook. *)
Lemma hook_body_emits iterator_id g :
  emits (λ ev : @event World ndarray,
           ∀ cls e, leaves_as cls ev e = IterDataPipe.thrown_by cls e)
    (response ← IterableDatasetWrapper.resume g;
     IterDataPipe.after_send iterator_id response).
Proof.
  pose proof data_dict_emits.
  unfold IterableDatasetWrapper.resume, IterableDatasetWrapper.loop_head,
    IterDataPipe.after_send, IterDataPipe.count_sample.
  emit.
Qed.


Lemma owns_set_id :
  owns (IterDataPipe._set_datapipe_valid_iterator_id IterableDatasetWrapper.reset).
Proof.
  pose proof owns_reset. unfold IterDataPipe._set_datapipe_valid_iterator_id. own.
Qed.

Lemma owns_hook_body iterator_id g :
  owns (response ← IterableDatasetWrapper.resume g;
        IterDataPipe.after_send iterator_id response).
Proof.
  pose proof owns_count_sample.
  assert (owns (IterableDatasetWrapper.resume g)) by apply owns_keeps, keeps_self_resume.
  unfold IterDataPipe.after_send. own.
Qed.

Lemma owns_checked_hook_body iterator_id g :
  owns (IterDataPipe._check_iterator_valid iterator_id;;
        response ← IterableDatasetWrapper.resume g;
        IterDataPipe.after_send iterator_id response).
Proof.
  pose proof (owns_hook_body iterator_id g).
  unfold IterDataPipe._check_iterator_valid. own.
Qed.

Lemma checked_hook_body_emits iterator_id g :
  emits (λ ev : @event World ndarray,
           ∀ cls e, leaves_as cls ev e = IterDataPipe.thrown_by cls e)
    (IterDataPipe._check_iterator_valid iterator_id;;
     response ← IterableDatasetWrapper.resume g;
     IterDataPipe.after_send iterator_id response).
Proof.
  pose proof (hook_body_emits iterator_id g).
  unfold IterDataPipe._check_iterator_valid. emit.
Qed.

Lemma try_except_failure {A} (m : Meth A) st ev e :
  lets_through m → owns m →
  emits (λ ev : @event World ndarray,
           ∀ cls e, leaves_as cls ev e = IterDataPipe.thrown_by cls e) m →
  ev_exn ev = Some e → ev ∈ trace (IterDataPipe.try_except m st) →
  last (trace (IterDataPipe.try_except m st)) = Some ev
  ∧ res (IterDataPipe.try_except m st) = Raise (leaves_as (ob_type (self_obj st)) ev e).
Proof.
  intros Hm Hown Hemit He. unfold IterDataPipe.try_except.
  destruct (res (m st)) as [a|e'] eqn:Hres; cbn [res post trace]; intros Hin.
  - destruct (Hm st ev e He Hin) as [Hr _]. congruence.
  - destruct (Hm st ev e He Hin) as [Hr Hl]. split; [done|].
    pose proof (proj1 (Forall_forall _ _) (Hemit st) ev Hin) as ->.
    destruct (Hown st) as [-> _]. congruence.
Qed.

Lemma hook_failure g st ev e :
  ev_exn ev = Some e →
  ev ∈ trace (IterDataPipe.wrap_generator IterableDatasetWrapper.reset
                IterableDatasetWrapper.resume g st) →
  last (trace (IterDataPipe.wrap_generator IterableDatasetWrapper.reset
                 IterableDatasetWrapper.resume g st)) = Some ev
  ∧ res (IterDataPipe.wrap_generator IterableDatasetWrapper.reset
           IterableDatasetWrapper.resume g st)
    = Raise (leaves_as (ob_type (self_obj st)) ev e).
Proof.
  intros He. destruct g as [|iterator_id gen|]; unfold IterDataPipe.wrap_generator.
  - rewrite bind_run. cbn [res post trace].
    change (res (IterDataPipe.class_attr _ _ st)) with
      (Ok (default VNone (ob_dict (self_obj st) !! "_fast_forward_iterator"))
         : result (@pyval World ndarray)).
    cbn iota.
    destruct (truthy _).
    { cbn. intros Hin. by apply elem_of_nil in Hin. }
    change (post (IterDataPipe.class_attr _ _ st)) with st.
    change (trace (IterDataPipe.class_attr _ _ st)) with ([] : list (@event World ndarray)).
    rewrite !app_nil_l.
    rewrite bind_run.
    pose proof (propagates_set_id st ev e He) as Hid. unfold surfaces in Hid.
    pose proof (proj1 (Forall_forall _ _) (set_id_emits st) ev) as Hout.
    destruct (res (IterDataPipe._set_datapipe_valid_iterator_id _ st))
      as [iterator_id|e'] eqn:Hres; cbn [res post trace]; intros Hin.
    + apply elem_of_app in Hin as [Hin|Hin]; [by destruct (Hid Hin)|].
      destruct (try_except_failure _ _ ev e (propagates_hook_body iterator_id GenCreated)
                  (owns_hook_body iterator_id GenCreated)
                  (hook_body_emits iterator_id GenCreated) He Hin) as [Hl Hr].
      split; [by rewrite last_app, Hl|]. rewrite Hr.
      by destruct (owns_set_id st) as [-> _].
    + destruct (Hid Hin) as [Hr Hl]. split; [done|].
      pose proof (Hout Hin) as Ho. simpl in Ho. rewrite Ho. by inversion Hr.
  - intros Hin.
    exact (try_except_failure _ _ ev e (propagates_checked_hook_body iterator_id gen)
             (owns_checked_hook_body iterator_id gen)
             (checked_hook_body_emits iterator_id gen) He Hin).
  - intros Hin. by apply elem_of_nil in Hin.
Qed.

Lemma next_failure g st ev e :
  ev_exn ev = Some e → ev ∈ trace (IterableDatasetWrapper.next g st).1 →
  last (trace (IterableDatasetWrapper.next g st).1) = Some ev
  ∧ res (IterableDatasetWrapper.next g st).1 = Raise (leaves_as (ob_type (self_obj st)) ev e).
Proof.
  intros He Hin. destruct (next_runs_hook g st) as [_ Htr]. rewrite Htr in *.
  destruct (hook_failure g st ev e He Hin) as [Hl Hr]. split; [done|].
  unfold IterableDatasetWrapper.next. by rewrite Hr.
Qed.

Lemma consume_failure body fuel g st ev e :
  ev_exn ev = Some e → ev ∈ calls (consume body fuel g st) →
  last (calls (consume body fuel g st)) = Some ev
  ∧ ended (consume body fuel g st) = Failed (leaves_as (ob_type (self_obj st)) ev e).
Proof.
  intros He. revert g st. induction fuel as [|fuel IH]; intros g st; cbn.
  - intros Hin. by apply elem_of_nil in Hin.
  - pose proof (next_failure g st ev e He) as Hn.
    pose proof (own_next g st) as [Htype _].
    destruct (res (IterableDatasetWrapper.next g st).1) as [[data|]|e'] eqn:R; cbn.
    + intros Hin. apply elem_of_app in Hin as [Hin|Hin].
      * by destruct (Hn Hin).
      * destruct (IH _ _ Hin) as [Hl He']. split; [by rewrite last_app, Hl|].
        rewrite He'. cbn. by rewrite Htype.
    + intros Hin. by destruct (Hn Hin).
    + intros Hin. destruct (Hn Hin) as [Hl Hr]. split; [done|congruence].
Qed.

Lemma append_empty (s : string) : s +:+ "" = s.
Proof.
  induction s as [|c s IH]; [done|].
  change (String c (s +:+ "") = String c s). by rewrite IH.
Qed.

(** The hook keeps the class of an exception and only adds to its message. *)
Lemma thrown_by_extends cls e :
  exc_type (IterDataPipe.thrown_by cls e) = exc_type e
  ∧ ∃ added, exc_msg (IterDataPipe.thrown_by cls e) = exc_msg e +:+ added.
Proof.
  unfold IterDataPipe.thrown_by.
  destruct (IterDataPipe.is_exception _); [destruct (_ || _)|]; cbn;
    (split; [done|]); first [by eexists | exists ""; by rewrite append_empty].
Qed.



(** *** Construction of the map-style wrappers *)

Lemma per_epoch_has_no_init :
  cls_dict (World := World) (ndarray := ndarray) MapStyleDatasetPerEpochWrapper_class
    !! "__init__" = None.
Proof. reflexivity. Qed.

Lemma full_has_no_init :
  cls_dict (World := World) (ndarray := ndarray) MapStyleDatasetFullWrapper_class
    !! "__init__" = None.
Proof. reflexivity. Qed.

Lemma bind_getattr_unset {A} name (f : pyval → Meth A) self :
  ob_dict self !! name = None → fails_on_attribute (getattr name ≫= f) self.
Proof.
  intros Hnone w. rewrite bind_run.
  destruct (getattr_missing name {| self_obj := self; world := w |} Hnone) as (Hr & Hp & Ht).
  rewrite Hr, Hp, Ht. split; [by eexists|done].
Qed.

(** C5: the map-style classes define [__int__], not [__init__], so a
    constructor call never runs it: with a dataset argument the call is a
    [TypeError] and the dataset is not even asked; an instance made
    without arguments has no attribute at all, and its [reset], [__len__]
    and [__getitem__] end in [AttributeError] without any call. *)
Theorem map_style_initializer_is_never_run :
  let per_epoch := MapStyleDatasetPerEpochWrapper_class (World := World) (ndarray := ndarray) in
  let full := MapStyleDatasetFullWrapper_class (World := World) (ndarray := ndarray) in
  (cls_dict per_epoch !! "__init__" = None ∧ is_Some (cls_dict per_epoch !! "__int__")
   ∧ cls_dict full !! "__init__" = None ∧ is_Some (cls_dict full !! "__int__"))
  ∧ (∀ d cb w,
       (raises "TypeError" (type_call per_epoch (DatasetArgs d cb) w)
        ∧ trace (type_call per_epoch (DatasetArgs d cb) w) = []
        ∧ world (post (type_call per_epoch (DatasetArgs d cb) w)) = w)
       ∧ (raises "TypeError" (type_call full (DatasetArgs d cb) w)
          ∧ trace (type_call full (DatasetArgs d cb) w) = []
          ∧ world (post (type_call full (DatasetArgs d cb) w)) = w))
  ∧ (∀ w, ∃ self,
       type_call per_epoch NoArgs w =
         {| res := Ok self; post := {| self_obj := self; world := w |}; trace := [] |}
       ∧ ob_dict self = ∅
       ∧ fails_on_attribute MapStyleDatasetPerEpochWrapper.reset self
       ∧ fails_on_attribute MapStyleDatasetPerEpochWrapper.__len__ self
       ∧ ∀ index, fails_on_attribute (MapStyleDatasetPerEpochWrapper.__getitem__ index) self)
  ∧ (∀ w, ∃ self,
       type_call full NoArgs w =
         {| res := Ok self; post := {| self_obj := self; world := w |}; trace := [] |}
       ∧ ob_dict self = ∅
       ∧ fails_on_attribute MapStyleDatasetFullWrapper.reset self
       ∧ fails_on_attribute MapStyleDatasetFullWrapper.__len__ self
       ∧ ∀ index, fails_on_attribute (MapStyleDatasetFullWrapper.__getitem__ index) self).
Proof.
  intros per_epoch full. split_and!.
  - apply per_epoch_has_no_init.
  - by eexists.
  - apply full_has_no_init.
  - by eexists.
  - intros d cb w. split; (split; [by eexists|done]).
  - intros w. eexists. split; [reflexivity|]. split; [reflexivity|].
    split_and!; [..|intros index]; by apply bind_getattr_unset.
  - intros w. eexists. split; [reflexivity|]. split; [reflexivity|].
    split_and!; [..|intros index]; by apply bind_getattr_unset.
Qed.

(** *** One turn of the loop *)

Lemma data_dict_shape d (i : Z) keys (data : gmap string ndarray) st :
  holds_dataset (self_obj st) d →
  reads_of d i keys data
    (res (IterableDatasetWrapper.data_dict i keys data st))
    (trace (IterableDatasetWrapper.data_dict i keys data st)).
Proof.
  intros H. revert data st H. induction keys as [|k keys IH]; intros data st H; cbn.
  - constructor.
  - read_attr H. rewrite bind_run. cbn.
    destruct (get_data d i k (world st)) as [[v|e] w] eqn:Hget; cbn.
    + constructor. by apply IH.
    + constructor.
Qed.

Lemma loop_head_shape d keys (i : Z) st :
  holds_dataset (self_obj st) d →
  step_of d keys i
    (res (IterableDatasetWrapper.loop_head keys i st))
    (trace (IterableDatasetWrapper.loop_head keys i st)).
Proof.
  intros H. unfold IterableDatasetWrapper.loop_head.
  read_attr H. rewrite bind_run. cbn.
  destruct (is_less_than_num_seqs d i (world st)) as [[[|]|e] w] eqn:Hmore; cbn;
    [|constructor..].
  read_attr H. rewrite bind_run. cbn.
  destruct (load_seqs d i (i + 1) w) as [[[]|e] w'] eqn:Hload; cbn; [|constructor].
  rewrite bind_run.
  pose proof (data_dict_shape d i keys ∅ {| self_obj := self_obj st; world := w' |} H) as Hreads.
  destruct (res (IterableDatasetWrapper.data_dict i keys ∅ _)) as [data|e]; cbn.
  - rewrite app_nil_r. by constructor.
  - by constructor.
Qed.

(** *** One turn of the hooked generator *)

Lemma count_sample_silent st : trace (IterDataPipe.count_sample st) = [].
Proof.
  unfold IterDataPipe.count_sample. rewrite bind_run. cbn.
  by destruct (default _ _).
Qed.

Lemma hook_body_shape d keys (i : Z) iterator_id st :
  holds_dataset (self_obj st) d →
  let o := (response ← IterableDatasetWrapper.loop_head keys i;
            IterDataPipe.after_send iterator_id response) st in
  match res o with
  | Raise _ =>
      (∃ e, step_of d keys i (Raise e) (trace o))
      ∨ (∃ data g, step_of d keys i (Ok (Some (data, g))) (trace o))
  | r => turn_of d keys i iterator_id r (trace o)
  end.
Proof.
  intros H. cbn zeta. rewrite bind_run.
  pose proof (loop_head_shape d keys i st H) as Hstep.
  destruct (res (IterableDatasetWrapper.loop_head keys i st)) as [[[data g]|]|e]; cbn.
  - assert (g = GenSuspended keys i) as -> by (by inversion Hstep).
    rewrite bind_run, count_sample_silent, app_nil_r.
    destruct (res (IterDataPipe.count_sample _)); cbn; rewrite ?app_nil_r.
    + done.
    + right. by eexists _, _.
  - rewrite app_nil_r. done.
  - left. by eexists.
Qed.

Lemma try_except_shape d keys (i : Z) iterator_id (m : Meth _) st :
  match res (m st) with
  | Raise _ =>
      (∃ e, step_of d keys i (Raise e) (trace (m st)))
      ∨ (∃ data g, step_of d keys i (Ok (Some (data, g))) (trace (m st)))
  | r => turn_of d keys i iterator_id r (trace (m st))
  end →
  turn_of d keys i iterator_id
    (res (IterDataPipe.try_except m st)) (trace (IterDataPipe.try_except m st)).
Proof.
  unfold IterDataPipe.try_except.
  destruct (res (m st)) as [[[data g]|]|e] eqn:Hres; rewrite ?Hres; cbn; [done..|].
  intros Hs. by right.
Qed.

Lemma check_valid_run iterator_id st :
  IterDataPipe._check_iterator_valid iterator_id st = {| res := Ok tt; post := st; trace := [] |}
  ∨ ∃ e, IterDataPipe._check_iterator_valid iterator_id st =
           {| res := Raise e; post := st; trace := [] |}.
Proof.
  unfold IterDataPipe._check_iterator_valid. rewrite bind_run. cbn.
  rewrite bind_run. cbn.
  destruct (default _ _) as [| | |n|]; cbn; [by left|by right; eexists..| |by right; eexists].
  destruct (n =? iterator_id); cbn; [by left|by right; eexists].
Qed.

Lemma outcome_eta {A} (o : @outcome World ndarray A) :
  {| res := res o; post := post o; trace := trace o |} = o.
Proof. by destruct o. Qed.

(** A turn of a started iterator. *)
Lemma running_shape d keys (p : Z) iterator_id st :
  holds_dataset (self_obj st) d →
  let o := IterDataPipe.wrap_generator IterableDatasetWrapper.reset
             IterableDatasetWrapper.resume
             (HookRunning iterator_id (GenSuspended keys p)) st in
  turn_of d keys (p + 1) iterator_id (res o) (trace o)
  ∧ holds_dataset (self_obj (post o)) d.
Proof.
  intros H. cbn zeta. split.
  - unfold IterDataPipe.wrap_generator.
    destruct (check_valid_run iterator_id st) as [Hok|[e Hno]].
    + unfold IterDataPipe.try_except. rewrite bind_run, Hok. cbn [res post trace app].
      rewrite outcome_eta.
      apply (try_except_shape d keys (p + 1) iterator_id
               (response ← IterableDatasetWrapper.resume (GenSuspended keys p);
                IterDataPipe.after_send iterator_id response) st).
      exact (hook_body_shape d keys (p + 1) iterator_id st H).
    + unfold IterDataPipe.try_except. rewrite bind_run, Hno. cbn. by left.
  - by apply (same_own_holds _ _ d None (owns_wrap_generator _ st)).
Qed.

(** *** The first turn *)

Lemma reset_func_calls d st :
  holds_dataset (self_obj st) d → reset_calls d (trace (IterableDatasetWrapper.reset_func st)).
Proof.
  intros H. unfold IterableDatasetWrapper.reset_func.
  destruct (ob_dict (self_obj st) !! "_reset_callback") as [c|] eqn:Hc.
  - read_attr Hc. destruct (truthy c); cbn; [|by left].
    read_attr Hc. read_attr H. destruct c; cbn; first [by left | right; by eexists _, _].
  - rewrite bind_run. destruct (getattr_missing _ st Hc) as (-> & _ & ->). by left.
Qed.

Lemma reset_stream_calls d st :
  holds_dataset (self_obj st) d → reset_calls d (trace (IterableDatasetWrapper.reset st)).
Proof.
  intros H. unfold IterableDatasetWrapper.reset, IterDataPipe.conditional_reset.
  rewrite bind_run. cbn.
  destruct (IterDataPipe.resettable _); cbn; [|by left].
  rewrite !bind_run. cbn.
  match goal with
  | |- context [IterableDatasetWrapper.reset_func ?st'] =>
      pose proof (reset_func_calls d st') as Hc;
      set (o := IterableDatasetWrapper.reset_func st') in *
  end.
  destruct (res o); cbn; rewrite ?app_nil_r; apply Hc;
    unfold holds_dataset; cbn; by rewrite !lookup_insert_ne.
Qed.

Lemma set_id_calls d st :
  holds_dataset (self_obj st) d →
  reset_calls d
    (trace (IterDataPipe._set_datapipe_valid_iterator_id IterableDatasetWrapper.reset st)).
Proof.
  intros H. unfold IterDataPipe._set_datapipe_valid_iterator_id.
  rewrite bind_run. cbn.
  destruct (default _ _) as [| | |n|]; cbn; try (by left).
  all: rewrite bind_run; cbn; rewrite !bind_run; cbn.
  all: match goal with
       | |- context [IterableDatasetWrapper.reset ?st'] =>
           pose proof (reset_stream_calls d st') as Hc;
           set (o := IterableDatasetWrapper.reset st') in *
       end.
  all: destruct (res o); cbn; rewrite ?app_nil_r; apply Hc;
    unfold holds_dataset; cbn; by rewrite !lookup_insert_ne.
Qed.

Lemma bind_assoc_run {A B C} (m : Meth A) (f : A → Meth B) (g : B → Meth C) st :
  ((m ≫= f) ≫= g) st = (m ≫= (λ a, f a ≫= g)) st.
Proof.
  rewrite !bind_run. destruct (res (m st)) as [a|e]; cbn; [|done].
  rewrite !bind_run. destruct (res (f a _)); cbn; by rewrite ?app_assoc.
Qed.

(** The first turn of an iterator: the hook resets the pipe, then the
    generator asks for the keys and enters its loop. *)
Lemma created_shape d st :
  holds_dataset (self_obj st) d →
  let o := IterDataPipe.wrap_generator IterableDatasetWrapper.reset
             IterableDatasetWrapper.resume HookCreated st in
  holds_dataset (self_obj (post o)) d
  ∧ ∃ pre, reset_calls d pre
      ∧ ((trace o = pre ∧ ∃ e, res o = Raise e)
         ∨ (∃ e e', trace o = pre ++ [EvGetDataKeys d (Raise e)] ∧ res o = Raise e')
         ∨ (∃ iterator_id keys tr,
              trace o = pre ++ EvGetDataKeys d (Ok keys) :: tr
              ∧ turn_of d keys 0 iterator_id (res o) tr)).
Proof.
  intros H. cbn zeta.
  split; [by apply (same_own_holds _ _ d None (owns_wrap_generator _ st))|].
  unfold IterDataPipe.wrap_generator. rewrite bind_run. cbn [res post trace].
  change (res (IterDataPipe.class_attr _ _ st)) with
    (Ok (default VNone (ob_dict (self_obj st) !! "_fast_forward_iterator"))
       : result (@pyval World ndarray)).
  cbn iota.
  destruct (truthy _).
  { exists []. split; [by left|]. left. split; [done|]. cbn. by eexists. }
  change (post (IterDataPipe.class_attr _ _ st)) with st.
  change (trace (IterDataPipe.class_attr _ _ st)) with ([] : list (@event World ndarray)).
  rewrite !app_nil_l, bind_run.
  pose proof (set_id_calls d st H) as Hpre.
  pose proof (proj1 (same_own_holds _ _ d None (owns_set_id st)) H) as H0.
  set (o0 := IterDataPipe._set_datapipe_valid_iterator_id _ st) in *.
  exists (trace o0). split; [done|].
  destruct (res o0) as [iterator_id|e]; cbn [res post trace].
  2:{ left. split; [done|]. by eexists. }
  right. unfold IterDataPipe.try_except.
  change (IterableDatasetWrapper.resume GenCreated) with
    (d ← getattr "_dataset";
     data_keys ← dataset_method d "get_data_keys" EvGetDataKeys get_data_keys;
     IterableDatasetWrapper.loop_head data_keys 0 : Meth _).
  rewrite bind_assoc_run. read_attr H0. rewrite bind_assoc_run, bind_run. cbn.
  destruct (get_data_keys d (world (post o0))) as [[keys|e] w1]; cbn.
  2:{ left. by eexists _, _. }
  right. exists iterator_id, keys.
  pose proof (hook_body_shape d keys 0 iterator_id
                {| self_obj := self_obj (post o0); world := w1 |} H0) as Hs.
  cbn zeta in Hs.
  match type of Hs with
  | match res ?o1 with _ => _ end => set (o' := o1) in *
  end.
  exists (trace o').
  destruct (res o') as [[[data g]|]|e]; cbn; (split; [done|]); [done..|by right].
Qed.

(** *** A whole iteration *)

Lemma consume_step body fuel g st :
  let o := IterDataPipe.wrap_generator IterableDatasetWrapper.reset
             IterableDatasetWrapper.resume g st in
  consume body (S fuel) g st =
    match res o with
    | Raise e => {| items := []; ended := Failed e; final := post o; calls := trace o |}
    | Ok None => {| items := []; ended := Exhausted; final := post o; calls := trace o |}
    | Ok (Some (data, g')) =>
        let r := consume body fuel g'
                   {| self_obj := self_obj (post o); world := body data (world (post o)) |} in
        {| items := data :: items r; ended := ended r; final := final r;
           calls := trace o ++ calls r |}
    end.
Proof.
  cbn [consume]. unfold IterableDatasetWrapper.next.
  by destruct (res (IterDataPipe.wrap_generator _ _ g st)) as [[[??]|]|].
Qed.

Lemma consume_shape d keys (p : Z) iterator_id body fuel st :
  holds_dataset (self_obj st) d →
  iteration d keys p fuel
    (items (consume body fuel (HookRunning iterator_id (GenSuspended keys p)) st))
    (ended (consume body fuel (HookRunning iterator_id (GenSuspended keys p)) st))
    (calls (consume body fuel (HookRunning iterator_id (GenSuspended keys p)) st)).
Proof.
  revert p st. induction fuel as [|fuel IH]; intros p st H.
  - constructor.
  - rewrite consume_step. cbn zeta.
    destruct (running_shape d keys p iterator_id st H) as [Hturn Hd]. cbn zeta in Hturn, Hd.
    set (o := IterDataPipe.wrap_generator _ _ _ st) in *. clearbody o.
    destruct (res o) as [[[data g']|]|e]; cbn in Hturn |- *.
    + destruct Hturn as [-> Hs]. econstructor; [exact Hs|]. by apply IH.
    + by constructor.
    + destruct Hturn as [->|[[e0 Hs]|(data & g & Hs)]].
      * constructor.
      * by eapply iteration_fail.
      * by eapply iteration_uncounted.
Qed.

(** An iteration from the start: nothing if the consumer takes nothing; or
    a failure of the first turn before the loop; or the keys and then the
    turns of the loop from the index 0.  Before all, the hook may have
    called the reset callback. *)
Lemma consume_fresh d body fuel st :
  holds_dataset (self_obj st) d →
  let r := consume body fuel IterableDatasetWrapper.__iter__ st in
  (fuel = 0%nat ∧ items r = [] ∧ ended r = Pending HookCreated ∧ calls r = [])
  ∨ (∃ pre e, reset_calls d pre ∧ items r = [] ∧ ended r = Failed e
              ∧ (calls r = pre ∨ ∃ e0, calls r = pre ++ [EvGetDataKeys d (Raise e0)]))
  ∨ (∃ pre keys tr, fuel ≠ 0%nat ∧ reset_calls d pre
                    ∧ calls r = pre ++ EvGetDataKeys d (Ok keys) :: tr
                    ∧ iteration d keys (-1) fuel (items r) (ended r) tr).
Proof.
  intros H r. subst r. unfold IterableDatasetWrapper.__iter__.
  destruct fuel as [|fuel]; [by left|right].
  rewrite consume_step. cbn zeta.
  destruct (created_shape d st H) as (Hd & pre & Hpre & Hcases). cbn zeta in Hd, Hcases.
  destruct Hcases as [[Htr [e He]]|[(e & e' & Htr & He)|(iterator_id & keys & tr & Htr & Hturn)]].
  - left. rewrite He. cbn. exists pre, e. split_and!; [done..|by left].
  - left. rewrite He. cbn. exists pre, e'. split_and!; [done..|]. right. by exists e.
  - right. exists pre, keys.
    set (o := IterDataPipe.wrap_generator _ _ _ st) in *. clearbody o.
    destruct (res o) as [[[data g']|]|e]; cbn in Hturn |- *.
    + destruct Hturn as [-> Hs]. eexists. split; [done|]. split; [done|].
      split; [by rewrite Htr, <-app_assoc|].
      apply (iteration_yield d keys (-1)); [exact Hs|].
      by apply (consume_shape d keys (-1 + 1)).
    + exists tr. split_and!; [done..|]. by constructor.
    + exists tr. split_and!; [done..|].
      destruct Hturn as [->|[[e0 Hs]|(data & g & Hs)]].
      * constructor.
      * by eapply (iteration_fail d keys (-1)).
      * by eapply (iteration_uncounted d keys (-1)).
Qed.

(** *** What the calls of the comprehension tell *)

Lemma reads_of_has_more d (i : Z) keys data r tr :
  reads_of d i keys data r tr → omap has_more_of tr = [] ∧ omap load_of tr = [].
Proof. induction 1; cbn; done. Qed.

Lemma reads_of_reads d (i : Z) keys data r tr :
  reads_of d i keys data r tr →
  Forall (λ ev, ∃ k x, ev = EvGetData d i k x) tr.
Proof. induction 1; repeat constructor; eauto. Qed.

Lemma reads_of_split d (i : Z) keys data r tr pre post d' j k x :
  reads_of d i keys data r tr → tr = pre ++ EvGetData d' j k x :: post →
  d' = d ∧ j = i ∧ omap load_of pre = [].
Proof.
  intros Hr%reads_of_reads ->.
  apply Forall_app in Hr as [Hpre Hev]. apply Forall_cons in Hev as [(k' & x' & Hev) _].
  inversion Hev; subst. split; [done|]. split; [done|].
  clear Hev. induction Hpre as [|ev pre (k'' & x'' & ->) _ IH]; cbn; done.
Qed.

Lemma reads_of_keys d (i : Z) keys data data' tr :
  reads_of d i keys data (Ok data') tr → reads_at i tr = keys.
Proof.
  intros Hr. remember (Ok data') as r eqn:Er. unfold reads_at.
  induction Hr as [data|k ks data e|k ks data v r tr Hr IH]; [done..|].
  cbn. rewrite decide_True by done. cbn. by rewrite (IH Er).
Qed.

Lemma reads_of_no_keys_elsewhere d (i j : Z) keys data r tr :
  reads_of d i keys data r tr → j ≠ i → reads_at j tr = [].
Proof.
  intros Hr Hne. unfold reads_at.
  induction Hr; cbn; [done|..]; rewrite decide_False by done; done.
Qed.

Lemma reads_of_stream_calls d (i : Z) keys data r tr :
  reads_of d i keys data r tr → Forall (stream_call d) tr.
Proof. induction 1; repeat constructor; done. Qed.

(** *** What the calls of one turn tell *)

Lemma step_of_has_more d keys (i : Z) r tr :
  step_of d keys i r tr →
  ∃ x, has_more tr = [(i, x)]
       ∧ (∀ y, r = Ok (Some y) → x = Ok true)
       ∧ (r = Ok None ↔ x = Ok false).
Proof.
  unfold has_more.
  destruct 1 as [|e|e|e tr Hr|data tr Hr]; cbn;
    try (destruct (reads_of_has_more _ _ _ _ _ _ Hr) as [-> _]);
    eexists; (split; [reflexivity|]); split; done.
Qed.

Lemma step_of_loads d keys (i : Z) r tr pre post d' j k x :
  step_of d keys i r tr → tr = pre ++ EvGetData d' j k x :: post →
  d' = d ∧ j = i ∧ last_load pre = Some (i, i + 1, Ok tt).
Proof.
  unfold last_load.
  destruct 1 as [|e|e|e tr Hr|data tr Hr]; intros Heq;
    destruct pre as [|a [|b pre]]; simplify_eq/=;
    try (by destruct pre);
    destruct (reads_of_split _ _ _ _ _ _ _ _ _ _ _ _ Hr eq_refl) as (-> & -> & ->); done.
Qed.

Lemma step_of_keys d keys (i : Z) r tr :
  step_of d keys i r tr →
  (∀ j, j ≠ i → reads_at j tr = [])
  ∧ (∀ y, r = Ok (Some y) → reads_at i tr = keys ∧ loads tr = [(i, i + 1, Ok tt)])
  ∧ (loads tr = [] ∨ ∃ x, loads tr = [(i, i + 1, x)]).
Proof.
  destruct 1 as [|e|e|e tr Hr|data tr Hr]; (split; [intros j Hj|split; [intros y Hy|]]);
    try done; try (by left); try (right; by eexists);
    unfold reads_at, loads in *; cbn.
  - exact (reads_of_no_keys_elsewhere _ _ _ _ _ _ _ Hr Hj).
  - right. destruct (reads_of_has_more _ _ _ _ _ _ Hr) as [_ ->]. by eexists.
  - exact (reads_of_no_keys_elsewhere _ _ _ _ _ _ _ Hr Hj).
  - destruct (reads_of_has_more _ _ _ _ _ _ Hr) as [_ ->].
    split; [|done]. exact (reads_of_keys _ _ _ _ _ _ Hr).
  - right. destruct (reads_of_has_more _ _ _ _ _ _ Hr) as [_ ->]. by eexists.
Qed.

Lemma step_of_stream_calls d keys (i : Z) r tr :
  step_of d keys i r tr → Forall (stream_call d) tr.
Proof.
  destruct 1 as [|e|e|e tr Hr|data tr Hr]; repeat constructor;
    by apply (reads_of_stream_calls _ _ _ _ _ _ Hr).
Qed.

(** *** What the calls of a whole iteration tell *)

Lemma iteration_items_asked d keys (p : Z) n its en tr (j : nat) data :
  iteration d keys p n its en tr → its !! j = Some data →
  has_more tr !! j = Some (p + 1 + Z.of_nat j, Ok true).
Proof.
  intros Hit. revert j.
  induction Hit as [p g|p n tr Hs|p n e e' tr Hs|p n e|p n e data0 g tr Hs
                   |p n data0 tr its en tr' Hs Hit IH];
    intros j Hj; [done..|].
  destruct (step_of_has_more _ _ _ _ _ Hs) as (x & Hx & Htrue & _).
  unfold has_more in *. rewrite omap_app, Hx. cbn. destruct j as [|j]; cbn in *.
  - rewrite (Htrue _ eq_refl). do 2 f_equal. lia.
  - etrans; [exact (IH j Hj)|]. do 2 f_equal. lia.
Qed.

Lemma iteration_asks_in_order d keys (p : Z) n its en tr (j : nat) m x :
  iteration d keys p n its en tr → has_more tr !! j = Some (m, x) →
  m = p + 1 + Z.of_nat j
  ∧ (j ≤ length its)%nat
  ∧ ((j < length its)%nat → x = Ok true)
  ∧ (x = Ok false → j = length its ∧ en = Exhausted).
Proof.
  intros Hit. revert j.
  induction Hit as [p g|p n tr Hs|p n e e' tr Hs|p n e|p n e data0 g tr Hs
                   |p n data0 tr its en tr' Hs Hit IH];
    intros j Hj; [done| | |done| |];
    destruct (step_of_has_more _ _ _ _ _ Hs) as (y & Hy & Htrue & Hfalse);
    unfold has_more in *.
  - rewrite Hy in Hj. destruct j as [|[|j]]; simplify_eq/=.
    split_and!; [lia|lia|lia|done].
  - rewrite Hy in Hj. destruct j as [|[|j]]; simplify_eq/=.
    split_and!; [lia|lia|lia|]. intros ->. by destruct Hfalse as [_ Hf]; specialize (Hf eq_refl).
  - rewrite Hy in Hj. destruct j as [|[|j]]; simplify_eq/=.
    split_and!; [lia|lia|lia|]. intros ->. by specialize (Htrue _ eq_refl).
  - rewrite omap_app, Hy in Hj. destruct j as [|j]; simplify_eq/=.
    + rewrite (Htrue _ eq_refl). split_and!; [lia|lia|done|done].
    + destruct (IH j Hj) as (-> & Hle & Hlt & Hstop).
      split_and!; [lia|lia|intros; apply Hlt; lia|].
      intros Hx. destruct (Hstop Hx) as [-> ->]. done.
Qed.

Lemma iteration_end d keys (p : Z) n its en tr :
  iteration d keys p n its en tr →
  match en with
  | Exhausted =>
      has_more tr !! length its = Some (p + 1 + Z.of_nat (length its), Ok false)
  | Failed e => True
  | Pending g => length its = n
  end.
Proof.
  induction 1 as [p g|p n tr Hs|p n e e' tr Hs|p n e|p n e data0 g tr Hs
                 |p n data0 tr its en tr' Hs Hit IH]; [done| |done..|].
  - destruct (step_of_has_more _ _ _ _ _ Hs) as (y & -> & _ & Hfalse).
    rewrite (proj1 Hfalse eq_refl). cbn. do 2 f_equal. lia.
  - destruct (step_of_has_more _ _ _ _ _ Hs) as (y & Hy & _).
    unfold has_more in *. destruct en as [|e|g]; cbn.
    + rewrite omap_app, Hy. cbn. etrans; [exact IH|]. do 2 f_equal. lia.
    + done.
    + by rewrite IH.
Qed.

Lemma iteration_loads d keys (p : Z) n its en tr pre post d' (j : Z) k x :
  iteration d keys p n its en tr → tr = pre ++ EvGetData d' j k x :: post →
  d' = d ∧ last_load pre = Some (j, j + 1, Ok tt).
Proof.
  intros Hit. revert pre.
  induction Hit as [p g|p n tr Hs|p n e e' tr Hs|p n e|p n e data0 g tr Hs
                   |p n data0 tr its en tr' Hs Hit IH];
    intros pre Heq.
  - by destruct pre.
  - by destruct (step_of_loads _ _ _ _ _ _ _ _ _ _ _ Hs Heq) as (-> & -> & ->).
  - by destruct (step_of_loads _ _ _ _ _ _ _ _ _ _ _ Hs Heq) as (-> & -> & ->).
  - by destruct pre.
  - by destruct (step_of_loads _ _ _ _ _ _ _ _ _ _ _ Hs Heq) as (-> & -> & ->).
  - apply app_eq_app in Heq as [l [[-> Heq]|[-> ->]]].
    + destruct l as [|ev l]; cbn in Heq.
      * destruct (IH [] (eq_sym Heq)) as [_ Hload]. done.
      * inversion Heq; subst.
        by destruct (step_of_loads _ _ _ _ _ _ _ _ _ _ _ Hs eq_refl) as (-> & -> & ->).
    + destruct (IH l eq_refl) as [-> Hload]. split; [done|].
      unfold last_load in *. by rewrite omap_app, last_app, Hload.
Qed.

Lemma iteration_no_keys_before d keys (p j : Z) n its en tr :
  iteration d keys p n its en tr → j ≤ p → reads_at j tr = [].
Proof.
  induction 1 as [p g|p n tr Hs|p n e e' tr Hs|p n e|p n e data0 g tr Hs
                 |p n data0 tr its en tr' Hs Hit IH];
    intros Hle; [done| | |done| |];
    destruct (step_of_keys _ _ _ _ _ Hs) as (Hother & _ & _).
  - apply Hother. lia.
  - apply Hother. lia.
  - apply Hother. lia.
  - unfold reads_at in *. rewrite omap_app, Hother by lia. rewrite IH by lia. done.
Qed.

Lemma iteration_item_calls d keys (p : Z) n its en tr (j : nat) data :
  iteration d keys p n its en tr → its !! j = Some data →
  reads_at (p + 1 + Z.of_nat j) tr = keys
  ∧ loads tr !! j = Some (p + 1 + Z.of_nat j, p + 1 + Z.of_nat j + 1, Ok tt).
Proof.
  intros Hit. revert j.
  induction Hit as [p g|p n tr Hs|p n e e' tr Hs|p n e|p n e data0 g tr Hs
                   |p n data0 tr its en tr' Hs Hit IH];
    intros j Hj; [done..|].
  destruct (step_of_keys _ _ _ _ _ Hs) as (Hother & Hyield & _).
  destruct (Hyield _ eq_refl) as [Hkeys Hload].
  unfold reads_at, loads in *. rewrite !omap_app, Hload.
  destruct j as [|j]; cbn in Hj |- *.
  - replace (p + 1 + Z.of_nat 0) with (p + 1) by lia.
    rewrite Hkeys. fold (reads_at (p + 1) tr').
    rewrite (iteration_no_keys_before _ _ _ _ _ _ _ _ Hit) by lia.
    by rewrite app_nil_r.
  - destruct (IH j Hj) as [Hk Hl].
    replace (p + 1 + Z.of_nat (S j)) with (p + 1 + 1 + Z.of_nat j) by lia.
    rewrite Hother by lia. done.
Qed.

Lemma iteration_loads_in_order d keys (p : Z) n its en tr (j : nat) s e x :
  iteration d keys p n its en tr → loads tr !! j = Some (s, e, x) →
  s = p + 1 + Z.of_nat j ∧ e = s + 1 ∧ (j ≤ length its)%nat.
Proof.
  intros Hit. revert j.
  induction Hit as [p g|p n tr Hs|p n e0 e' tr Hs|p n e0|p n e0 data0 g tr Hs
                   |p n data0 tr its en tr' Hs Hit IH];
    intros j Hj; [done| | |done| |];
    destruct (step_of_keys _ _ _ _ _ Hs) as (_ & Hyield & Hloads).
  - destruct Hloads as [Hl|[y Hl]]; rewrite Hl in Hj; [done|].
    destruct j as [|[|j]]; simplify_eq/=. split_and!; lia.
  - destruct Hloads as [Hl|[y Hl]]; rewrite Hl in Hj; [done|].
    destruct j as [|[|j]]; simplify_eq/=. split_and!; lia.
  - destruct Hloads as [Hl|[y Hl]]; rewrite Hl in Hj; [done|].
    destruct j as [|[|j]]; simplify_eq/=. split_and!; lia.
  - destruct (Hyield _ eq_refl) as [_ Hl].
    unfold loads in *. rewrite omap_app, Hl in Hj.
    destruct j as [|j]; simplify_eq/=; [split_and!; lia|].
    destruct (IH j Hj) as (-> & -> & Hle). split_and!; lia.
Qed.

Lemma iteration_stream_calls d keys (p : Z) n its en tr :
  iteration d keys p n its en tr → Forall (stream_call d) tr.
Proof.
  induction 1 as [p g|p n tr Hs|p n e e' tr Hs|p n e|p n e data0 g tr Hs
                 |p n data0 tr its en tr' Hs Hit IH].
  - constructor.
  - by apply step_of_stream_calls in Hs.
  - by apply step_of_stream_calls in Hs.
  - constructor.
  - by apply step_of_stream_calls in Hs.
  - apply Forall_app. split; [by apply step_of_stream_calls in Hs|done].
Qed.

Lemma reset_calls_silent d pre :
  reset_calls d pre → has_more pre = [] ∧ loads pre = [] ∧ ∀ j, reads_at j pre = [].
Proof. by intros [->|(f & x & ->)]. Qed.

(** *** The log is faithful *)

Lemma genuine_data_dict (i : Z) keys (acc : gmap string ndarray) :
  emits (@genuine World ndarray) (IterableDatasetWrapper.data_dict i keys acc).
Proof.
  revert acc. induction keys as [|k keys IH]; intros acc; cbn; emit.
  intros d w. cbn. by eexists.
Qed.

Lemma genuine_wrap_generator g :
  emits (@genuine World ndarray) (IterDataPipe.wrap_generator IterableDatasetWrapper.reset
                   IterableDatasetWrapper.resume g).
Proof.
  pose proof genuine_data_dict.
  destruct g as [|iterator_id [|keys p|]|];
    unfold IterDataPipe.wrap_generator, IterDataPipe._set_datapipe_valid_iterator_id,
      IterDataPipe._check_iterator_valid, IterableDatasetWrapper.reset,
      IterDataPipe.conditional_reset, IterableDatasetWrapper.reset_func,
      IterableDatasetWrapper.resume, IterableDatasetWrapper.loop_head,
      IterDataPipe.after_send, IterDataPipe.count_sample.
  all: emit.
  all: intros; cbn; by eexists.
Qed.

Lemma genuine_consume body fuel g st : Forall genuine (calls (consume body fuel g st)).
Proof.
  revert g st. induction fuel as [|fuel IH]; intros g st; [constructor|].
  rewrite consume_step. cbn zeta.
  pose proof (genuine_wrap_generator g st) as Hg.
  set (o := IterDataPipe.wrap_generator _ _ _ st) in *. clearbody o.
  destruct (res o) as [[[data g']|]|e]; cbn; [|done..].
  apply Forall_app. split; [done|apply IH].
Qed.

Lemma stream_answers d tr (j : nat) m x :
  Forall (stream_call d) tr → Forall genuine tr → has_more tr !! j = Some (m, x) →
  ∃ w, x = (is_less_than_num_seqs d m w).1.
Proof.
  intros Hs Hg. revert j. induction Hs as [|ev tr Hev Hs IH]; intros j Hj; [done|].
  apply Forall_cons in Hg as [Hev' Hg].
  destruct ev; cbn in Hev; try done; unfold has_more in *; cbn in Hj; try (by apply (IH Hg j)).
  destruct j as [|j]; cbn in Hj; [|by apply (IH Hg j)].
  inversion Hj; subst. exact Hev'.
Qed.

(** *** Runs in which every call returns *)

Lemma data_dict_fields d (i : Z) keys data w data' tr w' self :
  holds_dataset self d → fields d i keys data w data' tr w' →
  IterableDatasetWrapper.data_dict i keys data {| self_obj := self; world := w |} =
    {| res := Ok data'; post := {| self_obj := self; world := w' |}; trace := tr |}.
Proof.
  intros H Hf. induction Hf as [data w|k ks data w v w1 data' tr w' Hget Hf IH]; cbn.
  - reflexivity.
  - read_attr H. run_call Hget. by rewrite IH.
Qed.

Lemma loop_head_more d keys (i : Z) w w1 w2 data tr w3 self :
  holds_dataset self d →
  is_less_than_num_seqs d i w = (Ok true, w1) →
  load_seqs d i (i + 1) w1 = (Ok tt, w2) →
  fields d i keys ∅ w2 data tr w3 →
  IterableDatasetWrapper.loop_head keys i {| self_obj := self; world := w |} =
    {| res := Ok (Some (data, GenSuspended keys i));
       post := {| self_obj := self; world := w3 |};
       trace := EvIsLessThanNumSeqs d i (Ok true) :: EvLoadSeqs d i (i + 1) (Ok tt) :: tr |}.
Proof.
  intros H Hmore Hload Hf. unfold IterableDatasetWrapper.loop_head.
  read_attr H. run_call Hmore. read_attr H. run_call Hload.
  rewrite bind_run, (data_dict_fields d i keys ∅ w2 data tr w3 self H Hf). cbn.
  by rewrite app_nil_r.
Qed.

Lemma loop_head_done d keys (i : Z) w w1 self :
  holds_dataset self d →
  is_less_than_num_seqs d i w = (Ok false, w1) →
  IterableDatasetWrapper.loop_head keys i {| self_obj := self; world := w |} =
    {| res := Ok None; post := {| self_obj := self; world := w1 |};
       trace := [EvIsLessThanNumSeqs d i (Ok false)] |}.
Proof.
  intros H Hmore. unfold IterableDatasetWrapper.loop_head.
  read_attr H. run_call Hmore. reflexivity.
Qed.

Lemma check_valid_tracking iterator_id self w :
  tracking iterator_id self →
  IterDataPipe._check_iterator_valid iterator_id {| self_obj := self; world := w |} =
    {| res := Ok tt; post := {| self_obj := self; world := w |}; trace := [] |}.
Proof.
  intros [Hid _]. unfold IterDataPipe._check_iterator_valid.
  rewrite bind_run. cbn. rewrite bind_run. cbn. rewrite Hid. cbn. by rewrite Z.eqb_refl.
Qed.

Lemma count_sample_tracking d iterator_id self w :
  holds_dataset self d → tracking iterator_id self →
  ∃ self', holds_dataset self' d ∧ tracking iterator_id self'
    ∧ IterDataPipe.count_sample {| self_obj := self; world := w |} =
        {| res := Ok tt; post := {| self_obj := self'; world := w |}; trace := [] |}.
Proof.
  intros H [Hid [n Hn]]. unfold IterDataPipe.count_sample.
  eexists. split_and!; [| |rewrite bind_run; cbn; rewrite Hn; reflexivity].
  - unfold holds_dataset. cbn. by rewrite lookup_insert_ne.
  - split; cbn; [by rewrite lookup_insert_ne|]. exists (n + 1). by rewrite lookup_insert_eq.
Qed.

(** A turn of a started iterator for which the dataset has a sequence. *)
Lemma running_more d keys (p : Z) iterator_id w w1 w2 data tr w3 self :
  holds_dataset self d → tracking iterator_id self →
  is_less_than_num_seqs d (p + 1) w = (Ok true, w1) →
  load_seqs d (p + 1) (p + 1 + 1) w1 = (Ok tt, w2) →
  fields d (p + 1) keys ∅ w2 data tr w3 →
  ∃ self', holds_dataset self' d ∧ tracking iterator_id self'
    ∧ IterDataPipe.wrap_generator IterableDatasetWrapper.reset IterableDatasetWrapper.resume
        (HookRunning iterator_id (GenSuspended keys p)) {| self_obj := self; world := w |} =
        {| res := Ok (Some (data, HookRunning iterator_id (GenSuspended keys (p + 1))));
           post := {| self_obj := self'; world := w3 |};
           trace := EvIsLessThanNumSeqs d (p + 1) (Ok true)
                    :: EvLoadSeqs d (p + 1) (p + 1 + 1) (Ok tt) :: tr |}.
Proof.
  intros H Ht Hmore Hload Hf.
  destruct (count_sample_tracking d iterator_id self w3 H Ht) as (self' & H' & Ht' & Hcount).
  exists self'. split; [done|]. split; [done|].
  unfold IterDataPipe.wrap_generator, IterDataPipe.try_except.
  rewrite bind_run, (check_valid_tracking _ _ _ Ht). cbn [res post trace app].
  change (IterableDatasetWrapper.resume (GenSuspended keys p)) with
    (IterableDatasetWrapper.loop_head keys (p + 1) : Meth _).
  rewrite bind_run, (loop_head_more d keys (p + 1) w w1 w2 data tr w3 self H Hmore Hload Hf).
  cbn [res post trace IterDataPipe.after_send]. rewrite bind_run, Hcount. cbn.
  by rewrite !app_nil_r.
Qed.

(** A turn of a started iterator at the end of the dataset. *)
Lemma running_done d keys (p : Z) iterator_id w w1 self :
  holds_dataset self d → tracking iterator_id self →
  is_less_than_num_seqs d (p + 1) w = (Ok false, w1) →
  IterDataPipe.wrap_generator IterableDatasetWrapper.reset IterableDatasetWrapper.resume
    (HookRunning iterator_id (GenSuspended keys p)) {| self_obj := self; world := w |} =
    {| res := Ok None; post := {| self_obj := self; world := w1 |};
       trace := [EvIsLessThanNumSeqs d (p + 1) (Ok false)] |}.
Proof.
  intros H Ht Hmore.
  unfold IterDataPipe.wrap_generator, IterDataPipe.try_except.
  rewrite bind_run, (check_valid_tracking _ _ _ Ht). cbn [res post trace app].
  change (IterableDatasetWrapper.resume (GenSuspended keys p)) with
    (IterableDatasetWrapper.loop_head keys (p + 1) : Meth _).
  rewrite bind_run, (loop_head_done d keys (p + 1) w w1 self H Hmore). reflexivity.
Qed.

(** A started iterator yields what the dataset serves. *)
Lemma consume_serves d keys body iterator_id (i : Z) w its tr w' :
  serves d keys body i w its tr w' →
  ∀ p self, i = p + 1 → holds_dataset self d → tracking iterator_id self →
    (∃ g self',
       consume body (length its) (HookRunning iterator_id (GenSuspended keys p))
         {| self_obj := self; world := w |} =
         {| items := its; ended := Pending g;
            final := {| self_obj := self'; world := w' |}; calls := tr |})
    ∧ (∀ fuel w'',
         (length its < fuel)%nat →
         is_less_than_num_seqs d (i + Z.of_nat (length its)) w' = (Ok false, w'') →
         ∃ self',
           consume body fuel (HookRunning iterator_id (GenSuspended keys p))
             {| self_obj := self; world := w |} =
             {| items := its; ended := Exhausted;
                final := {| self_obj := self'; world := w'' |};
                calls := tr ++ [EvIsLessThanNumSeqs d (i + Z.of_nat (length its)) (Ok false)] |}).
Proof.
  induction 1 as [i w|i w w1 w2 data tr w3 its tr' w' Hmore Hload Hf Hs IH];
    intros p self -> H Ht.
  - split; [by eexists _, _|].
    intros [|fuel] w'' Hfuel Hstop; [cbn in Hfuel; lia|].
    replace (p + 1 + Z.of_nat (length (@nil (gmap string ndarray)))) with (p + 1) in *
      by (cbn; lia).
    exists self. rewrite consume_step. cbn zeta.
    by rewrite (running_done d keys p iterator_id w w'' self H Ht Hstop).
  - destruct (running_more d keys p iterator_id w w1 w2 data tr w3 self H Ht Hmore Hload Hf)
      as (self1 & H1 & Ht1 & Hrun).
    destruct (IH (p + 1) self1 eq_refl H1 Ht1) as [(g & self' & Hpend) Hex].
    split.
    + exists g, self'. cbn [length]. rewrite consume_step. cbn zeta. rewrite Hrun.
      cbn [res post trace self_obj world]. by rewrite Hpend.
    + intros [|fuel] w'' Hfuel Hstop; [lia|].
      replace (p + 1 + Z.of_nat (length (data :: its)))
        with (p + 1 + 1 + Z.of_nat (length its)) in * by (cbn [length]; lia).
      destruct (Hex fuel w'') as [self2 Hrun']; [cbn [length] in Hfuel; lia|done|].
      exists self2. rewrite consume_step. cbn zeta. rewrite Hrun.
      cbn [res post trace self_obj world]. rewrite Hrun'. cbn.
      by rewrite <-?app_assoc.
Qed.

(** *** The first turn of a run in which every call returns *)

Lemma pipe_usable_inv self :
  pipe_usable self = true →
  truthy (default VNone (ob_dict self !! "_fast_forward_iterator")) = false
  ∧ IterDataPipe.resettable (snapshot_of self) = true
  ∧ (default VNone (ob_dict self !! "_valid_iterator_id") = VNone
     ∨ ∃ n, default VNone (ob_dict self !! "_valid_iterator_id") = VInt n).
Proof.
  unfold pipe_usable. intros [[Hff Hsnap]%andb_true_iff Hid]%andb_true_iff.
  apply negb_true_iff in Hff. split_and!; [done..|].
  destruct (default VNone (ob_dict self !! "_valid_iterator_id")); try done;
    first [by left | right; by eexists].
Qed.

(** The prelude of the hook on a usable pipe: a new iterator id, and the
    reset of the pipe with its callback. *)
Lemma set_id_run d cb st w0 tr0 :
  holds_dataset (self_obj st) d → holds_callback (self_obj st) cb →
  pipe_usable (self_obj st) = true →
  callback_run cb d (world st) = {| eff_res := Ok tt; eff_world := w0; eff_calls := tr0 |} →
  ∃ iterator_id self1,
    holds_dataset self1 d ∧ tracking iterator_id self1
    ∧ IterDataPipe._set_datapipe_valid_iterator_id IterableDatasetWrapper.reset st =
        {| res := Ok iterator_id; post := {| self_obj := self1; world := w0 |};
           trace := tr0 |}.
Proof.
  intros Hd Hc (Hff & Hsnap & Hid)%pipe_usable_inv Hcb.
  assert (∀ iterator_id,
    let self0 := {| ob_type := ob_type (self_obj st);
                    ob_dict := <["_valid_iterator_id" := VInt iterator_id]>
                                 (ob_dict (self_obj st)) |} in
    holds_dataset (reset_marks (Ok tt) self0) d
    ∧ tracking iterator_id (reset_marks (Ok tt) self0)
    ∧ (setattr "_valid_iterator_id" (VInt iterator_id);;
       IterableDatasetWrapper.reset;; mret iterator_id) st =
        {| res := Ok iterator_id;
           post := {| self_obj := reset_marks (Ok tt) self0; world := w0 |};
           trace := tr0 |}) as Hrun.
  { intros iterator_id self0. split_and!.
    - unfold holds_dataset. cbn. by rewrite !lookup_insert_ne.
    - split; cbn.
      + rewrite !lookup_insert_ne by done. by rewrite lookup_insert_eq.
      + exists 0. rewrite !lookup_insert_ne by done. by rewrite lookup_insert_eq.
    - rewrite bind_run. cbn [setattr res post trace self_obj world app]. fold self0.
      rewrite bind_run, (stream_reset_run d _ cb);
        [|unfold holds_dataset; cbn; by rewrite lookup_insert_ne
         |unfold holds_callback; cbn; by rewrite lookup_insert_ne].
      cbn [self_obj world].
      replace (snapshot_of self0) with (snapshot_of (self_obj st))
        by (unfold snapshot_of; cbn; by rewrite lookup_insert_ne).
      rewrite Hsnap, Hcb. cbn. by rewrite app_nil_r. }
  unfold IterDataPipe._set_datapipe_valid_iterator_id.
  rewrite bind_run. cbn [IterDataPipe.class_attr M_ret res post trace app].
  destruct Hid as [->|[n ->]].
  - destruct (Hrun 0) as (H1 & H2 & H3). eexists _, _. split; [exact H1|]. split; [exact H2|].
    rewrite bind_run. cbn [mret M_MRet M_ret res post trace app]. by rewrite H3.
  - destruct (Hrun (n + 1)) as (H1 & H2 & H3).
    eexists _, _. split; [exact H1|]. split; [exact H2|].
    rewrite bind_run. cbn [mret M_MRet M_ret res post trace app]. by rewrite H3.
Qed.

Lemma running_tracking keys (p : Z) iterator_id self w :
  tracking iterator_id self →
  IterDataPipe.wrap_generator IterableDatasetWrapper.reset IterableDatasetWrapper.resume
    (HookRunning iterator_id (GenSuspended keys p)) {| self_obj := self; world := w |} =
  IterDataPipe.try_except
    (response ← IterableDatasetWrapper.loop_head keys (p + 1);
     IterDataPipe.after_send iterator_id response) {| self_obj := self; world := w |}.
Proof.
  intros Ht. unfold IterDataPipe.wrap_generator, IterDataPipe.try_except.
  rewrite (bind_run (IterDataPipe._check_iterator_valid iterator_id)),
    (check_valid_tracking _ _ _ Ht).
  cbn [res post trace app].
  change (IterableDatasetWrapper.resume (GenSuspended keys p)) with
    (IterableDatasetWrapper.loop_head keys (p + 1) : Meth _).
  match goal with |- context [res ?o] => destruct o as [[a|e] st' tr] end; reflexivity.
Qed.

(** The first turn on a usable pipe whose callback and whose
    [get_data_keys] return is the turn of an iterator suspended before the
    index 0, after these two calls. *)
Lemma created_run d cb st keys w0 tr0 w1 :
  holds_dataset (self_obj st) d → holds_callback (self_obj st) cb →
  pipe_usable (self_obj st) = true →
  callback_run cb d (world st) = {| eff_res := Ok tt; eff_world := w0; eff_calls := tr0 |} →
  get_data_keys d w0 = (Ok keys, w1) →
  ∃ iterator_id self1,
    holds_dataset self1 d ∧ tracking iterator_id self1
    ∧ let o' := IterDataPipe.wrap_generator IterableDatasetWrapper.reset
                  IterableDatasetWrapper.resume
                  (HookRunning iterator_id (GenSuspended keys (-1)))
                  {| self_obj := self1; world := w1 |} in
      IterDataPipe.wrap_generator IterableDatasetWrapper.reset IterableDatasetWrapper.resume
        HookCreated st =
        {| res := res o'; post := post o';
           trace := tr0 ++ EvGetDataKeys d (Ok keys) :: trace o' |}.
Proof.
  intros Hd Hc Hp Hcb Hkeys.
  destruct (set_id_run d cb st w0 tr0 Hd Hc Hp Hcb) as (iterator_id & self1 & H1 & Ht1 & Hset).
  exists iterator_id, self1. split; [done|]. split; [done|]. cbn zeta.
  rewrite (running_tracking keys (-1) iterator_id self1 w1 Ht1).
  change (-1 + 1) with 0.
  apply pipe_usable_inv in Hp as (Hff & _).
  unfold IterDataPipe.wrap_generator at 1.
  rewrite bind_run. cbn [res post trace].
  change (res (IterDataPipe.class_attr _ _ st)) with
    (Ok (default VNone (ob_dict (self_obj st) !! "_fast_forward_iterator"))
       : result (@pyval World ndarray)).
  cbn iota. rewrite Hff.
  change (post (IterDataPipe.class_attr _ _ st)) with st.
  change (trace (IterDataPipe.class_attr _ _ st)) with ([] : list (@event World ndarray)).
  rewrite !app_nil_l, bind_run, Hset. cbn [res post trace].
  unfold IterDataPipe.try_except.
  change (IterableDatasetWrapper.resume GenCreated) with
    (d ← getattr "_dataset";
     data_keys ← dataset_method d "get_data_keys" EvGetDataKeys get_data_keys;
     IterableDatasetWrapper.loop_head data_keys 0 : Meth _).
  rewrite bind_assoc_run. read_attr H1. rewrite bind_assoc_run, bind_run. cbn.
  rewrite Hkeys. cbn.
  destruct ((response ← IterableDatasetWrapper.loop_head keys 0;
             IterDataPipe.after_send iterator_id response)
              {| self_obj := self1; world := w1 |}) as [[a|e] st' tr]; reflexivity.
Qed.

Lemma consume_created d cb st keys w0 tr0 w1 body fuel :
  holds_dataset (self_obj st) d → holds_callback (self_obj st) cb →
  pipe_usable (self_obj st) = true →
  callback_run cb d (world st) = {| eff_res := Ok tt; eff_world := w0; eff_calls := tr0 |} →
  get_data_keys d w0 = (Ok keys, w1) →
  ∃ iterator_id self1,
    holds_dataset self1 d ∧ tracking iterator_id self1
    ∧ let r' := consume body (S fuel) (HookRunning iterator_id (GenSuspended keys (-1)))
                  {| self_obj := self1; world := w1 |} in
      consume body (S fuel) IterableDatasetWrapper.__iter__ st =
        {| items := items r'; ended := ended r'; final := final r';
           calls := tr0 ++ EvGetDataKeys d (Ok keys) :: calls r' |}.
Proof.
  intros Hd Hc Hp Hcb Hkeys.
  destruct (created_run d cb st keys w0 tr0 w1 Hd Hc Hp Hcb Hkeys)
    as (iterator_id & self1 & H1 & Ht1 & Hrun).
  exists iterator_id, self1. split; [done|]. split; [done|]. cbn zeta in Hrun |- *.
  unfold IterableDatasetWrapper.__iter__. rewrite !consume_step. cbn zeta. rewrite Hrun.
  cbn [res post trace].
  match goal with |- context [res ?o] => set (o' := o) end. clearbody o'.
  destruct (res o') as [[[data g']|]|e]; cbn; [|done..].
  by rewrite <-app_assoc.
Qed.

(** An iteration on a usable pipe yields what the dataset serves, after
    the reset callback and [get_data_keys] have returned. *)
Lemma consume_fresh_serves d cb st keys w0 tr0 w1 body its tr w' :
  holds_dataset (self_obj st) d → holds_callback (self_obj st) cb →
  pipe_usable (self_obj st) = true →
  callback_run cb d (world st) = {| eff_res := Ok tt; eff_world := w0; eff_calls := tr0 |} →
  get_data_keys d w0 = (Ok keys, w1) →
  serves d keys body 0 w1 its tr w' →
  (its ≠ [] →
   ∃ g self',
     consume body (length its) IterableDatasetWrapper.__iter__ st =
       {| items := its; ended := Pending g; final := {| self_obj := self'; world := w' |};
          calls := tr0 ++ EvGetDataKeys d (Ok keys) :: tr |})
  ∧ (∀ fuel w'',
       (length its < fuel)%nat →
       is_less_than_num_seqs d (Z.of_nat (length its)) w' = (Ok false, w'') →
       ∃ self',
         consume body fuel IterableDatasetWrapper.__iter__ st =
           {| items := its; ended := Exhausted;
              final := {| self_obj := self'; world := w'' |};
              calls := tr0 ++ EvGetDataKeys d (Ok keys)
                       :: tr ++ [EvIsLessThanNumSeqs d (Z.of_nat (length its)) (Ok false)] |}).
Proof.
  intros Hd Hc Hp Hcb Hkeys Hs. split.
  - intros Hne. destruct (length its) as [|n] eqn:Hlen; [by destruct its|].
    destruct (consume_created d cb st keys w0 tr0 w1 body n Hd Hc Hp Hcb Hkeys)
      as (iterator_id & self1 & H1 & Ht1 & Hrun).
    destruct (consume_serves d keys body iterator_id 0 w1 its tr w' Hs (-1) self1
                eq_refl H1 Ht1) as [(g & self' & Hpend) _].
    exists g, self'. cbn zeta in Hrun. rewrite Hrun, <-Hlen, Hpend. done.
  - intros [|fuel] w'' Hfuel Hstop; [lia|].
    destruct (consume_created d cb st keys w0 tr0 w1 body fuel Hd Hc Hp Hcb Hkeys)
      as (iterator_id & self1 & H1 & Ht1 & Hrun).
    destruct (consume_serves d keys body iterator_id 0 w1 its tr w' Hs (-1) self1
                eq_refl H1 Ht1) as [_ Hex].
    destruct (Hex (S fuel) w'' Hfuel) as [self' Hrun']; [by rewrite Z.add_0_l|].
    exists self'. cbn zeta in Hrun. rewrite Hrun, Hrun'. cbn. by rewrite Z.add_0_l.
Qed.

(** *** What the dataset serves *)

Lemma fields_values d (i : Z) keys data0 w data tr w' :
  fields d i keys data0 w data tr w' →
  dom data = dom data0 ∪ list_to_set keys
  ∧ ∀ k v, data !! k = Some v → data0 !! k = Some v ∨ ∃ w0, (get_data d i k w0).1 = Ok v.
Proof.
  induction 1 as [data0 w|k ks data0 w v w1 data tr w' Hget Hf [IHdom IHval]].
  - split; [by rewrite list_to_set_nil, (right_id_L ∅ (∪))|]. intros k v Hk. by left.
  - split.
    + rewrite IHdom, dom_insert_L, list_to_set_cons.
      by rewrite (comm_L (∪) {[k]} (dom data0)), <-(assoc_L (∪)).
    + intros k' v' Hk. destruct (IHval k' v' Hk) as [Hin|Hread]; [|by right].
      destruct (decide (k = k')) as [->|Hne].
      * rewrite lookup_insert_eq in Hin. inversion Hin; subst.
        right. exists w. by rewrite Hget.
      * rewrite lookup_insert_ne in Hin by done. by left.
Qed.

Lemma fields_silent d (i : Z) keys data0 w data tr w' :
  fields d i keys data0 w data tr w' → has_more tr = [] ∧ loads tr = [].
Proof. induction 1; cbn; done. Qed.

Lemma serves_items d keys body (i : Z) w its tr w' (j : nat) data :
  serves d keys body i w its tr w' → its !! j = Some data →
  dom data = list_to_set keys
  ∧ ∀ k v, data !! k = Some v → ∃ w0, (get_data d (i + Z.of_nat j) k w0).1 = Ok v.
Proof.
  intros Hs. revert j.
  induction Hs as [i w|i w w1 w2 data0 tr w3 its tr' w' Hmore Hload Hf Hs IH];
    intros j Hj; [done|].
  destruct j as [|j]; cbn in Hj.
  - inversion Hj; subst. destruct (fields_values _ _ _ _ _ _ _ _ Hf) as [Hdom Hval].
    split; [by rewrite Hdom, dom_empty_L, (left_id_L ∅ (∪))|].
    intros k v Hk. replace (i + Z.of_nat 0) with i by lia.
    by destruct (Hval k v Hk) as [Hin|Hread].
  - destruct (IH j Hj) as [Hdom Hval]. split; [done|].
    intros k v Hk. replace (i + Z.of_nat (S j)) with (i + 1 + Z.of_nat j) by lia.
    by apply Hval.
Qed.

Lemma serves_calls d keys body (i : Z) w its tr w' :
  serves d keys body i w its tr w' →
  has_more tr = (λ n, (n, Ok true)) <$> seqZ i (Z.of_nat (length its))
  ∧ loads tr = (λ n, (n, n + 1, Ok tt)) <$> seqZ i (Z.of_nat (length its)).
Proof.
  induction 1 as [i w|i w w1 w2 data0 tr w3 its tr' w' Hmore Hload Hf Hs [IHm IHl]];
    [done|].
  destruct (fields_silent _ _ _ _ _ _ _ _ Hf) as [Hm Hl].
  unfold has_more, loads in *. cbn [length].
  change (EvIsLessThanNumSeqs d i (Ok true) :: EvLoadSeqs d i (i + 1) (Ok tt) :: tr ++ tr')
    with ([EvIsLessThanNumSeqs d i (Ok true); EvLoadSeqs d i (i + 1) (Ok tt)] ++ tr ++ tr').
  rewrite !omap_app, Hm, Hl, IHm, IHl.
  rewrite (seqZ_cons i) by lia.
  replace (Z.pred (Z.of_nat (S (length its)))) with (Z.of_nat (length its)) by lia.
  done.
Qed.

Lemma fields_reads d (i : Z) keys data0 w data tr w' :
  fields d i keys data0 w data tr w' →
  reads_at i tr = keys ∧ ∀ j, j ≠ i → reads_at j tr = [].
Proof.
  unfold reads_at.
  induction 1 as [data0 w|k ks data0 w v w1 data tr w' Hget Hf [IHk IHo]]; [done|].
  cbn. split.
  - rewrite decide_True by done. cbn. by rewrite IHk.
  - intros j Hj. rewrite decide_False by done. by apply IHo.
Qed.

Lemma serves_reads d keys body (i : Z) w its tr w' :
  serves d keys body i w its tr w' →
  (∀ j, j < i → reads_at j tr = [])
  ∧ (∀ n : nat, (n < length its)%nat → reads_at (i + Z.of_nat n) tr = keys).
Proof.
  induction 1 as [i w|i w w1 w2 data0 tr w3 its tr' w' Hmore Hload Hf Hs [IHb IHk]].
  - split; [done|]. intros n Hn. cbn in Hn. lia.
  - destruct (fields_reads _ _ _ _ _ _ _ _ Hf) as [Hk Ho].
    assert (∀ j, reads_at j (EvIsLessThanNumSeqs d i (Ok true)
                             :: EvLoadSeqs d i (i + 1) (Ok tt) :: tr ++ tr')
                 = reads_at j tr ++ reads_at j tr') as Hsplit.
    { intros j. unfold reads_at. cbn. by rewrite omap_app. }
    split.
    + intros j Hj. rewrite Hsplit, Ho by lia. rewrite IHb by lia. done.
    + intros [|n] Hn; rewrite Hsplit.
      * replace (i + Z.of_nat 0) with i by lia. rewrite Hk, IHb by lia. by rewrite app_nil_r.
      * rewrite Ho by lia.
        replace (i + Z.of_nat (S n)) with (i + 1 + Z.of_nat n) by lia.
        apply IHk. cbn in Hn. lia.
Qed.

(** *** Iteration *)

(** C1: iterating the stream wrapper yields what the dataset serves.  On
    an instance that holds the dataset and the callback, with the
    bookkeeping of [IterDataPipe] as the constructor and the operations
    leave it, take any run of the dataset's own functions in which the
    reset callback (if one is held and counts as true) and
    [get_data_keys()] return, and then for the indices 0, 1, 2, ... in
    turn [is_less_than_num_seqs(i)] answers true, [load_seqs(i, i + 1)]
    returns and [get_data(i, k)] returns a value for every key [k], the
    consumer having its turn between two indices.  Then a consumer that
    takes as many items gets exactly the dicts of these values, in this
    order, and is left with the iterator; and when the predicate answers
    false at the next index, a consumer that asks for more gets these items
    and then the end of the stream.  Every item has exactly the keys of
    [get_data_keys()], and its value at a key [k] is a value that
    [get_data(i, k)] returned for its index [i]. *)
Theorem iteration_yields_dataset_items body d cb st keys w0 tr0 w1 its tr w'
    (Hd : holds_dataset (self_obj st) d)
    (Hcb : holds_callback (self_obj st) cb)
    (Hpipe : pipe_usable (self_obj st) = true)
    (Hreset : callback_run cb d (world st)
              = {| eff_res := Ok tt; eff_world := w0; eff_calls := tr0 |})
    (Hkeys : get_data_keys d w0 = (Ok keys, w1))
    (Hserves : serves d keys body 0 w1 its tr w') :
  (its ≠ [] →
   let r := consume body (length its) IterableDatasetWrapper.__iter__ st in
   items r = its ∧ (∃ g, ended r = Pending g) ∧ world (final r) = w')
  ∧ (∀ fuel w'',
       (length its < fuel)%nat →
       is_less_than_num_seqs d (Z.of_nat (length its)) w' = (Ok false, w'') →
       let r := consume body fuel IterableDatasetWrapper.__iter__ st in
       items r = its ∧ ended r = Exhausted ∧ world (final r) = w'')
  ∧ (∀ (j : nat) data, its !! j = Some data →
       dom data = list_to_set keys
       ∧ ∀ k v, data !! k = Some v → ∃ w, (get_data d (Z.of_nat j) k w).1 = Ok v).
Proof.
  destruct (consume_fresh_serves d cb st keys w0 tr0 w1 body its tr w'
              Hd Hcb Hpipe Hreset Hkeys Hserves) as [Hpend Hex].
  split_and!.
  - intros Hne. destruct (Hpend Hne) as (g & self' & ->). cbn. split_and!; [done|by eexists|done].
  - intros fuel w'' Hfuel Hstop. by destruct (Hex fuel w'' Hfuel Hstop) as (self' & ->).
  - intros j data Hj. exact (serves_items d keys body 0 w1 its tr w' j data Hserves Hj).
Qed.

(** C7: in every iteration of the stream wrapper the log is faithful, every
    [get_data(i, k)] is made on the wrapped dataset after [load_seqs(i, i + 1)]
    has returned, with no other load in between, and the calls of
    [is_less_than_num_seqs] ask for 0, 1, 2, ... in this order, each but
    the last answered true, an answer false being the last and the end of
    the stream.  And the calls are made: where the reset callback and
    [get_data_keys()] return and the dataset serves [n] sequences and then
    answers false, the calls of a consumer that asks for more are exactly
    the callback, [get_data_keys()], then for i = 0, ..., n - 1 the
    predicate, the load of the range from i to i + 1 and the reads of the
    index i, and last the predicate at the index n; the stream is then
    exhausted. *)
Theorem iteration_loads_before_reading_in_order body fuel d st
    (H : holds_dataset (self_obj st) d) :
  let r := consume body fuel IterableDatasetWrapper.__iter__ st in
  (Forall genuine (calls r)
   ∧ (∀ pre post d' (i : Z) k x,
        calls r = pre ++ EvGetData d' i k x :: post →
        d' = d ∧ last_load pre = Some (i, i + 1, Ok tt))
   ∧ (∀ (j : nat) m x, has_more (calls r) !! j = Some (m, x) →
        m = Z.of_nat j
        ∧ (j ≤ length (items r))%nat
        ∧ ((j < length (items r))%nat → x = Ok true)
        ∧ (x = Ok false →
           j = length (items r) ∧ ended r = Exhausted
           ∧ length (has_more (calls r)) = S j))
   ∧ (ended r = Exhausted →
      last (has_more (calls r)) = Some (Z.of_nat (length (items r)), Ok false)))
  ∧ (∀ cb keys w0 tr0 w1 its tr w' w'',
       holds_callback (self_obj st) cb →
       pipe_usable (self_obj st) = true →
       callback_run cb d (world st)
         = {| eff_res := Ok tt; eff_world := w0; eff_calls := tr0 |} →
       get_data_keys d w0 = (Ok keys, w1) →
       serves d keys body 0 w1 its tr w' →
       is_less_than_num_seqs d (Z.of_nat (length its)) w' = (Ok false, w'') →
       (length its < fuel)%nat →
       calls r = tr0 ++ EvGetDataKeys d (Ok keys)
                 :: tr ++ [EvIsLessThanNumSeqs d (Z.of_nat (length its)) (Ok false)]
       ∧ has_more (calls r)
         = ((λ i, (i, Ok true)) <$> seqZ 0 (Z.of_nat (length its)))
           ++ [(Z.of_nat (length its), Ok false)]
       ∧ loads (calls r) = (λ i, (i, i + 1, Ok tt)) <$> seqZ 0 (Z.of_nat (length its))
       ∧ ended r = Exhausted).
Proof.
  intros r. split.
  - split; [apply genuine_consume|].
    pose proof (consume_fresh d body fuel st H) as Hfresh.
    cbn zeta in Hfresh. fold r in Hfresh.
    destruct Hfresh as [(-> & Hi & He & Hc)
                       |[(pre & e & Hpre & Hi & He & Hc)
                        |(pre & keys & tr & Hf & Hpre & Hc & Hit)]].
    + rewrite Hi, He, Hc. split_and!; [|done..]. intros pre ??????. by destruct pre.
    + destruct (reset_calls_silent d pre Hpre) as (Hm & _ & _).
      assert (has_more (calls r) = []) as Hnone.
      { destruct Hc as [->|[e0 ->]]; [done|]. unfold has_more in *. by rewrite omap_app, Hm. }
      rewrite Hi, He, Hnone. split_and!; [|done..].
      intros pre' post d' i k x Heq.
      destruct Hpre as [->|(f & y & ->)], Hc as [Hc|[e0 Hc]]; rewrite Hc in Heq;
        destruct pre' as [|? [|? [|??]]]; done.
    + destruct (reset_calls_silent d pre Hpre) as (Hm & Hl & _).
      assert (has_more (calls r) = has_more tr) as ->.
      { rewrite Hc. unfold has_more in *. by rewrite omap_app, Hm. }
      assert (∀ (j : nat) m x, has_more tr !! j = Some (m, x) → (j ≤ length (items r))%nat)
        as Hbound.
      { intros j m x Hj.
        by destruct (iteration_asks_in_order _ _ _ _ _ _ _ _ _ _ Hit Hj) as (_ & ? & _). }
      assert (length (has_more tr) ≤ S (length (items r)))%nat as Hlen.
      { destruct (decide (length (has_more tr) ≤ S (length (items r)))%nat) as [|Hgt]; [done|].
        destruct (lookup_lt_is_Some_2 (has_more tr) (S (length (items r)))) as [[m x] Hj];
          [lia|].
        apply Hbound in Hj. lia. }
      split_and!.
      * intros pre' post d' i k x Heq. rewrite Hc in Heq.
        assert (∃ l, pre' = pre ++ EvGetDataKeys d (Ok keys) :: l
                     ∧ tr = l ++ EvGetData d' i k x :: post) as (l & -> & Htr).
        { change (pre ++ EvGetDataKeys d (Ok keys) :: tr)
            with (pre ++ [EvGetDataKeys d (Ok keys)] ++ tr) in Heq.
          rewrite app_assoc in Heq.
          apply app_eq_app in Heq as [l [[Hp Heq]|[Hp Heq]]].
          - destruct l as [|ev l]; cbn in Heq.
            + exists []. rewrite app_nil_r in Hp. split; [by rewrite <-Hp|by rewrite <-Heq].
            + exfalso. inversion Heq; subst ev.
              destruct Hpre as [->|(f & y & ->)].
              * by destruct pre' as [|? [|??]].
              * by destruct pre' as [|? [|? [|??]]].
          - exists l. split; [|done]. by rewrite Hp, <-app_assoc. }
        destruct (iteration_loads _ _ _ _ _ _ _ _ _ _ _ _ _ Hit Htr) as [-> Hload].
        split; [done|]. unfold last_load in *.
        rewrite omap_app. cbn. by rewrite last_app, Hload.
      * intros j m x Hj.
        destruct (iteration_asks_in_order _ _ _ _ _ _ _ _ _ _ Hit Hj)
          as (-> & Hle & Hlt & Hstop).
        split_and!; [lia|done|done|].
        intros Hx. destruct (Hstop Hx) as [-> Hend]. split_and!; [done..|].
        apply lookup_lt_Some in Hj. lia.
      * intros Hend. pose proof (iteration_end _ _ _ _ _ _ _ Hit) as Hlast.
        rewrite Hend in Hlast.
        pose proof (lookup_lt_Some _ _ _ Hlast) as Hlt.
        rewrite last_lookup.
        replace (pred (length (has_more tr))) with (length (items r)) by lia.
        etrans; [exact Hlast|]. do 2 f_equal; lia.
  - intros cb keys w0 tr0 w1 its tr w' w'' Hcb Hpipe Hreset Hkeys Hserves Hstop Hfuel.
    destruct (consume_fresh_serves d cb st keys w0 tr0 w1 body its tr w'
                H Hcb Hpipe Hreset Hkeys Hserves) as [_ Hex].
    destruct (Hex fuel w'' Hfuel Hstop) as (self' & Hrun). subst r. rewrite Hrun. cbn.
    destruct (serves_calls d keys body 0 w1 its tr w' Hserves) as [Hm Hl].
    assert (has_more tr0 = [] ∧ loads tr0 = []) as [Hm0 Hl0].
    { unfold callback_run in Hreset.
      destruct cb as [f|]; [destruct (cb_truth f)|]; by inversion Hreset. }
    unfold has_more, loads in *.
    split_and!; [done| | |done].
    + rewrite omap_app, Hm0. cbn. by rewrite omap_app, Hm.
    + rewrite omap_app, Hl0. cbn. by rewrite omap_app, Hl, app_nil_r.
Qed.

(** ** Further properties of the code *)

(** *** The initializers, called by hand *)

(** X1: the body of [MapStyleDatasetPerEpochWrapper.__int__] checks the two
    capabilities in order before it assigns anything: if
    [have_corpus_seq_idx()] is false, [have_get_corpus_seq()] is not asked;
    if either is false the call ends in [AssertionError] and [self] has not
    changed; if both are true, [self] gets the dataset and the callback. *)
Theorem per_epoch_int_guards_assignments d cb st :
  (∀ w1,
     have_corpus_seq_idx d (world st) = (Ok false, w1) →
     MapStyleDatasetPerEpochWrapper.__int__ d cb st =
       {| res := Raise (PyExc "AssertionError" "");
          post := {| self_obj := self_obj st; world := w1 |};
          trace := [EvHaveCorpusSeqIdx d (Ok false)] |})
  ∧ (∀ w1 w2,
     have_corpus_seq_idx d (world st) = (Ok true, w1) →
     have_get_corpus_seq d w1 = (Ok false, w2) →
     MapStyleDatasetPerEpochWrapper.__int__ d cb st =
       {| res := Raise (PyExc "AssertionError" "");
          post := {| self_obj := self_obj st; world := w2 |};
          trace := [EvHaveCorpusSeqIdx d (Ok true); EvHaveGetCorpusSeq d (Ok false)] |})
  ∧ (∀ w1 w2,
     have_corpus_seq_idx d (world st) = (Ok true, w1) →
     have_get_corpus_seq d w1 = (Ok true, w2) →
     MapStyleDatasetPerEpochWrapper.__int__ d cb st =
       {| res := Ok tt;
          post := {| self_obj := initialized (self_obj st) d cb; world := w2 |};
          trace := [EvHaveCorpusSeqIdx d (Ok true); EvHaveGetCorpusSeq d (Ok true)] |}).
Proof.
  unfold MapStyleDatasetPerEpochWrapper.__int__. split_and!.
  - intros w1 H1. run_call H1. reflexivity.
  - intros w1 w2 H1 H2. run_call H1. run_call H2. reflexivity.
  - intros w1 w2 H1 H2. run_call H1. run_call H2. reflexivity.
Qed.

(** X2: the body of [MapStyleDatasetFullWrapper.__int__] asks
    [have_get_corpus_seq()] only; on false it ends in [AssertionError] with
    [self] unchanged, on true it stores the dataset and the callback. *)
Theorem full_int_guards_assignments d cb st :
  (∀ w1,
     have_get_corpus_seq d (world st) = (Ok false, w1) →
     MapStyleDatasetFullWrapper.__int__ d cb st =
       {| res := Raise (PyExc "AssertionError" "");
          post := {| self_obj := self_obj st; world := w1 |};
          trace := [EvHaveGetCorpusSeq d (Ok false)] |})
  ∧ (∀ w1,
     have_get_corpus_seq d (world st) = (Ok true, w1) →
     MapStyleDatasetFullWrapper.__int__ d cb st =
       {| res := Ok tt;
          post := {| self_obj := initialized (self_obj st) d cb; world := w1 |};
          trace := [EvHaveGetCorpusSeq d (Ok true)] |}).
Proof.
  unfold MapStyleDatasetFullWrapper.__int__. split_and!.
  - intros w1 H1. run_call H1. reflexivity.
  - intros w1 H1. run_call H1. reflexivity.
Qed.

(** *** Construction of the stream wrapper *)

(** X3: constructing an [IterableDatasetWrapper] makes no call at all, so
    any dataset is accepted, and leaves a usable pipe.  [reset()] on the
    new instance calls the callback given to the constructor, once, on the
    dataset given to the constructor, if that callback counts as true;
    without a callback, or with one that counts as false, it makes no
    call.  In each case [reset()] leaves the bookkeeping of the base class
    in the instance. *)
Theorem iterable_construct_then_reset d cb (w : World) :
  ∃ self,
    type_call IterableDatasetWrapper_class (DatasetArgs d cb) w =
      {| res := Ok self; post := {| self_obj := self; world := w |}; trace := [] |}
    ∧ pipe_usable self = true
    ∧ ∀ w',
        IterableDatasetWrapper.reset {| self_obj := self; world := w' |} =
          match cb with
          | Some f =>
              if cb_truth f then
                {| res := (cb_call f d w').1;
                   post := {| self_obj := reset_marks (cb_call f d w').1 self;
                              world := (cb_call f d w').2 |};
                   trace := [EvResetCallback f d (cb_call f d w').1] |}
              else
                {| res := Ok tt;
                   post := {| self_obj := reset_marks (Ok tt) self; world := w' |};
                   trace := [] |}
          | None =>
              {| res := Ok tt;
                 post := {| self_obj := reset_marks (Ok tt) self; world := w' |};
                 trace := [] |}
          end.
Proof.
  destruct (iterable_construction d cb w) as (self & Hrun & _ & Hd & Hc & _ & Hp).
  exists self. split; [done|]. split; [done|]. intros w'.
  rewrite (stream_reset_run d {| self_obj := self; world := w' |} cb Hd Hc).
  apply pipe_usable_inv in Hp as (_ & Hsnap & _). cbn [self_obj world]. rewrite Hsnap.
  unfold callback_run. destruct cb as [f|]; [destruct (cb_truth f)|]; done.
Qed.

(** *** Random access *)

(** X4: [MapStyleDatasetPerEpochWrapper.__getitem__] is
    [MapStyleDatasetFullWrapper.__getitem__] at the index that
    [get_corpus_seq_idx] returns: same result, success or failure, same
    final state, and the same calls after the call of the mapping. *)
Theorem per_epoch_getitem_is_full_after_mapping d st (index corpus_seq_idx : Z) w1
    (H : holds_dataset (self_obj st) d)
    (Hidx : get_corpus_seq_idx d index (world st) = (Ok corpus_seq_idx, w1)) :
  let full := MapStyleDatasetFullWrapper.__getitem__ corpus_seq_idx
                {| self_obj := self_obj st; world := w1 |} in
  MapStyleDatasetPerEpochWrapper.__getitem__ index st =
    {| res := res full;
       post := post full;
       trace := EvGetCorpusSeqIdx d index (Ok corpus_seq_idx) :: trace full |}.
Proof.
  unfold MapStyleDatasetPerEpochWrapper.__getitem__, MapStyleDatasetFullWrapper.__getitem__.
  read_attr H. run_call Hidx. rewrite !bind_run.
  destruct (res (getattr "_dataset" _)); reflexivity.
Qed.

(** *** Iteration: edge cases and bounds *)

(** X5: on a dataset whose [is_less_than_num_seqs(0)] is false, the stream
    is empty: once the reset callback, if the instance holds one that
    counts as true, and [get_data_keys()] have returned, the iteration asks
    the predicate for the index 0 and ends; it yields nothing, loads and
    reads nothing, and writes nothing but the bookkeeping of the base class
    into the instance. *)
Theorem empty_dataset_gives_empty_stream body fuel d cb st keys w0 tr0 w1 w2
    (Hd : holds_dataset (self_obj st) d)
    (Hcb : holds_callback (self_obj st) cb)
    (Hpipe : pipe_usable (self_obj st) = true)
    (Hreset : callback_run cb d (world st)
              = {| eff_res := Ok tt; eff_world := w0; eff_calls := tr0 |})
    (Hkeys : get_data_keys d w0 = (Ok keys, w1))
    (Hmore : is_less_than_num_seqs d 0 w1 = (Ok false, w2)) :
  ∃ self',
    consume body (S fuel) IterableDatasetWrapper.__iter__ st =
      {| items := []; ended := Exhausted;
         final := {| self_obj := self'; world := w2 |};
         calls := tr0 ++ [EvGetDataKeys d (Ok keys); EvIsLessThanNumSeqs d 0 (Ok false)] |}
    ∧ same_own (self_obj st) self'.
Proof.
  destruct (consume_fresh_serves d cb st keys w0 tr0 w1 body [] [] w1
              Hd Hcb Hpipe Hreset Hkeys (serves_nil d keys body 0 w1)) as [_ Hex].
  destruct (Hex (S fuel) w2) as [self' Hrun]; [cbn; lia|done|].
  exists self'. split; [exact Hrun|].
  pose proof (own_consume body (S fuel) IterableDatasetWrapper.__iter__ st) as Hown.
  by rewrite Hrun in Hown.
Qed.

(** X6: in every iteration the log is faithful, the sequence of item [j] is
    loaded by the [j]-th call of [load_seqs], which is [load_seqs(j, j + 1)]
    and returned, and its fields are read by one [get_data(j, k)] per entry
    [k] of the key list that [get_data_keys()] returned, in the order of
    the list; no range is loaded that does not start at the index of its
    call and hold one sequence.  And the calls are made: where the dataset
    serves [n] sequences and then answers false, the loads of a consumer
    that asks for more are the [n] ranges from i to i + 1, and the reads of
    each index below [n] ask the keys in their order. *)
Theorem iteration_loads_once_reads_each_key body fuel d st
    (H : holds_dataset (self_obj st) d) :
  let r := consume body fuel IterableDatasetWrapper.__iter__ st in
  (Forall genuine (calls r)
   ∧ (∀ (j : nat) data, items r !! j = Some data →
        ∃ pre data_keys tr,
          reset_calls d pre
          ∧ calls r = pre ++ EvGetDataKeys d (Ok data_keys) :: tr
          ∧ reads_at (Z.of_nat j) (calls r) = data_keys
          ∧ loads (calls r) !! j = Some (Z.of_nat j, Z.of_nat j + 1, Ok tt))
   ∧ (∀ (j : nat) s e x, loads (calls r) !! j = Some (s, e, x) →
        s = Z.of_nat j ∧ e = s + 1 ∧ (j ≤ length (items r))%nat))
  ∧ (∀ cb keys w0 tr0 w1 its tr w' w'',
       holds_callback (self_obj st) cb →
       pipe_usable (self_obj st) = true →
       callback_run cb d (world st)
         = {| eff_res := Ok tt; eff_world := w0; eff_calls := tr0 |} →
       get_data_keys d w0 = (Ok keys, w1) →
       serves d keys body 0 w1 its tr w' →
       is_less_than_num_seqs d (Z.of_nat (length its)) w' = (Ok false, w'') →
       (length its < fuel)%nat →
       loads (calls r) = (λ i, (i, i + 1, Ok tt)) <$> seqZ 0 (Z.of_nat (length its))
       ∧ ∀ j : nat, (j < length its)%nat → reads_at (Z.of_nat j) (calls r) = keys).
Proof.
  intros r. split.
  - split; [apply genuine_consume|].
    pose proof (consume_fresh d body fuel st H) as Hfresh.
    cbn zeta in Hfresh. fold r in Hfresh.
    destruct Hfresh as [(-> & Hi & He & Hc)
                       |[(pre & e & Hpre & Hi & He & Hc)
                        |(pre & keys & tr & Hf & Hpre & Hc & Hit)]].
    + rewrite Hi, Hc. done.
    + destruct (reset_calls_silent d pre Hpre) as (_ & Hl & _).
      assert (loads (calls r) = []) as ->.
      { destruct Hc as [->|[e0 ->]]; [done|]. unfold loads in *. by rewrite omap_app, Hl. }
      rewrite Hi. done.
    + destruct (reset_calls_silent d pre Hpre) as (_ & Hl & Hr).
      assert (loads (calls r) = loads tr) as ->.
      { rewrite Hc. unfold loads in *. by rewrite omap_app, Hl. }
      assert (∀ i, reads_at i (calls r) = reads_at i tr) as Hreads.
      { intros i. rewrite Hc. unfold reads_at in *. by rewrite omap_app, Hr. }
      split.
      * intros j data Hj. exists pre, keys, tr. split; [done|]. split; [done|].
        destruct (iteration_item_calls _ _ _ _ _ _ _ _ _ Hit Hj) as [Hk Hl'].
        replace (-1 + 1 + Z.of_nat j) with (Z.of_nat j) in * by lia.
        by rewrite Hreads.
      * intros j s e x Hj.
        destruct (iteration_loads_in_order _ _ _ _ _ _ _ _ _ _ _ Hit Hj) as (-> & -> & Hle).
        split_and!; [lia|done|done].
  - intros cb keys w0 tr0 w1 its tr w' w'' Hcb Hpipe Hreset Hkeys Hserves Hstop Hfuel.
    destruct (consume_fresh_serves d cb st keys w0 tr0 w1 body its tr w'
                H Hcb Hpipe Hreset Hkeys Hserves) as [_ Hex].
    destruct (Hex fuel w'' Hfuel Hstop) as (self' & Hrun). subst r. rewrite Hrun. cbn.
    destruct (serves_calls d keys body 0 w1 its tr w' Hserves) as [_ Hl].
    destruct (serves_reads d keys body 0 w1 its tr w' Hserves) as [_ Hk].
    assert (loads tr0 = [] ∧ ∀ j, reads_at j tr0 = []) as [Hl0 Hr0].
    { unfold callback_run in Hreset.
      destruct cb as [f|]; [destruct (cb_truth f)|]; by inversion Hreset. }
    unfold loads, reads_at in *. split.
    + rewrite omap_app, Hl0. cbn. by rewrite omap_app, Hl, app_nil_r.
    + intros j Hj. rewrite omap_app, Hr0. cbn. rewrite omap_app. cbn.
      rewrite app_nil_r. rewrite <-(Hk j Hj). by rewrite Z.add_0_l.
Qed.

(** *** The stream is as long as the predicate says *)

Lemma consume_fresh_answers d body fuel st (j : nat) m x :
  holds_dataset (self_obj st) d →
  has_more (calls (consume body fuel IterableDatasetWrapper.__iter__ st)) !! j = Some (m, x) →
  ∃ w, x = (is_less_than_num_seqs d m w).1.
Proof.
  intros H.
  pose proof (genuine_consume body fuel IterableDatasetWrapper.__iter__ st) as Hg.
  destruct (consume_fresh d body fuel st H)
    as [(_ & _ & _ & Hc)|[(pre & e & Hpre & _ & _ & Hc)|(pre & keys & tr & _ & Hpre & Hc & Hit)]].
  - by rewrite Hc.
  - destruct (reset_calls_silent d pre Hpre) as (Hm & _ & _).
    destruct Hc as [->|[e0 ->]]; unfold has_more in *; [by rewrite Hm|].
    by rewrite omap_app, Hm.
  - destruct (reset_calls_silent d pre Hpre) as (Hm & _ & _).
    rewrite Hc in Hg |- *. unfold has_more in *. rewrite omap_app, Hm. cbn.
    apply Forall_app in Hg as [_ Hg]. apply Forall_cons in Hg as [_ Hg].
    by apply stream_answers; [apply (iteration_stream_calls _ _ _ _ _ _ _ Hit)|].
Qed.


(** *** The stream needs four methods of the dataset *)

(** X8: the calls of an iteration are at most one call of the reset
    callback on the wrapped dataset, which the hook of the base class
    makes before the generator starts, and after it only calls of
    [get_data_keys], [is_less_than_num_seqs], [load_seqs] and [get_data] on
    the wrapped dataset: the stream never asks for [num_seqs] or the total
    number of sequences and never uses the corpus addressing. *)
Theorem iteration_uses_four_methods body fuel d st
    (H : holds_dataset (self_obj st) d) :
  ∃ pre rest,
    calls (consume body fuel IterableDatasetWrapper.__iter__ st) = pre ++ rest
    ∧ reset_calls d pre ∧ Forall (stream_call d) rest.
Proof.
  destruct (consume_fresh d body fuel st H)
    as [(_ & _ & _ & ->)|[(pre & e & Hpre & _ & _ & Hc)|(pre & keys & tr & _ & Hpre & -> & Hit)]].
  - exists [], []. split; [done|]. split; [by left|constructor].
  - destruct Hc as [->|[e0 ->]].
    + exists pre, []. split; [by rewrite app_nil_r|]. split; [done|constructor].
    + eexists pre, _. split; [done|]. split; [done|]. by repeat constructor.
  - eexists pre, _. split; [done|]. split; [done|].
    constructor; [done|]. by apply iteration_stream_calls in Hit.
Qed.

(** *** The pipe stays usable *)

Lemma usable_keeps {A} (m : Meth A) : keeps m → stays_usable m.
Proof. intros Hm st. by rewrite Hm. Qed.

Lemma usable_bind {A B} (m : Meth A) (f : A → Meth B) :
  stays_usable m → (∀ a, stays_usable (f a)) → stays_usable (m ≫= f).
Proof.
  intros Hm Hf st Hst. rewrite bind_run.
  destruct (res (m st)) as [a|e]; cbn; [apply Hf|]; by apply Hm.
Qed.

Lemma usable_if {A} (b : bool) (m1 m2 : Meth A) :
  stays_usable m1 → stays_usable m2 → stays_usable (if b then m1 else m2).
Proof. by destruct b. Qed.

Lemma usable_try_except {A} (m : Meth A) :
  stays_usable m → stays_usable (IterDataPipe.try_except m).
Proof.
  intros Hm st Hst. unfold IterDataPipe.try_except.
  specialize (Hm st Hst). by destruct (res (m st)).
Qed.

Lemma usable_setattr name (v : @pyval World ndarray) :
  (name = "_fast_forward_iterator" → truthy v = false) →
  (name = "_snapshot_state" → IterDataPipe.resettable v = true) →
  (name = "_valid_iterator_id" → v = VNone ∨ ∃ n, v = VInt n) →
  stays_usable (setattr name v).
Proof.
  intros Hff Hsnap Hid st. unfold pipe_usable, snapshot_of. cbn.
  intros [[H1 H2]%andb_true_iff H3]%andb_true_iff.
  apply andb_true_iff. split; [apply andb_true_iff; split|].
  - destruct (decide (name = "_fast_forward_iterator")) as [->|Hne].
    + rewrite lookup_insert_eq. cbn. by rewrite Hff.
    + by rewrite lookup_insert_ne.
  - destruct (decide (name = "_snapshot_state")) as [->|Hne].
    + rewrite lookup_insert_eq. cbn. by rewrite Hsnap.
    + by rewrite lookup_insert_ne.
  - destruct (decide (name = "_valid_iterator_id")) as [->|Hne].
    + rewrite lookup_insert_eq. cbn. by destruct (Hid eq_refl) as [->|[n ->]].
    + by rewrite lookup_insert_ne.
Qed.

Ltac usable :=
  first
    [ assumption
    | lazymatch goal with
      | |- keeps_usable (_ ≫= _) => apply usable_bind; [usable | intros ?; usable]
      | |- keeps_usable (if _ then _ else _) => apply usable_if; usable
      | |- keeps_usable (match ?v with _ => _ end) => destruct v; usable
      | |- keeps_usable (setattr _ _) =>
          apply usable_setattr; intros Hname; first [discriminate Hname | eauto]
      | |- keeps_usable (IterDataPipe.try_except _) => apply usable_try_except; usable
      | _ => first [solve [eauto] | apply usable_keeps; first [by intros ? | frame]]
      end ].

Lemma usable_reset : stays_usable IterableDatasetWrapper.reset.
Proof.
  pose proof (usable_keeps _ keeps_self_reset_func).
  unfold IterableDatasetWrapper.reset, IterDataPipe.conditional_reset. usable.
Qed.

Lemma usable_wrap_generator g :
  stays_usable (IterDataPipe.wrap_generator IterableDatasetWrapper.reset
                  IterableDatasetWrapper.resume g).
Proof.
  pose proof usable_reset.
  assert (∀ g', stays_usable (IterableDatasetWrapper.resume g'))
    by (intros g'; apply usable_keeps, keeps_self_resume).
  destruct g as [|iterator_id gen|];
    unfold IterDataPipe.wrap_generator, IterDataPipe._set_datapipe_valid_iterator_id,
      IterDataPipe._check_iterator_valid, IterDataPipe.after_send, IterDataPipe.count_sample;
    usable.
Qed.

Lemma usable_consume body fuel g st :
  pipe_usable (self_obj st) = true →
  pipe_usable (self_obj (final (consume body fuel g st))) = true.
Proof.
  revert g st. induction fuel as [|fuel IH]; intros g st Hst; [done|].
  rewrite consume_step. cbn zeta.
  pose proof (usable_wrap_generator g st Hst) as Hg.
  set (o := IterDataPipe.wrap_generator _ _ _ st) in *. clearbody o.
  destruct (res o) as [[[data g']|]|e]; cbn; [|done..].
  by apply IH.
Qed.


End Properties.

(** ** The properties on the concrete datasets *)
Section Concrete.
Import Example.

(** C4: constructing a map-style wrapper from a dataset does not reach
    the capability assertion of [__int__]: for a dataset without the
    corpus capabilities and for one with them alike, the constructor call
    is a [TypeError] and the dataset is not asked.  Called by hand, the
    body of [__int__] does refuse the first and accept the second. *)
Theorem map_style_construction_skips_assertion :
  (type_call MapStyleDatasetPerEpochWrapper_class (DatasetArgs plain None) [] =
     {| res := Raise (PyExc "TypeError" "MapStyleDatasetPerEpochWrapper() takes no arguments");
        post := {| self_obj := new_object MapStyleDatasetPerEpochWrapper_class; world := [] |};
        trace := [] |}
   ∧ type_call MapStyleDatasetFullWrapper_class (DatasetArgs plain None) [] =
     {| res := Raise (PyExc "TypeError" "MapStyleDatasetFullWrapper() takes no arguments");
        post := {| self_obj := new_object MapStyleDatasetFullWrapper_class; world := [] |};
        trace := [] |})
  ∧ (res (type_call MapStyleDatasetPerEpochWrapper_class (DatasetArgs toy None) []) =
       Raise (PyExc "TypeError" "MapStyleDatasetPerEpochWrapper() takes no arguments")
     ∧ res (type_call MapStyleDatasetFullWrapper_class (DatasetArgs toy None) []) =
       Raise (PyExc "TypeError" "MapStyleDatasetFullWrapper() takes no arguments"))
  ∧ (res (MapStyleDatasetPerEpochWrapper.__int__ plain None
            (blank MapStyleDatasetPerEpochWrapper_class)) = Raise (PyExc "AssertionError" "")
     ∧ trace (MapStyleDatasetPerEpochWrapper.__int__ plain None
                (blank MapStyleDatasetPerEpochWrapper_class)) =
         [EvHaveCorpusSeqIdx plain (Ok false)]
     ∧ res (MapStyleDatasetFullWrapper.__int__ plain None
              (blank MapStyleDatasetFullWrapper_class)) = Raise (PyExc "AssertionError" "")
     ∧ res (MapStyleDatasetPerEpochWrapper.__int__ toy None
              (blank MapStyleDatasetPerEpochWrapper_class)) = Ok tt
     ∧ holds_dataset
         (self_obj (post (MapStyleDatasetPerEpochWrapper.__int__ toy None
                            (blank MapStyleDatasetPerEpochWrapper_class)))) toy).
Proof. split_and!; reflexivity. Qed.

Abbreviation per_epoch_start := (start "MapStyleDatasetPerEpochWrapper" None).

Lemma len_is_dataset_count_witness :
  holds_dataset (self_obj per_epoch_start) toy
  ∧ res (MapStyleDatasetPerEpochWrapper.__len__ per_epoch_start) = Ok 2
  ∧ res (MapStyleDatasetFullWrapper.__len__ per_epoch_start) = Ok 5.
Proof.
  assert (holds_dataset (self_obj per_epoch_start) toy) as H by reflexivity.
  split; [exact H|].
  destruct (len_is_dataset_count toy per_epoch_start H) as [-> ->]. split; reflexivity.
Defined.

Lemma getitem_addressing_witness :
  holds_dataset (self_obj per_epoch_start) toy
  ∧ MapStyleDatasetPerEpochWrapper.__getitem__ 1 per_epoch_start =
      {| res := Ok {[ "data" := 103 ]};
         post := per_epoch_start;
         trace := [EvGetCorpusSeqIdx toy 1 (Ok 3);
                   EvGetCorpusSeq toy 3 (Ok {| features := {[ "data" := 103 ]} |})] |}
  ∧ MapStyleDatasetFullWrapper.__getitem__ 1 per_epoch_start =
      {| res := Ok {[ "data" := 101 ]};
         post := per_epoch_start;
         trace := [EvGetCorpusSeq toy 1 (Ok {| features := {[ "data" := 101 ]} |})] |}.
Proof.
  assert (holds_dataset (self_obj per_epoch_start) toy) as H by reflexivity.
  split; [exact H|].
  destruct (getitem_addressing toy per_epoch_start 1 H) as [Hper Hfull]. split.
  - exact (Hper 3 [] {| features := {[ "data" := 103 ]} |} [] eq_refl eq_refl).
  - exact (Hfull {| features := {[ "data" := 101 ]} |} [] eq_refl).
Defined.

(** *** Reset *)

(** C6 as stated does not hold.  A callback that was supplied at
    construction and counts as false in a condition is not called by
    [reset()], by none of the three bodies.  And without a callback,
    [reset()] of the stream wrapper does act: it writes into the
    instance. *)
Lemma reset_skips_falsy_callback_and_writes :
  (res (type_call IterableDatasetWrapper_class (DatasetArgs toy (Some mute)) [(0, 1)])
     = Ok (self_obj (stream toy (Some mute)))
   ∧ holds_callback (self_obj (stream toy (Some mute))) (Some mute)
   ∧ trace (IterableDatasetWrapper.reset (stream toy (Some mute))) = []
   ∧ trace (MapStyleDatasetPerEpochWrapper.reset
              (start "MapStyleDatasetPerEpochWrapper" (Some mute))) = []
   ∧ trace (MapStyleDatasetFullWrapper.reset
              (start "MapStyleDatasetFullWrapper" (Some mute))) = [])
  ∧ (holds_callback (self_obj (holding toy)) None
     ∧ post (IterableDatasetWrapper.reset (holding toy)) ≠ holding toy
     ∧ ob_dict (self_obj (post (IterableDatasetWrapper.reset (holding toy))))
         !! "_snapshot_state" = Some (VSnapshotState Iterating)).
Proof.
  split; [split_and!; reflexivity|]. split; [reflexivity|]. split; [|reflexivity].
  intros Heq. apply (f_equal (λ st, ob_dict (self_obj st) !! "_snapshot_state")) in Heq.
  vm_compute in Heq. discriminate Heq.
Qed.

Lemma reset_invokes_callback_once_witness :
  (holds_dataset (self_obj (stream toy (Some init_epoch))) toy
   ∧ holds_callback (self_obj (stream toy (Some init_epoch))) (Some init_epoch))
  ∧ MapStyleDatasetFullWrapper.reset (stream toy (Some init_epoch)) =
      {| res := Ok tt;
         post := {| self_obj := self_obj (stream toy (Some init_epoch)); world := [] |};
         trace := [EvResetCallback init_epoch toy (Ok tt)] |}
  ∧ IterableDatasetWrapper.reset (stream toy (Some init_epoch)) =
      {| res := Ok tt;
         post := {| self_obj := reset_marks (Ok tt) (self_obj (stream toy (Some init_epoch)));
                    world := [] |};
         trace := [EvResetCallback init_epoch toy (Ok tt)] |}.
Proof.
  assert (holds_dataset (self_obj (stream toy (Some init_epoch))) toy) as Hd by reflexivity.
  assert (holds_callback (self_obj (stream toy (Some init_epoch))) (Some init_epoch))
    as Hc by reflexivity.
  split; [by split|].
  destruct (reset_invokes_callback_once toy _ (Some init_epoch) Hd Hc)
    as (_ & Hfull & Hstream & _).
  split; [exact Hfull|exact (Hstream eq_refl)].
Defined.

(** *** What the operations write *)

(** C8 as stated does not hold: [reset()] and an iteration of the stream
    wrapper leave the instance with attributes it did not have. *)
Lemma stream_operations_write_bookkeeping :
  dom (ob_dict (self_obj (holding toy))) = {[ "_dataset"; "_reset_callback" ]}
  ∧ self_obj (post (IterableDatasetWrapper.reset (holding toy))) ≠ self_obj (holding toy)
  ∧ ob_dict (self_obj (post (IterableDatasetWrapper.reset (holding toy))))
      !! "_number_of_samples_yielded" = Some (VInt 0)
  ∧ self_obj (final (consume idle 5 IterableDatasetWrapper.__iter__ (holding toy)))
    ≠ self_obj (holding toy)
  ∧ ob_dict (self_obj (final (consume idle 5 IterableDatasetWrapper.__iter__ (holding toy))))
      !! "_valid_iterator_id" = Some (VInt 0)
  ∧ ob_dict (self_obj (final (consume idle 5 IterableDatasetWrapper.__iter__ (holding toy))))
      !! "_number_of_samples_yielded" = Some (VInt 2).
Proof.
  split_and!; try reflexivity.
  - intros Heq. apply (f_equal (λ o, ob_dict o !! "_number_of_samples_yielded")) in Heq.
    vm_compute in Heq. discriminate Heq.
  - intros Heq. apply (f_equal (λ o, ob_dict o !! "_valid_iterator_id")) in Heq.
    vm_compute in Heq. discriminate Heq.
Qed.

(** *** Failures *)


Lemma broken_read_is_made :
  broken_read ∈ calls (consume idle 5 IterableDatasetWrapper.__iter__ (stream broken None)).
Proof.
  assert (last (calls (consume idle 5 IterableDatasetWrapper.__iter__ (stream broken None)))
          = Some broken_read) as Hl by reflexivity.
  apply last_Some in Hl as [l ->]. apply elem_of_app. right. apply list_elem_of_here.
Qed.


(** *** Iteration *)

Lemma toy_serves :
  serves toy ["data"; "classes"] idle 0 [] toy_items toy_turns [(1, 2); (0, 1)].
Proof.
  unfold toy_items, toy_turns.
  eapply serves_cons; [reflexivity|reflexivity| |].
  { eapply fields_cons; [reflexivity|]. eapply fields_cons; [reflexivity|]. apply fields_nil. }
  eapply serves_cons; [reflexivity|reflexivity| |].
  { eapply fields_cons; [reflexivity|]. eapply fields_cons; [reflexivity|]. apply fields_nil. }
  apply serves_nil.
Qed.

Lemma iteration_yields_dataset_items_witness :
  (holds_dataset (self_obj (stream toy (Some init_epoch))) toy
   ∧ holds_callback (self_obj (stream toy (Some init_epoch))) (Some init_epoch)
   ∧ pipe_usable (self_obj (stream toy (Some init_epoch))) = true
   ∧ callback_run (Some init_epoch) toy [(0, 1)]
     = {| eff_res := Ok tt; eff_world := [];
          eff_calls := [EvResetCallback init_epoch toy (Ok tt)] |}
   ∧ get_data_keys toy [] = (Ok ["data"; "classes"], [])
   ∧ serves toy ["data"; "classes"] idle 0 [] toy_items toy_turns [(1, 2); (0, 1)])
  ∧ (items (consume idle 2 IterableDatasetWrapper.__iter__ (stream toy (Some init_epoch)))
       = toy_items
     ∧ (∃ g, ended (consume idle 2 IterableDatasetWrapper.__iter__
                      (stream toy (Some init_epoch))) = Pending g)
     ∧ world (final (consume idle 2 IterableDatasetWrapper.__iter__
                       (stream toy (Some init_epoch)))) = [(1, 2); (0, 1)])
  ∧ (items (consume idle 5 IterableDatasetWrapper.__iter__ (stream toy (Some init_epoch)))
       = toy_items
     ∧ ended (consume idle 5 IterableDatasetWrapper.__iter__ (stream toy (Some init_epoch)))
       = Exhausted
     ∧ world (final (consume idle 5 IterableDatasetWrapper.__iter__
                       (stream toy (Some init_epoch)))) = [(1, 2); (0, 1)]).
Proof.
  assert (holds_dataset (self_obj (stream toy (Some init_epoch))) toy) as Hd by reflexivity.
  assert (holds_callback (self_obj (stream toy (Some init_epoch))) (Some init_epoch))
    as Hc by reflexivity.
  assert (pipe_usable (self_obj (stream toy (Some init_epoch))) = true) as Hp by reflexivity.
  split; [split_and!; [exact Hd|exact Hc|exact Hp|reflexivity|reflexivity|exact toy_serves]|].
  destruct (iteration_yields_dataset_items idle toy (Some init_epoch)
              (stream toy (Some init_epoch)) ["data"; "classes"] []
              [EvResetCallback init_epoch toy (Ok tt)] [] toy_items toy_turns [(1, 2); (0, 1)]
              Hd Hc Hp eq_refl eq_refl toy_serves) as (Hpend & Hex & _).
  split.
  - apply Hpend. discriminate.
  - apply (Hex 5%nat [(1, 2); (0, 1)]); [cbn; lia|reflexivity].
Defined.

Lemma iteration_loads_before_reading_in_order_witness :
  holds_dataset (self_obj (stream toy (Some init_epoch))) toy
  ∧ calls (consume idle 5 IterableDatasetWrapper.__iter__ (stream toy (Some init_epoch)))
    = [EvResetCallback init_epoch toy (Ok tt)]
      ++ EvGetDataKeys toy (Ok ["data"; "classes"])
         :: toy_turns ++ [EvIsLessThanNumSeqs toy 2 (Ok false)]
  ∧ has_more (calls (consume idle 5 IterableDatasetWrapper.__iter__
                       (stream toy (Some init_epoch))))
    = [(0, Ok true); (1, Ok true); (2, Ok false)]
  ∧ loads (calls (consume idle 5 IterableDatasetWrapper.__iter__
                    (stream toy (Some init_epoch))))
    = [(0, 1, Ok tt); (1, 2, Ok tt)]
  ∧ ended (consume idle 5 IterableDatasetWrapper.__iter__ (stream toy (Some init_epoch)))
    = Exhausted.
Proof.
  assert (holds_dataset (self_obj (stream toy (Some init_epoch))) toy) as Hd by reflexivity.
  split; [exact Hd|].
  refine (proj2 (iteration_loads_before_reading_in_order idle 5 toy
                   (stream toy (Some init_epoch)) Hd)
            (Some init_epoch) ["data"; "classes"] []
            [EvResetCallback init_epoch toy (Ok tt)] [] toy_items toy_turns
            [(1, 2); (0, 1)] [(1, 2); (0, 1)] eq_refl eq_refl eq_refl eq_refl toy_serves
            eq_refl _).
  cbn. lia.
Defined.

(** The toy stream, run to its end by a wrapper made by the constructor:
    two items, then the predicate answers false for the index 2; the
    callback runs first. *)
Example toy_stream :
  items (consume idle 5 IterableDatasetWrapper.__iter__ (stream toy (Some init_epoch)))
    = [ {[ "data" := 1; "classes" := 2 ]}; {[ "data" := 11; "classes" := 12 ]} ]
  ∧ ended (consume idle 5 IterableDatasetWrapper.__iter__ (stream toy (Some init_epoch)))
    = Exhausted
  ∧ calls (consume idle 5 IterableDatasetWrapper.__iter__ (stream toy (Some init_epoch))) =
      [ EvResetCallback init_epoch toy (Ok tt);
        EvGetDataKeys toy (Ok ["data"; "classes"]);
        EvIsLessThanNumSeqs toy 0 (Ok true); EvLoadSeqs toy 0 1 (Ok tt);
        EvGetData toy 0 "data" (Ok 1); EvGetData toy 0 "classes" (Ok 2);
        EvIsLessThanNumSeqs toy 1 (Ok true); EvLoadSeqs toy 1 2 (Ok tt);
        EvGetData toy 1 "data" (Ok 11); EvGetData toy 1 "classes" (Ok 12);
        EvIsLessThanNumSeqs toy 2 (Ok false) ].
Proof. split_and!; reflexivity. Qed.

(** A second iterator on the same wrapper invalidates the first: the
    first one, resumed after the second was started, raises without a
    call. *)
Example second_iterator_invalidates_first :
  let first := IterableDatasetWrapper.next IterableDatasetWrapper.__iter__ (stream toy None) in
  let second := IterableDatasetWrapper.next IterableDatasetWrapper.__iter__ (post first.1) in
  let again := IterableDatasetWrapper.next first.2 (post second.1) in
  res first.1 = Ok (Some (<["classes" := 2]> (<["data" := 1]> ∅)))
  ∧ res second.1 = Ok (Some (<["classes" := 2]> (<["data" := 1]> ∅)))
  ∧ res again.1
    = Raise (PyExc "RuntimeError" (IterDataPipe.invalidated_msg "IterableDatasetWrapper"))
  ∧ trace again.1 = [].
Proof. vm_compute. split_and!; reflexivity. Qed.

(** *** The further properties on the concrete datasets *)

Lemma per_epoch_int_guards_assignments_witness :
  MapStyleDatasetPerEpochWrapper.__int__ plain None (blank MapStyleDatasetPerEpochWrapper_class) =
    {| res := Raise (PyExc "AssertionError" "");
       post := blank MapStyleDatasetPerEpochWrapper_class;
       trace := [EvHaveCorpusSeqIdx plain (Ok false)] |}
  ∧ MapStyleDatasetPerEpochWrapper.__int__ half None
      (blank MapStyleDatasetPerEpochWrapper_class) =
    {| res := Raise (PyExc "AssertionError" "");
       post := blank MapStyleDatasetPerEpochWrapper_class;
       trace := [EvHaveCorpusSeqIdx half (Ok true); EvHaveGetCorpusSeq half (Ok false)] |}
  ∧ MapStyleDatasetPerEpochWrapper.__int__ toy None (blank MapStyleDatasetPerEpochWrapper_class) =
    {| res := Ok tt;
       post := {| self_obj :=
                    initialized (new_object MapStyleDatasetPerEpochWrapper_class) toy None;
                  world := [] |};
       trace := [EvHaveCorpusSeqIdx toy (Ok true); EvHaveGetCorpusSeq toy (Ok true)] |}.
Proof.
  split_and!.
  - exact (proj1 (per_epoch_int_guards_assignments plain None
                    (blank MapStyleDatasetPerEpochWrapper_class)) [] eq_refl).
  - exact (proj1 (proj2 (per_epoch_int_guards_assignments half None
                           (blank MapStyleDatasetPerEpochWrapper_class))) [] [] eq_refl eq_refl).
  - exact (proj2 (proj2 (per_epoch_int_guards_assignments toy None
                           (blank MapStyleDatasetPerEpochWrapper_class))) [] [] eq_refl eq_refl).
Defined.

Lemma full_int_guards_assignments_witness :
  MapStyleDatasetFullWrapper.__int__ half None (blank MapStyleDatasetFullWrapper_class) =
    {| res := Raise (PyExc "AssertionError" "");
       post := blank MapStyleDatasetFullWrapper_class;
       trace := [EvHaveGetCorpusSeq half (Ok false)] |}
  ∧ MapStyleDatasetFullWrapper.__int__ toy (Some init_epoch)
      (blank MapStyleDatasetFullWrapper_class) =
    {| res := Ok tt;
       post := {| self_obj := initialized (new_object MapStyleDatasetFullWrapper_class) toy
                                (Some init_epoch);
                  world := [] |};
       trace := [EvHaveGetCorpusSeq toy (Ok true)] |}.
Proof.
  split.
  - exact (proj1 (full_int_guards_assignments half None
                    (blank MapStyleDatasetFullWrapper_class)) [] eq_refl).
  - exact (proj2 (full_int_guards_assignments toy (Some init_epoch)
                    (blank MapStyleDatasetFullWrapper_class)) [] eq_refl).
Defined.

Lemma per_epoch_getitem_is_full_after_mapping_witness :
  holds_dataset (self_obj per_epoch_start) toy
  ∧ get_corpus_seq_idx toy 7 (world per_epoch_start) = (Ok (-3), [])
  ∧ MapStyleDatasetPerEpochWrapper.__getitem__ 7 per_epoch_start =
      {| res := res (MapStyleDatasetFullWrapper.__getitem__ (-3) per_epoch_start);
         post := post (MapStyleDatasetFullWrapper.__getitem__ (-3) per_epoch_start);
         trace := EvGetCorpusSeqIdx toy 7 (Ok (-3))
                  :: trace (MapStyleDatasetFullWrapper.__getitem__ (-3) per_epoch_start) |}.
Proof.
  assert (holds_dataset (self_obj per_epoch_start) toy) as H by reflexivity.
  split; [exact H|]. split; [reflexivity|].
  exact (per_epoch_getitem_is_full_after_mapping toy per_epoch_start 7 (-3) [] H eq_refl).
Defined.

Lemma empty_dataset_gives_empty_stream_witness :
  (holds_dataset (self_obj (stream empty (Some init_epoch))) empty
   ∧ holds_callback (self_obj (stream empty (Some init_epoch))) (Some init_epoch)
   ∧ pipe_usable (self_obj (stream empty (Some init_epoch))) = true)
  ∧ ∃ self',
      consume idle 3 IterableDatasetWrapper.__iter__ (stream empty (Some init_epoch)) =
        {| items := []; ended := Exhausted;
           final := {| self_obj := self'; world := [] |};
           calls := [EvResetCallback init_epoch empty (Ok tt)]
                    ++ [EvGetDataKeys empty (Ok ["data"; "classes"]);
                        EvIsLessThanNumSeqs empty 0 (Ok false)] |}
      ∧ same_own (self_obj (stream empty (Some init_epoch))) self'.
Proof.
  assert (holds_dataset (self_obj (stream empty (Some init_epoch))) empty) as Hd
    by reflexivity.
  assert (holds_callback (self_obj (stream empty (Some init_epoch))) (Some init_epoch))
    as Hc by reflexivity.
  assert (pipe_usable (self_obj (stream empty (Some init_epoch))) = true) as Hp
    by reflexivity.
  split; [by split_and!|].
  exact (empty_dataset_gives_empty_stream idle 2 empty (Some init_epoch)
           (stream empty (Some init_epoch)) ["data"; "classes"] []
           [EvResetCallback init_epoch empty (Ok tt)] [] [] Hd Hc Hp eq_refl eq_refl eq_refl).
Defined.

Lemma iteration_loads_once_reads_each_key_witness :
  holds_dataset (self_obj (stream toy (Some init_epoch))) toy
  ∧ loads (calls (consume idle 5 IterableDatasetWrapper.__iter__
                    (stream toy (Some init_epoch))))
    = [(0, 1, Ok tt); (1, 2, Ok tt)]
  ∧ ∀ j : nat, (j < 2)%nat →
      reads_at (Z.of_nat j) (calls (consume idle 5 IterableDatasetWrapper.__iter__
                                      (stream toy (Some init_epoch))))
      = ["data"; "classes"].
Proof.
  assert (holds_dataset (self_obj (stream toy (Some init_epoch))) toy) as H by reflexivity.
  split; [exact H|].
  refine (proj2 (iteration_loads_once_reads_each_key idle 5 toy
                   (stream toy (Some init_epoch)) H)
            (Some init_epoch) ["data"; "classes"] []
            [EvResetCallback init_epoch toy (Ok tt)] [] toy_items toy_turns
            [(1, 2); (0, 1)] [(1, 2); (0, 1)] eq_refl eq_refl eq_refl eq_refl toy_serves
            eq_refl _).
  cbn. lia.
Defined.


Lemma iteration_uses_four_methods_witness :
  holds_dataset (self_obj (stream toy (Some init_epoch))) toy
  ∧ ∃ pre rest,
      calls (consume idle 5 IterableDatasetWrapper.__iter__ (stream toy (Some init_epoch)))
        = pre ++ rest
      ∧ reset_calls toy pre ∧ Forall (stream_call toy) rest.
Proof.
  assert (holds_dataset (self_obj (stream toy (Some init_epoch))) toy) as H by reflexivity.
  split; [exact H|].
  exact (iteration_uses_four_methods idle 5 toy (stream toy (Some init_epoch)) H).
Defined.
End Concrete.
